(** * Lab and ICCBased colour-space writing (devices/vector/gdevpdfk.c)

    A shallow embedding of the CIE colour-space synthesis code of the PDF
    writer, and the properties of it that the design document states.

    Conventions of the embedding:
    - a C [byte] is a [Z] in [0, 256), a C [uint] a [Z] in [0, 2^32); the
      casts that wrap are written out ([to_byte], [to_uint]);
    - C [float] and [double] colour values are real numbers (rounding is
      not modelled); [(int)x] is truncation towards zero;
    - [CompatibilityLevel] is a decimal version number and is only ever
      compared with decimal constants: it is a rational;
    - a function returning an [int] status code returns a [result]; the
      objects it mutates through pointers live in an explicit [pdf_state]. *)

From Stdlib Require Import ZArith QArith Reals Lra Lia List String Ascii Bool.
From Stdlib Require Import Ranalysis1 Rpower R_Ifp.
Import ListNotations.

Set Implicit Arguments.

(** ** Bytes and unsigned words *)

Module Bytes.
Local Open Scope Z_scope.

Definition byte := Z.

(** [(byte)v] *)
Definition to_byte (v : Z) : byte := v mod 256.

(** [(uint)v] *)
Definition to_uint (v : Z) : Z := v mod 2 ^ 32.

Definition bytes_of_string (s : string) : list byte :=
  map (fun c => Z.of_N (N_of_ascii c)) (list_ascii_of_string s).

(** [memset(buf, 0, n)] on a fresh local buffer of [n] bytes. *)
Definition zeros (n : nat) : list byte := repeat 0 n.

(** The [n] bytes read at [src].  The callers pass a buffer of [n] bytes or
    more; reading a C string to its end yields its terminating zero. *)
Definition take_bytes (n : nat) (src : list byte) : list byte :=
  firstn n (src ++ zeros n).

(** [memcpy(dst + off, src, n)] on a buffer held as a list: the [n] bytes at
    [src] replace the bytes of [dst] from [off] on. *)
Definition memcpy (dst : list byte) (off : nat) (src : list byte) (n : nat)
  : list byte :=
  firstn off dst ++ take_bytes n src ++ skipn (off + n) dst.

(** [set_uint32]: big-endian store of a [uint]. *)
Definition set_uint32 (value : Z) : list byte :=
  [ to_byte (Z.shiftr value 24);
    to_byte (Z.shiftr value 16);
    to_byte (Z.shiftr value 8);
    to_byte value ].

(** The big-endian reading of four bytes, the inverse of [set_uint32] that a
    reader of the profile applies to the directory and the header. *)
Definition get_uint32 (bs : list byte) : Z :=
  match bs with
  | [b0; b1; b2; b3] => ((b0 * 256 + b1) * 256 + b2) * 256 + b3
  | _ => 0
  end.

(** Modelled from the spec: the [round_up] macro, declared in a header that
    is not among the sources.  "Each tag's contribution to the accumulator
    is its declared length rounded up to the next multiple of 4"; the
    arithmetic is that of a [uint]. *)
Definition round_up (value modulus : Z) : Z :=
  to_uint ((value + (modulus - 1)) / modulus * modulus).

End Bytes.
Export Bytes.

(** ** Numbers *)

(** The C library and the macros [min] and [max], on doubles. *)
Module C.
Local Open Scope R_scope.

(** [(int)x] for a [double] [x]: truncation towards zero.  A value out
    of the range of [int] has no defined conversion in C: this definition
    describes the code only for -2^31 - 1 < x < 2^31, and the properties of
    the bytes that [set_XYZ] and [set_sample16] store carry the hypothesis
    that the operand is in (-32768, 32768), where the product is in range. *)
Definition int_of_double (x : R) : Z :=
  if Rle_dec 0 x then Int_part x else (- Int_part (- x))%Z.

(** [floor(x)], then the cast to [int]. *)
Definition floor (x : R) : Z := Int_part x.

(** [pow], as the real power function; the code calls it on positive bases
    only. *)
Definition pow (x y : R) : R := Rpower x y.

Definition min (a b : R) : R := if Rlt_dec a b then a else b.
Definition max (a b : R) : R := if Rlt_dec b a then a else b.

End C.

(** ** Colour-space descriptions *)

Record gs_vector3 := { u : R; v : R; w : R }.
Record gs_matrix3 := { cu : gs_vector3; cv : gs_vector3; cw : gs_vector3 }.
Record gs_range := { rmin : R; rmax : R }.
Definition gs_range_t := gs_range.

Inductive gs_color_space_index :=
| gs_color_space_index_DeviceGray
| gs_color_space_index_DeviceRGB
| gs_color_space_index_DeviceCMYK
| gs_color_space_index_DevicePixel
| gs_color_space_index_DeviceN
| gs_color_space_index_CIEDEFG
| gs_color_space_index_CIEDEF
| gs_color_space_index_CIEABC
| gs_color_space_index_CIEA
| gs_color_space_index_Separation
| gs_color_space_index_Indexed
| gs_color_space_index_Pattern
| gs_color_space_index_ICC.

Definition gs_color_space_index_eqb (a b : gs_color_space_index) : bool :=
  match a, b with
  | gs_color_space_index_DeviceGray, gs_color_space_index_DeviceGray
  | gs_color_space_index_DeviceRGB, gs_color_space_index_DeviceRGB
  | gs_color_space_index_DeviceCMYK, gs_color_space_index_DeviceCMYK
  | gs_color_space_index_DevicePixel, gs_color_space_index_DevicePixel
  | gs_color_space_index_DeviceN, gs_color_space_index_DeviceN
  | gs_color_space_index_CIEDEFG, gs_color_space_index_CIEDEFG
  | gs_color_space_index_CIEDEF, gs_color_space_index_CIEDEF
  | gs_color_space_index_CIEABC, gs_color_space_index_CIEABC
  | gs_color_space_index_CIEA, gs_color_space_index_CIEA
  | gs_color_space_index_Separation, gs_color_space_index_Separation
  | gs_color_space_index_Indexed, gs_color_space_index_Indexed
  | gs_color_space_index_Pattern, gs_color_space_index_Pattern
  | gs_color_space_index_ICC, gs_color_space_index_ICC => true
  | _, _ => false
  end.

(** The native data colour space an ICC profile declares: the values the
    switch of [pdf_iccbased_color_space] names. *)
Inductive gsicc_colorbuffer_t :=
| gsUNDEFINED | gsGRAY | gsRGB | gsCMYK | gsNCHANNEL | gsCIEXYZ | gsCIELAB
| gsNAMED.

(** The profile a colour space carries.  [vers_major] and [vers_minor] are
    the two bytes [gsicc_getprofilevers] reports; [v2_buffer] is the buffer
    the colour-management system hands out when asked for an earlier version
    of the profile ([gsicc_create_getv2buffer]). *)
Record cmm_profile_t := {
  data_cs : gsicc_colorbuffer_t;
  num_comps : Z;
  Range : list gs_range;
  buffer : list byte;
  buffer_size : Z;
  profile_handle : bool;
  vers_major : Z;
  vers_minor : Z;
  v2_buffer : list byte
}.

Record gs_cie_wb := { WhitePoint : gs_vector3; BlackPoint : gs_vector3 }.

(** The common part of a CIE space.  [DecodeABC] belongs to the [gs_cie_abc]
    that starts with this common part; [write_trc_abc] reaches it through a
    pointer cast. *)
Record gs_cie_common := {
  points : gs_cie_wb;
  DecodeLMN : Z -> R -> R;
  DecodeABC : Z -> R -> R
}.

(** A colour space.  [Decode] and [Matrix] are the per-channel decode
    functions of the space and the columns of its linear matrix. *)
#[local] Unset Elimination Schemes.
Inductive gs_color_space := Build_gs_color_space {
  cs_index : gs_color_space_index;
  cs_num_components : Z;
  Decode : list (R -> R);
  Matrix : list gs_vector3;
  cmm_icc_profile_data : cmm_profile_t;
  base_space : option gs_color_space
}.
#[local] Set Elimination Schemes.

Definition gs_color_space_get_index (pcs : gs_color_space) := cs_index pcs.
Definition gs_color_space_num_components (pcs : gs_color_space) :=
  cs_num_components pcs.

(** The graphics state is only handed on to collaborators. *)
Record gs_gstate := { cie_to_xyz_flag : bool }.

(** ** The CIE concretizer *)

Module Concretize.
Local Open Scope R_scope.

Definition vzero : gs_vector3 := {| u := 0; v := 0; w := 0 |}.

Definition vadd (a b : gs_vector3) : gs_vector3 :=
  {| u := u a + u b; v := v a + v b; w := w a + w b |}.

Definition vscale (k : R) (a : gs_vector3) : gs_vector3 :=
  {| u := k * u a; v := k * v a; w := k * w a |}.

(** Per-channel decode, then the linear matrix: the sum over the channels
    of the decoded value times the channel's matrix column. *)
Fixpoint decode_then_matrix (decode : list (R -> R)) (matrix : list gs_vector3)
    (values : list R) : gs_vector3 :=
  match decode, matrix, values with
  | d :: decode', m :: matrix', x :: values' =>
      vadd (vscale (d x) m) (decode_then_matrix decode' matrix' values')
  | _, _, _ => vzero
  end.

Definition as_array (a : gs_vector3) : list R := [u a; v a; w a].

(** Modelled from the spec: the four [gx_psconcretize_CIE*] procedures,
    which are not among the sources.  "Single-channel spaces apply one
    decode function"; "multi-channel spaces apply per-channel decode
    functions followed by the declared linear matrix".  Each returns the
    [xyz_float] array. *)
Definition gx_psconcretize_CIEA (cc : list R) (pcs : gs_color_space)
    (pgs : gs_gstate) : list R :=
  as_array (decode_then_matrix (firstn 1 (Decode pcs)) (Matrix pcs) cc).

Definition gx_psconcretize_CIEABC (cc : list R) (pcs : gs_color_space)
    (pgs : gs_gstate) : list R :=
  as_array (decode_then_matrix (firstn 3 (Decode pcs)) (Matrix pcs) cc).

Definition gx_psconcretize_CIEDEF (cc : list R) (pcs : gs_color_space)
    (pgs : gs_gstate) : list R :=
  as_array (decode_then_matrix (firstn 3 (Decode pcs)) (Matrix pcs) cc).

Definition gx_psconcretize_CIEDEFG (cc : list R) (pcs : gs_color_space)
    (pgs : gs_gstate) : list R :=
  as_array (decode_then_matrix (firstn 4 (Decode pcs)) (Matrix pcs) cc).

(** [a[i]] for an array of doubles. *)
Definition idx (a : list R) (i : nat) : R := nth i a 0.

(** [a[i] = x] *)
Fixpoint set_idx (a : list R) (i : nat) (x : R) : list R :=
  match a, i with
  | [], _ => []
  | _ :: a', O => x :: a'
  | y :: a', S i' => y :: set_idx a' i' x
  end.

(** Transform a CIEBased color to XYZ.  Returns the status code and [out]. *)
Definition cie_to_xyz (in_ : list R) (pcs : gs_color_space) (pgs : gs_gstate)
    (pciec : gs_cie_common) : Z * list R :=
  let ncomp := gs_color_space_num_components pcs in
  let pWhitePoint := WhitePoint (points pciec) in
  let cs_index := gs_color_space_get_index pcs in
  let cc := firstn (Z.to_nat ncomp) in_ in
  let xyz_float :=
    match cs_index with
    | gs_color_space_index_CIEA => gx_psconcretize_CIEA cc pcs pgs
    | gs_color_space_index_CIEABC => gx_psconcretize_CIEABC cc pcs pgs
    | gs_color_space_index_CIEDEF => gx_psconcretize_CIEDEF cc pcs pgs
    | gs_color_space_index_CIEDEFG => gx_psconcretize_CIEDEFG cc pcs pgs
    | _ => [0; 0; 0]
    end in
  let xyz_float :=
    if gs_color_space_index_eqb cs_index gs_color_space_index_CIEA then
      let xyz_float := set_idx xyz_float 0 (u pWhitePoint * idx xyz_float 1) in
      set_idx xyz_float 2 (w pWhitePoint * idx xyz_float 1)
    else xyz_float in
  (0%Z,
   [ idx xyz_float 0 * 0.9642 / u pWhitePoint;
     idx xyz_float 1;
     idx xyz_float 2 * 0.8249 / w pWhitePoint ]).

End Concretize.
Export Concretize.

(** ** Lab encoding *)

Module Lab.
Local Open Scope R_scope.

(** Transform XYZ values to Lab. *)
Definition lab_g_inverse (v : R) : R :=
  if Rge_dec v ((6 * 6 * 6) / (29 * 29 * 29)) then C.pow v (1 / 3)
  else v * (841 / 108) + 4 / 29.

(** The array [lab] is filled as the code fills it: [lab[1]] is L*,
    [lab[0]] is a* and [lab[2]] is b*. *)
Definition xyz_to_lab (xyz : list R) (pciec : gs_cie_common) : list R :=
  let pWhitePoint := WhitePoint (points pciec) in
  let L := lab_g_inverse (idx xyz 1 / v pWhitePoint) * 116 - 16 in
  let L := if Rlt_dec L 0 then 0 else if Rgt_dec L 100 then 100 else L in
  let lunit := (L + 16) / 116 in
  [ (lab_g_inverse (idx xyz 0 / u pWhitePoint) - lunit) * 500;
    L;
    (lab_g_inverse (idx xyz 2 / w pWhitePoint) - lunit) * -200 ].

End Lab.
Export Lab.

(** ** The output object graph *)

(** The error codes the code returns, of a header that is not among the
    sources: "out-of-memory, range-check, undefined"; and an error of the
    output sink. *)
Inductive gs_error :=
| gs_error_VMerror
| gs_error_rangecheck
| gs_error_undefined
| gs_error_ioerror.

Inductive result (A : Type) :=
| Ok (a : A)
| Error (e : gs_error).
Arguments Ok {A} a.
Arguments Error {A} e.

(** Modelled from the spec: the generic output-object graph, which the
    sources only call.  "A growable-byte-stream abstraction with allocate,
    append bytes, finish (assigns a persistent identity and schedules a
    write), and free-on-error; an indirect-object/array/dictionary object
    model with put key->value, add element, and reference-counted release;
    a resource-registration call binding an arbitrary freeable object to a
    lifetime bucket."  A pointer to an object is its index in [objects]. *)
Inductive cos_value_t :=
| cos_c_string_value (s : string)
| cos_real_value (r : R)
| cos_int_value (i : Z)
| cos_object_value (o : nat)
| cos_vector3_value (x : gs_vector3)
| cos_resource_value (pcs : gs_color_space_index).

Inductive cos_object_t :=
| cos_array (elements : list cos_value_t)
| cos_dict (entries : list (string * cos_value_t))
| cos_stream (dict : list (string * cos_value_t)) (data : list byte) (id : Z)
| cos_freed.

Inductive pdf_resource_type_t := resourceICC | resourceOther.

Record pdf_resource_t := {
  rtype : pdf_resource_type_t;
  rid : Z;
  object : nat
}.

(** The mutable part of the device.  [faults] decides the outcome of the
    coming calls to fallible collaborators, one entry a call: [Some e] makes
    the call fail with [e] (an allocation then returns a null pointer), and
    [None], or an exhausted list, lets it succeed.  [cms_requests] records
    the profiles for which a downgraded buffer was requested. *)
Record pdf_state := {
  objects : list cos_object_t;
  next_id : Z;
  written : list (nat * pdf_resource_type_t);
  resources : list pdf_resource_t;
  cms_requests : list cmm_profile_t;
  faults : list (option gs_error)
}.

Record gx_device_pdf := { CompatibilityLevel : Q }.

Module Cos.

Definition M (A : Type) : Type := pdf_state -> result A * pdf_state.

Definition ret {A} (a : A) : M A := fun st => (Ok a, st).

Definition return_error {A} (e : gs_error) : M A := fun st => (Error e, st).

(** Sequencing of status codes: a negative code ends the sequence and is
    the code returned; what was written so far stays written. *)
Definition bind {A B} (c : M A) (k : A -> M B) : M B := fun st =>
  match c st with
  | (Ok a, st') => k a st'
  | (Error e, st') => (Error e, st')
  end.

Definition with_objects (st : pdf_state) (os : list cos_object_t) :=
  {| objects := os; next_id := next_id st; written := written st;
     resources := resources st; cms_requests := cms_requests st;
     faults := faults st |}.

Definition with_faults (st : pdf_state) (fs : list (option gs_error)) :=
  {| objects := objects st; next_id := next_id st; written := written st;
     resources := resources st; cms_requests := cms_requests st;
     faults := fs |}.

(** The next entry of [faults] is consumed. *)
Definition next_fault (st : pdf_state) : option gs_error * pdf_state :=
  match faults st with
  | [] => (None, st)
  | f :: fs => (f, with_faults st fs)
  end.

(** A fallible collaborator whose effect, when it succeeds, is [ok]. *)
Definition fallible (ok : pdf_state -> pdf_state) : M unit := fun st =>
  match next_fault st with
  | (Some e, st') => (Error e, st')
  | (None, st') => (Ok tt, ok st')
  end.

(** Allocation of a fresh object; [None] is the null pointer. *)
Definition alloc (o : cos_object_t) (st : pdf_state)
  : option nat * pdf_state :=
  match next_fault st with
  | (Some _, st') => (None, st')
  | (None, st') =>
      (Some (List.length (objects st')), with_objects st' (objects st' ++ [o]))
  end.

Fixpoint update {A} (l : list A) (i : nat) (f : A -> A) : list A :=
  match l, i with
  | [], _ => []
  | x :: l', O => f x :: l'
  | x :: l', S i' => x :: update l' i' f
  end.

Definition modify (p : nat) (f : cos_object_t -> cos_object_t)
    (st : pdf_state) : pdf_state :=
  with_objects st (update (objects st) p f).

(** [cos_array_alloc], [cos_dict_alloc], [cos_stream_alloc]: "allocate". *)
Definition cos_array_alloc := alloc (cos_array []).
Definition cos_dict_alloc := alloc (cos_dict []).
Definition cos_stream_alloc := alloc (cos_stream [] [] 0).

Definition array_push (x : cos_value_t) (o : cos_object_t) : cos_object_t :=
  match o with
  | cos_array xs => cos_array (xs ++ [x])
  | _ => o
  end.

(** [cos_dict_put] on a dictionary, or on the dictionary of a stream
    ([cos_stream_dict]). *)
Definition dict_put (k : string) (x : cos_value_t) (o : cos_object_t)
  : cos_object_t :=
  match o with
  | cos_dict es => cos_dict (es ++ [(k, x)])
  | cos_stream d bs id => cos_stream (d ++ [(k, x)]) bs id
  | _ => o
  end.

Definition stream_append (bs : list byte) (o : cos_object_t) : cos_object_t :=
  match o with
  | cos_stream d data id => cos_stream d (data ++ bs) id
  | _ => o
  end.

Definition stream_set_id (i : Z) (o : cos_object_t) : cos_object_t :=
  match o with
  | cos_stream d data _ => cos_stream d data i
  | _ => o
  end.

(** [cos_array_add] and its variants: "add element". *)
Definition cos_array_add (pca : nat) (x : cos_value_t) : M unit :=
  fallible (modify pca (array_push x)).

Definition cos_array_add_real (pca : nat) (r : R) : M unit :=
  cos_array_add pca (cos_real_value r).

Definition cos_array_add_object (pca : nat) (o : nat) : M unit :=
  cos_array_add pca (cos_object_value o).

(** [cos_dict_put_c_key] and its variants: "put key->value". *)
Definition cos_dict_put_c_key (pcd : nat) (k : string) (x : cos_value_t)
  : M unit :=
  fallible (modify pcd (dict_put k x)).

Definition cos_dict_put_c_key_int (pcd : nat) (k : string) (i : Z) : M unit :=
  cos_dict_put_c_key pcd k (cos_int_value i).

Definition cos_dict_put_c_key_object (pcd : nat) (k : string) (o : nat)
  : M unit :=
  cos_dict_put_c_key pcd k (cos_object_value o).

(** [cos_stream_add_bytes(pdev, pcstrm, data, size)], "append bytes": the
    [size] bytes at [data] are appended. *)
Definition cos_stream_add_bytes (pcstrm : nat) (data : list byte) (size : Z)
  : M unit :=
  fallible (modify pcstrm (stream_append (take_bytes (Z.to_nat size) data))).

(** [COS_FREE]: "free-on-error", "reference-counted release". *)
Definition COS_FREE (p : nat) (st : pdf_state) : pdf_state :=
  modify p (fun _ => cos_freed) st.

Definition stream_id (st : pdf_state) (pcstrm : nat) : Z :=
  match nth_error (objects st) pcstrm with
  | Some (cos_stream _ _ id) => id
  | _ => 0
  end.

Definition stream_data (st : pdf_state) (pcstrm : nat) : list byte :=
  match nth_error (objects st) pcstrm with
  | Some (cos_stream _ data _) => data
  | _ => []
  end.

Definition array_elements (st : pdf_state) (pca : nat) : list cos_value_t :=
  match nth_error (objects st) pca with
  | Some (cos_array xs) => xs
  | _ => []
  end.

End Cos.
Export Cos.

Declare Scope cos_scope.
Delimit Scope cos_scope with cos.
Notation "x <- c ;; k" := (bind c (fun x => k))
  (at level 61, c at next level, right associativity) : cos_scope.
Notation "c ;;; k" := (bind c (fun _ => k))
  (at level 61, right associativity) : cos_scope.

Module Collaborators.
Local Open Scope cos_scope.
Local Open Scope Z_scope.

(** Modelled from the spec: [pdf_obj_ref], of the object graph ("assigns a
    persistent identity"): a fresh object number. *)
Definition pdf_obj_ref : M Z := fun st =>
  (Ok (next_id st + 1),
   {| objects := objects st; next_id := next_id st + 1;
      written := written st; resources := resources st;
      cms_requests := cms_requests st; faults := faults st |}).

(** Modelled from the spec: [cos_write_object] ("finish ... schedules a
    write"): the object is scheduled for writing. *)
Definition cos_write_object (p : nat) (rt : pdf_resource_type_t) : M unit :=
  fallible (fun st =>
    {| objects := objects st; next_id := next_id st;
       written := written st ++ [(p, rt)]; resources := resources st;
       cms_requests := cms_requests st; faults := faults st |}).

(** Modelled from the spec: [pdf_alloc_resource] ("a resource-registration
    call binding an arbitrary freeable object to a lifetime bucket"): a
    resource of the given type and id, with a fresh object of its own, is
    entered in the resource chain; the result is its position in
    [resources]. *)
Definition pdf_alloc_resource (rt : pdf_resource_type_t) (id : Z)
  : M nat := fun st =>
  match next_fault st with
  | (Some e, st') => (Error e, st')
  | (None, st') =>
      let o := List.length (objects st') in
      (Ok (List.length (resources st')),
       {| objects := objects st' ++ [cos_dict []]; next_id := next_id st';
          written := written st';
          resources := resources st' ++ [{| rtype := rt; rid := id; object := o |}];
          cms_requests := cms_requests st'; faults := faults st' |})
  end.

Definition resource_object (st : pdf_state) (pres : nat) : nat :=
  match nth_error (resources st) pres with
  | Some r => object r
  | None => O
  end.

(** [pres->object = p] *)
Definition set_resource_object (pres : nat) (p : nat) (st : pdf_state)
  : pdf_state :=
  {| objects := objects st; next_id := next_id st; written := written st;
     resources := update (resources st) pres
                    (fun r => {| rtype := rtype r; rid := rid r; object := p |});
     cms_requests := cms_requests st; faults := faults st |}.

(** Modelled from the spec: [pdf_color_space_named], of the object graph:
    the value that names a colour space in the output. *)
Definition pdf_color_space_named (pcs : gs_color_space) : M cos_value_t :=
  fallible (fun st => st) ;;;
  ret (cos_resource_value (gs_color_space_get_index pcs)).

(** The profile of a colour space that declares none. *)
Definition no_profile : cmm_profile_t :=
  {| data_cs := gsUNDEFINED; num_comps := 0; Range := []; buffer := [];
     buffer_size := 0; profile_handle := false; vers_major := 0;
     vers_minor := 0; v2_buffer := [] |}.

Definition device_space (i : gs_color_space_index) (n : Z) : gs_color_space :=
  {| cs_index := i; cs_num_components := n; Decode := []; Matrix := [];
     cmm_icc_profile_data := no_profile; base_space := None |}.

(** Modelled from the spec: [pdf_cspace_init_Device], which is not among the
    sources: the device space with that many components, the "simpler
    device color space" of the description.  The caller relies on [ncomps]
    being 1, 3 or 4 ("can't fail"); for another count the pointer is left
    unset, here null. *)
Definition pdf_cspace_init_Device (ncomps : Z) : option gs_color_space :=
  if ncomps =? 1 then Some (device_space gs_color_space_index_DeviceGray 1)
  else if ncomps =? 3 then Some (device_space gs_color_space_index_DeviceRGB 3)
  else if ncomps =? 4 then Some (device_space gs_color_space_index_DeviceCMYK 4)
  else None.

(** Modelled from the spec: [gx_cie_to_xyz_alloc] and [gx_cie_to_xyz_free],
    "any staging allocation": the graphics state the concretizer runs in. *)
Definition gx_cie_to_xyz_alloc (pcs : gs_color_space) : M gs_gstate :=
  fallible (fun st => st) ;;; ret {| cie_to_xyz_flag := true |}.

Definition gx_cie_to_xyz_free (pgs : gs_gstate) (st : pdf_state) : pdf_state :=
  st.

(** Modelled from the spec: [pdf_finish_cie_space], of the object graph
    ("put key->value, add element"): the white point is put in the
    dictionary and the dictionary is added to the array.  Only the disabled
    body of [pdf_convert_cie_to_lab] calls it. *)
Definition pdf_finish_cie_space (pca pcd : nat) (pciec : gs_cie_common)
  : M unit :=
  cos_dict_put_c_key pcd "/WhitePoint"
    (cos_vector3_value (WhitePoint (points pciec))) ;;;
  cos_array_add_object pca pcd.

(** Modelled from the spec: [gsicc_getprofilevers], the "get profile
    version" of the colour-management service. *)
Definition gsicc_getprofilevers (p : cmm_profile_t) : Z * Z :=
  (vers_major p, vers_minor p).

(** Modelled from the spec: [gsicc_initialize_default_profile], of the
    colour-management service; the handle it creates is not part of the
    state. *)
Definition gsicc_initialize_default_profile (p : cmm_profile_t) : M unit :=
  ret tt.

(** Modelled from the spec: [gsicc_create_getv2buffer], "produce a
    downgraded buffer for a given target version": the request is recorded, the buffer and its
    size are returned. *)
Definition gsicc_create_getv2buffer (pgs : gs_gstate) (p : cmm_profile_t)
  : M (list byte * Z) := fun st =>
  (Ok (v2_buffer p, Z.of_nat (List.length (v2_buffer p))),
   {| objects := objects st; next_id := next_id st; written := written st;
      resources := resources st; cms_requests := cms_requests st ++ [p];
      faults := faults st |}).

End Collaborators.
Export Collaborators.

(** ** CIE space synthesis: Lab *)

Module LabSpace.
Local Open Scope cos_scope.

(** The loop of [pdf_cie_add_ranges] over [prange[0 .. n-1]]; it stops at the
    first negative code. *)
Fixpoint add_ranges_loop (pca : nat) (prange : list gs_range) (clamp : bool)
  : M unit :=
  match prange with
  | [] => ret tt
  | r :: prange' =>
      let rmin := rmin r in
      let rmax := rmax r in
      let rmin := if clamp then (if Rlt_dec rmin 0 then 0%R else rmin) else rmin in
      let rmax := if clamp then (if Rgt_dec rmax 1 then 1%R else rmax) else rmax in
      cos_array_add_real pca rmin ;;;
      cos_array_add_real pca rmax ;;;
      add_ranges_loop pca prange' clamp
  end.

(** Add a /Range entry to a CIE-based color space dictionary. *)
Definition pdf_cie_add_ranges (pdev : gx_device_pdf) (pcd : nat)
    (prange : list gs_range) (n : Z) (clamp : bool) : M unit := fun st =>
  match cos_array_alloc st with
  | (None, st) => (Error gs_error_VMerror, st)
  | (Some pca, st) =>
      let '(code, st) := add_ranges_loop pca (firstn (Z.to_nat n) prange) clamp st in
      let '(code, st) :=
        match code with
        | Ok _ => cos_dict_put_c_key_object pcd "/Range" pca st
        | Error e => (Error e, st)
        end in
      match code with
      | Ok _ => (code, st)
      | Error _ => (code, COS_FREE pca st)
      end
  end.

(** [range_out[j].rmin = lo, range_out[j].rmax = hi] *)
Fixpoint set_range (range_out : list gs_range) (j : nat) (r : gs_range)
  : list gs_range :=
  match range_out, j with
  | [], _ => []
  | _ :: t, O => r :: t
  | x :: t, S j' => x :: set_range t j' r
  end.

Definition get_range (ranges : list gs_range) (j : nat) : gs_range :=
  nth j ranges {| rmin := 0; rmax := 0 |}.

(** One extremum [i] of the domain: [in[j]] is [ranges[j].rmax] when bit [j]
    of [i] is set and [ranges[j].rmin] otherwise. *)
Definition corner (ranges : list gs_range) (ncomp : Z) (i : Z) : list R :=
  map (fun j =>
         if Z.eqb (Z.land i (Z.shiftl 1 (Z.of_nat j))) 0
         then rmin (get_range ranges j) else rmax (get_range ranges j))
      (seq 0 (Z.to_nat ncomp)).

Definition lab_range_step (pcs : gs_color_space) (pgs : gs_gstate)
    (pciec : gs_cie_common) (ranges : list gs_range)
    (range_out : list gs_range) (i : Z) : list gs_range :=
  let ncomp := gs_color_space_num_components pcs in
  let in_ := corner ranges ncomp i in
  let '(code, xyz) := cie_to_xyz in_ pcs pgs pciec in
  if Z.geb code 0 then
    let lab := xyz_to_lab xyz pciec in
    fold_left
      (fun range_out j =>
         set_range range_out j
           {| rmin := C.min (rmin (get_range range_out j)) (idx lab j);
              rmax := C.max (rmax (get_range range_out j)) (idx lab j) |})
      [1%nat; 2%nat] range_out
  else range_out.

(** Determine the range of a* and b* by evaluating the color space mapping
    at all of its extrema.  Only [range_out[1]] and [range_out[2]] are
    written. *)
Definition lab_range (range_out : list gs_range) (pcs : gs_color_space)
    (pciec : gs_cie_common) (ranges : list gs_range) : M (list gs_range) :=
  let ncomp := gs_color_space_num_components pcs in
  pgs <- gx_cie_to_xyz_alloc pcs ;;
  let range_out :=
    fold_left (fun ro j => set_range ro j {| rmin := 1000; rmax := -1000 |})
      [1%nat; 2%nat] range_out in
  let range_out :=
    fold_left (lab_range_step pcs pgs pciec ranges)
      (map Z.of_nat (seq 0 (Z.to_nat (Z.shiftl 1 ncomp)))) range_out in
  fun st => (Ok range_out, gx_cie_to_xyz_free pgs st).

(** Create a Lab color space object. *)
Definition pdf_put_lab_color_space (pdev : gx_device_pdf) (pca pcd : nat)
    (ranges : list gs_range) : M unit :=
  cos_array_add pca (cos_c_string_value "/Lab") ;;;
  pdf_cie_add_ranges pdev pcd (skipn 1 ranges) 2 false.

(** Create a Lab color space for a CIEBased space that can't be represented
    directly as a Calxxx or Lab space.  The body follows an unconditional
    return ("NOT IMPLEMENTED YET, REQUIRES TRANSFORMING VALUES"). *)
Definition pdf_convert_cie_to_lab (pdev : gx_device_pdf) (pca : nat)
    (pcs : gs_color_space) (pciec : gs_cie_common) (prange : list gs_range)
  : M unit := fun st =>
  if true then return_error gs_error_rangecheck st
  else
    match cos_dict_alloc st with
    | (None, st) => (Error gs_error_VMerror, st)
    | (Some pcd, st) =>
        let ranges := repeat {| rmin := 0; rmax := 0 |} 3 in
        let '(code, st) :=
          (ranges <- lab_range ranges pcs pciec prange ;;
           pdf_put_lab_color_space pdev pca pcd ranges ;;;
           pdf_finish_cie_space pca pcd pciec) st in
        match code with
        | Ok _ => (code, st)
        | Error _ => (code, COS_FREE pcd st)
        end
    end.

End LabSpace.
Export LabSpace.

(** ** ICCBased space writing *)

Module ICCBased.
Local Open Scope cos_scope.
Local Open Scope Z_scope.

(** Create an ICCBased color space object (internal).  The client must write
    the profile data on the stream returned. *)
Definition pdf_make_iccbased (pdev : gx_device_pdf) (pgs : option gs_gstate)
    (pca : nat) (ncomps : Z) (prange : list gs_range)
    (pcs_alt : option gs_color_space) (pprange : option (list gs_range))
  : M nat := fun st =>
  match cos_array_add pca (cos_c_string_value "/ICCBased") st with
  | (Error e, st) => (Error e, st)
  | (Ok _, st) =>
  match cos_stream_alloc st with
  | (None, st) => (Error gs_error_VMerror, st)
  | (Some pcstrm, st) =>
      let fail (e : gs_error) (st : pdf_state) : result nat * pdf_state :=
        (Error e, COS_FREE pcstrm st) in
      match cos_dict_put_c_key_int pcstrm "/N" ncomps st with
      | (Error e, st) => fail e st
      | (Ok _, st) =>
          let '(code, st) :=
            match pcs_alt with
            | Some pcs_alt =>
                match gs_color_space_get_index pcs_alt with
                | gs_color_space_index_DeviceGray
                | gs_color_space_index_DeviceRGB
                | gs_color_space_index_DeviceCMYK => (Ok tt, st)
                | _ =>
                    (v <- pdf_color_space_named pcs_alt ;;
                     cos_dict_put_c_key pcstrm "/Alternate" v) st
                end
            | None =>
                if negb (ncomps =? 1) && negb (ncomps =? 3) && negb (ncomps =? 4)
                then (Error gs_error_rangecheck, st)
                else (Ok tt, st)
            end in
          match code with
          | Error e => fail e st
          | Ok _ =>
              match cos_array_add_object pca pcstrm st with
              | (Error e, st) => fail e st
              | (Ok _, st) => (Ok pcstrm, st)
              end
          end
      end
  end
  end.

(** Finish writing the data stream for an ICCBased color space object. *)
Definition pdf_finish_iccbased (pdev : gx_device_pdf) (pcstrm : nat)
  : M unit :=
  id <- pdf_obj_ref ;;
  (fun st => (Ok tt, modify pcstrm (stream_set_id id) st)) ;;;
  cos_write_object pcstrm resourceICC.

End ICCBased.
Export ICCBased.

(** ** Profile tables *)

Inductive cie_cache_one_step_t := ONE_STEP_NOT | ONE_STEP_LMN | ONE_STEP_ABC.

Module Profile.
Local Open Scope cos_scope.
Local Open Scope Z_scope.

(** [(int)v] for a [uint] [v]. *)
Definition to_int (v : Z) : Z := (v + 2 ^ 31) mod 2 ^ 32 - 2 ^ 31.

Record icc_a2b0_t := {
  header : list byte;
  pcs : gs_color_space;
  num_points : Z;
  count : Z
}.

(** The three procedures a table's [write] field can point to. *)
Inductive table_writer := write_trc_abc_proc | write_trc_lmn_proc | write_a2b0_proc.

Inductive write_data_t :=
| write_data_unset
| write_data_cie (pciec : gs_cie_common)
| write_data_a2b0 (pa2b : icc_a2b0_t).

(** [ranges] is a pointer into an array of ranges: the array from the
    pointer on, or [None] for the null pointer. *)
Record profile_table_t := {
  tag : string;
  data : list byte;
  length : Z;
  data_length : Z;
  write : option table_writer;
  write_data : write_data_t;
  ranges : option (list gs_range)
}.

Definition set_length (pnt : profile_table_t) (n : Z) :=
  {| tag := tag pnt; data := data pnt; length := n;
     data_length := data_length pnt; write := write pnt;
     write_data := write_data pnt; ranges := ranges pnt |}.

Definition set_data_length (pnt : profile_table_t) (n : Z) :=
  {| tag := tag pnt; data := data pnt; length := length pnt;
     data_length := n; write := write pnt;
     write_data := write_data pnt; ranges := ranges pnt |}.

Definition set_write (pnt : profile_table_t) (f : table_writer)
    (d : write_data_t) :=
  {| tag := tag pnt; data := data pnt; length := length pnt;
     data_length := data_length pnt; write := Some f;
     write_data := d; ranges := ranges pnt |}.

Definition set_ranges (pnt : profile_table_t) (r : option (list gs_range)) :=
  {| tag := tag pnt; data := data pnt; length := length pnt;
     data_length := data_length pnt; write := write pnt;
     write_data := write_data pnt; ranges := r |}.

(** [add_table] fills the next entry of the table array and returns a
    pointer to it; here it returns the entry, and the caller appends it to
    the array once it has finished assigning to its fields. *)
Definition add_table (tag : string) (data : list byte) (length : Z)
  : profile_table_t :=
  {| tag := tag; data := data; length := length; data_length := length;
     write := None; write_data := write_data_unset; ranges := None |}.

Definition set_XYZ (value : R) : list byte :=
  set_uint32 (to_uint (C.int_of_double (value * 65536))).

Definition add_table_xyz3 (tag : string) (pv : gs_vector3) : profile_table_t :=
  let bytes :=
    bytes_of_string "XYZ " ++ [0; 0; 0; 0]
    ++ set_XYZ (u pv) ++ set_XYZ (v pv) ++ set_XYZ (w pv) in
  add_table tag bytes 20.

Definition set_sample16 (v : R) : list byte :=
  let value := C.int_of_double (v * 65535) in
  let value :=
    if value <? 0 then 0 else if value >? 65535 then 65535 else value in
  [to_byte (Z.shiftr value 8); to_byte value].

Definition rgb_to_index (pnt : profile_table_t) : Z :=
  match tag pnt with
  | String "r" _ => 0
  | String "g" _ => 1
  | _ => 2
  end.

Definition cache_arg (i : Z) (denom : Z) (range : option gs_range) : R :=
  let arg := (IZR i / IZR denom)%R in
  match range with
  | Some range => (arg * (rmax range - rmin range) + rmin range)%R
  | None => arg
  end.

(** [*p] and [p + j] for a pointer [p] into an array of ranges. *)
Definition deref (p : option (list gs_range)) : option gs_range :=
  option_map (fun l => get_range l 0) p.

Definition offset_ranges (p : option (list gs_range)) (j : nat)
  : option (list gs_range) :=
  option_map (skipn j) p.

Section Tables.

(** The number of entries of a CIE cache, a constant of a header that is
    not among the sources. *)
Variable gx_cie_cache_size : Z.

(** Create a TRC curve table. *)
Definition add_trc (pdev : gx_device_pdf) (tag : string)
    (pciec : gs_cie_common) (one_step : cie_cache_one_step_t)
  : profile_table_t :=
  let count := gx_cie_cache_size in
  let bytes :=
    bytes_of_string "curv" ++ [0; 0; 0; 0] ++ set_uint32 (to_uint count) in
  let pnt := add_table tag bytes 12 in
  let pnt := set_length pnt (to_uint (length pnt + count * 2)) in
  set_write pnt
    (match one_step with
     | ONE_STEP_ABC => write_trc_abc_proc
     | _ => write_trc_lmn_proc
     end)
    (write_data_cie pciec).

(** The samples of a curve: [proc] at [gx_cie_cache_size] evenly spaced
    arguments. *)
Definition trc_samples (proc : R -> R) (pnt : profile_table_t) : list byte :=
  flat_map
    (fun i =>
       set_sample16
         (proc (cache_arg (Z.of_nat i) (gx_cie_cache_size - 1)
                  (deref (ranges pnt)))))
    (seq 0 (Z.to_nat gx_cie_cache_size)).

(** Write the curve table from DecodeABC. *)
Definition write_trc_abc (pdev : gx_device_pdf) (pcstrm : nat)
    (pnt : profile_table_t) (unused : gs_cie_common) : M unit :=
  match write_data pnt with
  | write_data_cie pabc =>
      let ci := rgb_to_index pnt in
      let proc := DecodeABC pabc ci in
      cos_stream_add_bytes pcstrm (trc_samples proc pnt) (gx_cie_cache_size * 2)
  | _ => ret tt
  end.

(** Write the curve table from DecodeLMN. *)
Definition write_trc_lmn (pdev : gx_device_pdf) (pcstrm : nat)
    (pnt : profile_table_t) (unused : gs_cie_common) : M unit :=
  match write_data pnt with
  | write_data_cie pciec =>
      let ci := rgb_to_index pnt in
      let proc := DecodeLMN pciec ci in
      cos_stream_add_bytes pcstrm (trc_samples proc pnt) (gx_cie_cache_size * 2)
  | _ => ret tt
  end.

End Tables.

(** *** The a2b0 lookup table *)

Definition NUM_IN_ENTRIES := 2.
Definition NUM_OUT_ENTRIES := 2.
Definition MAX_CLUT_ENTRIES := 2500.

Definition a2b0_data : list byte :=
  bytes_of_string "mft2" ++
  [ 0; 0; 0; 0;
    0;
    3;
    0;
    0;
    0; 1; 0; 0;  0; 0; 0; 0;  0; 0; 0; 0;
    0; 0; 0; 0;  0; 1; 0; 0;  0; 0; 0; 0;
    0; 0; 0; 0;  0; 0; 0; 0;  0; 1; 0; 0;
    0; NUM_IN_ENTRIES;
    0; NUM_OUT_ENTRIES ].

(** [bytes[i] = b] *)
Definition set_byte (bytes : list byte) (i : nat) (b : byte) : list byte :=
  update bytes i (fun _ => b).

(** Create an a2b0 lookup table: the [icc_a2b0_t] filled in and the table
    entry that refers to it. *)
Definition add_a2b0 (ncomps : Z) (pcs : gs_color_space)
  : icc_a2b0_t * profile_table_t :=
  let num_points := C.floor (C.pow (IZR MAX_CLUT_ENTRIES) (1 / IZR ncomps)) in
  let num_points := Z.min num_points 255 in
  let header := memcpy (zeros 52) 0 a2b0_data 52 in
  let header := set_byte header 8 (to_byte ncomps) in
  let header := set_byte header 10 (to_byte num_points) in
  let count := C.int_of_double (C.pow (IZR num_points) (IZR ncomps)) in
  let pa2b :=
    {| header := header; pcs := pcs; num_points := num_points;
       count := count |} in
  let pnt :=
    add_table "A2B0" header
      (to_uint (52 + ncomps * 2 * NUM_IN_ENTRIES + count * (3 * 2)
                + 3 * 2 * NUM_OUT_ENTRIES)) in
  let pnt := set_data_length pnt 52 in
  (pa2b, set_write pnt write_a2b0_proc (write_data_a2b0 pa2b)).

Definition MAX_NCOMPS := 4.

Definition v01 : list byte :=
  [0; 0; 255; 255;  0; 0; 255; 255;  0; 0; 255; 255;  0; 0; 255; 255].

Definition MAX_ICC_XYZ_VALUE : R := (1 + 32767 / 32768)%R.

(** The inner loop of [write_a2b0]: [j] runs from [ncomps - 1] down to 0 and
    [n] is divided by [num_points] at every turn; [in[j]] is assigned. *)
Fixpoint a2b0_in (j : nat) (n : Z) (num_points : Z)
    (ranges : option (list gs_range)) (in_ : list R) : list R :=
  match j with
  | O => in_
  | S j' =>
      a2b0_in j' (Z.quot n num_points) num_points ranges
        (cache_arg (Z.rem n num_points) (num_points - 1)
           (match ranges with
            | Some _ => deref (offset_ranges ranges j')
            | None => None
            end)
         :: in_)
  end.

(** The table entry [i]: three 16-bit samples. *)
Definition a2b0_entry (pnt : profile_table_t) (pa2b : icc_a2b0_t)
    (pgs : gs_gstate) (pciec : gs_cie_common) (i : Z) : list byte :=
  let ncomps := nth 8 (header pa2b) 0 in
  let in_ := a2b0_in (Z.to_nat ncomps) i (num_points pa2b) (ranges pnt) [] in
  let xyz := snd (cie_to_xyz in_ (pcs pa2b) pgs pciec) in
  flat_map (fun j => set_sample16 (idx xyz j / MAX_ICC_XYZ_VALUE))
    [0%nat; 1%nat; 2%nat].

(** The loop over the entries; it is left at the first negative code. *)
Fixpoint a2b0_loop (pcstrm : nat) (entry : Z -> list byte) (entries : list Z)
  : M unit :=
  match entries with
  | [] => ret tt
  | i :: entries' =>
      cos_stream_add_bytes pcstrm (entry i) 6 ;;;
      a2b0_loop pcstrm entry entries'
  end.

Definition write_a2b0 (pdev : gx_device_pdf) (pcstrm : nat)
    (pnt : profile_table_t) (pciec : gs_cie_common) : M unit :=
  match write_data pnt with
  | write_data_a2b0 pa2b =>
      let pcs := pcs pa2b in
      let ncomps := nth 8 (header pa2b) 0 in
      (* Write the input table. *)
      cos_stream_add_bytes pcstrm v01 (ncomps * 4) ;;;
      (* Write the lookup table. *)
      pgs <- gx_cie_to_xyz_alloc pcs ;;
      (fun st =>
         let '(code, st) :=
           a2b0_loop pcstrm (a2b0_entry pnt pa2b pgs pciec)
             (map Z.of_nat (seq 0 (Z.to_nat (count pa2b)))) st in
         (code, gx_cie_to_xyz_free pgs st)) ;;;
      (* Write the output table. *)
      cos_stream_add_bytes pcstrm v01 (3 * 4)
  | _ => ret tt
  end.

(** XYZ wp mapping for now.  Will replace later with Bradford or other *)
Definition adjust_wp (color_in wp_in wp_out : gs_vector3) : gs_vector3 :=
  {| u := u color_in * u wp_out / u wp_in;
     v := v color_in * v wp_out / v wp_in;
     w := w color_in * w wp_out / w wp_in |}.

End Profile.

(** ** Synthesis of an ICC profile for a CIE space *)

Module Synthesis.
Import Profile.
Local Open Scope cos_scope.
Local Open Scope Z_scope.

Definition header_data : list byte :=
  [ 0; 0; 0; 0;
    0; 0; 0; 0;
    2; 32; 0; 0 ] ++
  bytes_of_string "scnr" ++
  [ 0; 0; 0; 0 ] ++
  bytes_of_string "XYZ " ++
  [ 2002 / 256; 2002 mod 256; 0; 1; 0; 1;
    0; 0; 0; 0; 0; 0 ] ++
  bytes_of_string "acsp" ++
  [ 0; 0; 0; 0;
    0; 0; 0; 3;
    0; 0; 0; 0; 0; 0; 0; 0;
    0; 0; 0; 0;
    0; 0; 0; 0; 0; 0; 0; 2 ].

Definition DESC_LENGTH := 5.

Definition desc_data : list byte :=
  bytes_of_string "desc" ++
  [ 0; 0; 0; 0;
    0; 0; 0; DESC_LENGTH + 1 ] ++
  bytes_of_string "adhoc" ++ [0].

Definition cprt_data : list byte :=
  bytes_of_string "text" ++ [0; 0; 0; 0] ++ bytes_of_string "none" ++ [0].

Definition sizeof_header := 128.
Definition sizeof_desc := 12 + DESC_LENGTH + 1 + 11 + 67.

(** The directory loop: one entry of twelve bytes a table, and the running
    offset. *)
Fixpoint directory (tables : list profile_table_t) (offset : Z)
  : list byte * Z :=
  match tables with
  | [] => ([], offset)
  | t :: tables' =>
      let p :=
        take_bytes 4 (bytes_of_string (tag t)) ++ set_uint32 offset
        ++ set_uint32 (length t) in
      let offset := to_uint (offset + round_up (length t) 4) in
      let '(bytes, offset) := directory tables' offset in
      (p ++ bytes, offset)
  end.

Section Synthesis.

Variable gx_cie_cache_size : Z.

(** The call through [tables[i].write]. *)
Definition call_write (f : table_writer) (pdev : gx_device_pdf)
    (pcstrm : nat) (pnt : profile_table_t) (pciec : gs_cie_common) : M unit :=
  match f with
  | write_trc_abc_proc => write_trc_abc gx_cie_cache_size pdev pcstrm pnt pciec
  | write_trc_lmn_proc => write_trc_lmn gx_cie_cache_size pdev pcstrm pnt pciec
  | write_a2b0_proc => write_a2b0 pdev pcstrm pnt pciec
  end.

(** The loop that writes the tables: the literal bytes, what the writer
    adds, and the padding. *)
Fixpoint write_tables (pdev : gx_device_pdf) (pcstrm : nat)
    (pciec : gs_cie_common) (tables : list profile_table_t) : M unit :=
  match tables with
  | [] => ret tt
  | t :: tables' =>
      let len := data_length t in
      let pad := [0; 0; 0] in
      cos_stream_add_bytes pcstrm (data t) len ;;;
      match write t with
      | Some f => call_write f pdev pcstrm t pciec
      | None => ret tt
      end ;;;
      cos_stream_add_bytes pcstrm pad (Z.land (- to_int (length t)) 3) ;;;
      write_tables pdev pcstrm pciec tables'
  end.

(** The tables of the profile, in the order they are added. *)
Definition profile_tables (pdev : gx_device_pdf) (pcs : gs_color_space)
    (pciec : gs_cie_common) (one_step : cie_cache_one_step_t)
    (pmat : option gs_matrix3) (pprange : option (list gs_range))
    (white_d50 : gs_vector3) : list profile_table_t :=
  let ncomps := gs_color_space_num_components pcs in
  (* desc *)
  let desc := memcpy (zeros (Z.to_nat sizeof_desc)) 0 desc_data
                (List.length desc_data) in
  let t_desc := add_table "desc" desc sizeof_desc in
  (* wtpt. must be D50 *)
  let t_wtpt := add_table_xyz3 "wtpt" white_d50 in
  (* cprt *)
  let t_cprt := add_table "cprt" cprt_data (Z.of_nat (List.length cprt_data)) in
  [t_desc; t_wtpt; t_cprt] ++
  match one_step, pmat with
  | (ONE_STEP_ABC | ONE_STEP_LMN), Some pmat =>
      (* Use TRC + XYZ. *)
      let tr := add_trc gx_cie_cache_size pdev "rTRC" pciec one_step in
      let tg := add_trc gx_cie_cache_size pdev "gTRC" pciec one_step in
      let tb := add_trc gx_cie_cache_size pdev "bTRC" pciec one_step in
      let '(tr, tg, tb) :=
        match pprange with
        | Some _ =>
            (set_ranges tr pprange,
             set_ranges tg (offset_ranges pprange 1),
             set_ranges tb (offset_ranges pprange 2))
        | None => (tr, tg, tb)
        end in
      let wp := WhitePoint (points pciec) in
      [ tr; tg; tb;
        add_table_xyz3 "rXYZ" (adjust_wp (cu pmat) wp white_d50);
        add_table_xyz3 "gXYZ" (adjust_wp (cv pmat) wp white_d50);
        add_table_xyz3 "bXYZ" (adjust_wp (cw pmat) wp white_d50) ]
  | _, _ =>
      (* General case, use a lookup table. *)
      let '(a2b0, pnt) := add_a2b0 ncomps pcs in
      [ set_ranges pnt pprange ]
  end.

(** "White point must be D50."  The three constants are [float]s in the
    code; [set_XYZ] gives the same bytes for every value within 2^-24 of
    them (lemmas [set_XYZ_near_X] and [set_XYZ_near_Z] below). *)
Definition white_d50 : gs_vector3 :=
  {| u := 0.9642; v := 1.0; w := 0.8249 |}.

(** The header as it is written: the fixed part, the data colour space, the
    illuminant copied from the wtpt table, and the total size. *)
Definition profile_header (dcsname : string) (wtpt : list byte) (size : Z)
  : list byte :=
  let header := zeros (Z.to_nat sizeof_header) in
  let header := memcpy header 0 header_data (List.length header_data) in
  let header := memcpy header 16 (bytes_of_string dcsname) 4 in
  let header := memcpy header 68 (skipn 8 wtpt) 12 in
  memcpy header 0 (set_uint32 size) 4.

(** Create an ICCBased color space for a CIEBased space that can't be
    represented directly as a Calxxx or Lab space. *)
Definition pdf_convert_cie_to_iccbased (pdev : gx_device_pdf) (pca : nat)
    (pcs : gs_color_space) (dcsname : string) (pciec : gs_cie_common)
    (prange : list gs_range) (one_step : cie_cache_one_step_t)
    (pmat : option gs_matrix3) (pprange : option (list gs_range)) : M unit :=
  let ncomps := gs_color_space_num_components pcs in
  let alt_space := pdf_cspace_init_Device ncomps in
  pcstrm <- pdf_make_iccbased pdev None pca ncomps prange alt_space pprange ;;
  (* Construct the tables. *)
  let tables := profile_tables pdev pcs pciec one_step pmat pprange white_d50 in
  let wtpt := data (add_table_xyz3 "wtpt" white_d50) in
  (* Write the profile. *)
  let num_tables := Z.of_nat (List.length tables) in
  let table_size := to_uint (4 + num_tables * 12) in
  let offset := to_uint (sizeof_header + table_size) in
  let '(entries, offset) := directory tables offset in
  let bytes := set_uint32 (to_uint num_tables) ++ entries in
  let header := profile_header dcsname wtpt offset in
  cos_stream_add_bytes pcstrm header sizeof_header ;;;
  cos_stream_add_bytes pcstrm bytes table_size ;;;
  write_tables pdev pcstrm pciec tables ;;;
  pdf_finish_iccbased pdev pcstrm.

End Synthesis.
End Synthesis.

(** ** Entry points *)

Module Entry.
Import Profile Synthesis.
Local Open Scope cos_scope.
Local Open Scope Z_scope.

Definition Qlt_bool (a b : Q) : bool := negb (Qle_bool b a).

(** The transfer of the profile to the stream and the end of
    [pdf_iccbased_color_space], from the test of [downgrade_icc] on. *)
Definition transfer_profile (pdev : gx_device_pdf) (pgs : option gs_gstate)
    (pcs : gs_color_space) (pcstrm : nat) (downgrade_icc : bool) : M unit :=
  fun st =>
  let profile := cmm_icc_profile_data pcs in
  let added :=
    if downgrade_icc then
      match pgs with
      | None => None
      | Some pgs =>
          Some ((if profile_handle profile then ret tt
                 else gsicc_initialize_default_profile profile) ;;;
                v2 <- gsicc_create_getv2buffer pgs profile ;;
                cos_stream_add_bytes pcstrm (fst v2) (snd v2))
      end
    else
      Some (cos_stream_add_bytes pcstrm (buffer profile) (buffer_size profile))
  in
  match added with
  | None => (Error gs_error_undefined, st)
  | Some add =>
      let '(code, st) := add st in
      let '(code1, st) := pdf_alloc_resource resourceOther (stream_id st pcstrm) st in
      let st :=
        match code1 with
        | Ok pres =>
            set_resource_object pres pcstrm (COS_FREE (resource_object st pres) st)
        | Error _ => st
        end in
      match code with
      | Ok _ => pdf_finish_iccbased pdev pcstrm st
      | Error e => (Error e, st)
      end
  end.

(** Create an ICCBased color space.  The message that [emprintf] prints when
    the profile is rejected is not part of the state. *)
Definition pdf_iccbased_color_space (pdev : gx_device_pdf)
    (pgs : option gs_gstate) (pcs : gs_color_space) (pca : nat) : M unit :=
  let profile := cmm_icc_profile_data pcs in
  match data_cs profile with
  | gsCIEXYZ | gsCIELAB | gsRGB | gsGRAY | gsCMYK =>
      pcstrm <- pdf_make_iccbased pdev pgs pca (num_comps profile)
                  (Range profile) (base_space pcs) None ;;
      (* Transfer the buffer data *)
      let '(major, minor) := gsicc_getprofilevers profile in
      let major := to_byte major in
      let minor := Z.shiftr (to_byte minor) 4 in
      let level := CompatibilityLevel pdev in
      if Qlt_bool level 1.3 then return_error gs_error_rangecheck
      else
        let downgrade_icc :=
          if Qlt_bool level 1.5 then
            (if major >? 2 then true else false)
          else if Qeq_bool level 1.5 then
            (if (major >? 4) || (minor >? 0) then true else false)
          else if Qeq_bool level 1.6 then
            (if (major >? 4) || (minor >? 1) then true else false)
          else
            (if (major >? 4) || (minor >? 2) then true else false) in
        transfer_profile pdev pgs pcs pcstrm downgrade_icc
  | gsUNDEFINED | gsNCHANNEL | gsNAMED =>
      return_error gs_error_rangecheck
  end.

Section Entry.

Variable gx_cie_cache_size : Z.

(** Convert a CIEBased space to Lab or ICCBased. *)
Definition pdf_convert_cie_space (pdev : gx_device_pdf) (pca : nat)
    (pcs : gs_color_space) (dcsname : string) (pciec : gs_cie_common)
    (prange : list gs_range) (one_step : cie_cache_one_step_t)
    (pmat : option gs_matrix3) (pprange : option (list gs_range)) : M unit :=
  if Qlt_bool (CompatibilityLevel pdev) 1.3 then
    (* PDF 1.2 or earlier, use a Lab space. *)
    pdf_convert_cie_to_lab pdev pca pcs pciec prange
  else
    (* PDF 1.3 or later, use an ICCBased space. *)
    pdf_convert_cie_to_iccbased gx_cie_cache_size pdev pca pcs dcsname pciec
      prange one_step pmat pprange.

End Entry.
End Entry.

(** ** The properties as the design document words them *)

Module Stated.
Local Open Scope R_scope.

(** "f(t) = t^(1/3) for t >= (6/29)^3 else f(t) = t*841/108 + 4/29" *)
Definition f (t : R) : R :=
  if Rle_dec ((6 / 29) ^ 3) t then Rpower t (1 / 3)
  else t * 841 / 108 + 4 / 29.

(** "L* = 116 f(Y/Yn) - 16 clamped to [0,100]; a* = 500 (f(X/Xn) - f(Y/Yn));
    b* = -200 (f(Y/Yn) - f(Z/Zn))": the triple of L*, a* and b*. *)
Definition lab (X Y Z Xn Yn Zn : R) : R * R * R :=
  (Rmax 0 (Rmin 100 (116 * f (Y / Yn) - 16)),
   500 * (f (X / Xn) - f (Y / Yn)),
   -200 * (f (Y / Yn) - f (Z / Zn))).

(** A reader's view of a profile that is held as a list of bytes: the
    header of 128 bytes, the count of tags, the directory entries of twelve
    bytes (signature, offset, length), the payloads. *)
Definition slice (d : list byte) (off len : nat) : list byte :=
  firstn len (skipn off d).

Fixpoint bytes_eqb (a b : list byte) : bool :=
  match a, b with
  | [], [] => true
  | x :: a', y :: b' => Z.eqb x y && bytes_eqb a' b'
  | _, _ => false
  end.

Definition tag_count (d : list byte) : Z := get_uint32 (slice d 128 4).

Fixpoint find_tag_from (d sig : list byte) (i n : nat) : option (Z * Z) :=
  match n with
  | O => None
  | S n' =>
      let e := slice d (132 + 12 * i) 12 in
      if bytes_eqb (slice e 0 4) sig
      then Some (get_uint32 (slice e 4 4), get_uint32 (slice e 8 4))
      else find_tag_from d sig (S i) n'
  end.

(** The offset and the length the directory gives for a tag. *)
Definition find_tag (d : list byte) (sig : string) : option (Z * Z) :=
  find_tag_from d (bytes_of_string sig) 0 (Z.to_nat (tag_count d)).

(** An s15Fixed16Number: a signed 32-bit integer counting 65536ths. *)
Definition s15Fixed16 (bs : list byte) : R :=
  IZR (Profile.to_int (get_uint32 bs)) / 65536.

(** The three values of a tag of type XYZ. *)
Definition xyz_tag (d : list byte) (sig : string) : option (R * R * R) :=
  match find_tag d sig with
  | Some (off, len) =>
      let p := slice d (Z.to_nat off) (Z.to_nat len) in
      Some (s15Fixed16 (slice p 8 4), s15Fixed16 (slice p 12 4),
            s15Fixed16 (slice p 16 4))
  | None => None
  end.

(** The illuminant field of the header. *)
Definition illuminant (d : list byte) : list byte := slice d 68 12.

(** "Emit a Lab space (a 2-component range annotation plus a fixed Lab
    signature)": the run succeeds and the array holds the Lab signature. *)
Definition emits_lab (run : result unit * pdf_state) (pca : nat) : Prop :=
  fst run = Ok tt /\
  In (cos_c_string_value "/Lab") (array_elements (snd run) pca).

(** "Version ceilings: 1.3-1.4 -> major <= 2; 1.5 -> major <= 4 and
    minor <= 0; 1.6 -> major <= 4 and minor <= 1; >= 1.7 -> major <= 4 and
    minor <= 2": whether a declared version is within the ceiling of a
    compatibility level, for the levels that have one. *)
Definition within_ceiling (level : Q) (major minor : Z) : option bool :=
  if Qle_bool 1.3 level && negb (Qle_bool 1.5 level) then
    Some (major <=? 2)%Z
  else if Qeq_bool level 1.5 then
    Some ((major <=? 4) && (minor <=? 0))%Z
  else if Qeq_bool level 1.6 then
    Some ((major <=? 4) && (minor <=? 1))%Z
  else if Qle_bool 1.7 level then
    Some ((major <=? 4) && (minor <=? 2))%Z
  else None.

(** The allow-list of native colour spaces: "{XYZ, Lab, RGB, Gray, CMYK}". *)
Definition allow_list : list gsicc_colorbuffer_t :=
  [gsCIEXYZ; gsCIELAB; gsRGB; gsGRAY; gsCMYK].

(** "round_up(length_j, 4)", as a number. *)
Definition pad4 (n : Z) : Z := ((n + 3) / 4 * 4)%Z.

Definition zsum (l : list Z) : Z := fold_right Z.add 0%Z l.

(** "The computed offset of tag i equals header+directory size +
    sum over j < i of round_up(length_j, 4)", the header being of 128 bytes
    and the directory of 4 + 12 N bytes, for the declared lengths [lens]. *)
Definition tag_offset (lens : list Z) (i : nat) : Z :=
  (128 + (4 + 12 * Z.of_nat (List.length lens))
   + zsum (map pad4 (firstn i lens)))%Z.

(** "128 + 4 + 12 N + sum over all j of round_up(length_j, 4)" *)
Definition profile_size (lens : list Z) : Z :=
  (128 + 4 + 12 * Z.of_nat (List.length lens) + zsum (map pad4 lens))%Z.

End Stated.

(** ** Notions for the statements about streams *)

Module Streams.
Import Profile Synthesis.

(** The object [p] is a stream whose data are [d]. *)
Definition stream_at (st : pdf_state) (p : nat) (d : list byte) : Prop :=
  exists dict id, nth_error (objects st) p = Some (cos_stream dict d id).

(** [f] keeps the data of a stream. *)
Definition keeps_data (f : cos_object_t -> cos_object_t) : Prop :=
  forall dict d id,
    exists dict' id', f (cos_stream dict d id) = cos_stream dict' d id'.

(** [c], whatever its outcome, leaves the data of the stream [p] alone. *)
Definition keeps (p : nat) {A} (c : M A) : Prop :=
  forall st d r st', stream_at st p d -> c st = (r, st') -> stream_at st' p d.

(** [c], whatever its outcome, only appends to the stream [p]. *)
Definition extends (p : nat) {A} (c : M A) : Prop :=
  forall st d r st',
    stream_at st p d -> c st = (r, st') ->
    exists suffix, stream_at st' p (d ++ suffix).

(** [c], when it succeeds, appends exactly [bs] to the stream [p]. *)
Definition appends (p : nat) {A} (c : M A) (bs : list byte) : Prop :=
  forall st d a st',
    stream_at st p d -> c st = (Ok a, st') -> stream_at st' p (d ++ bs).

(** [c], when it succeeds, appends [bs] and then something more. *)
Definition appends_some (p : nat) {A} (c : M A) (bs : list byte) : Prop :=
  forall st d a st',
    stream_at st p d -> c st = (Ok a, st') ->
    exists suffix, stream_at st' p (d ++ bs ++ suffix).

(** From a state without pending faults [c] returns, with success, and
    leaves a state without pending faults. *)
Definition total {A} (c : M A) : Prop :=
  forall st, faults st = [] ->
    exists a st', c st = (Ok a, st') /\ faults st' = [].

(** One entry of the directory. *)
Definition entry (t : profile_table_t) (offset : Z) : list byte :=
  take_bytes 4 (bytes_of_string (tag t)) ++ set_uint32 offset
  ++ set_uint32 (length t).

(** The declared lengths of a sequence of tables. *)
Definition lengths (tables : list profile_table_t) : list Z :=
  map length tables.

(** The entries of the lookup table, as [a2b0_loop] appends them. *)
Definition clut_bytes (entry : Z -> list byte) (entries : list Z) : list byte :=
  flat_map (fun i => take_bytes 6 (entry i)) entries.

(** The bytes of the white point table of every synthesized profile. *)
Definition wtpt_bytes : list byte :=
  [88; 89; 90; 32; 0; 0; 0; 0; 0; 0; 246; 213; 0; 1; 0; 0; 0; 0; 211; 44]%Z.

End Streams.

(** The comparisons of a level with decimal constants, as propositions. *)
Ltac levels :=
  repeat match goal with
  | H : Qle_bool _ _ = true |- _ => apply Qle_bool_iff in H
  | H : Qle_bool _ _ = false |- _ =>
      let H' := fresh in
      assert (H' := fun X => eq_true_false_abs _ (proj2 (Qle_bool_iff _ _) X) H);
      clear H
  | H : Qeq_bool _ _ = true |- _ => apply Qeq_bool_iff in H
  | H : Qeq_bool _ _ = false |- _ => apply Qeq_bool_neq in H
  | |- Qle_bool _ _ = true => apply Qle_bool_iff
  | |- Qeq_bool _ _ = true => apply Qeq_bool_iff
  end;
  unfold Qle, Qeq in *; simpl in *.

(** ** Sample inputs *)

Module Examples.
Local Open Scope Z_scope.

(** A device state with one empty array, the colour-space array to fill,
    and no pending fault. *)
Definition st0 : pdf_state :=
  {| objects := [cos_array []]; next_id := 0; written := [];
     resources := []; cms_requests := []; faults := [] |}.

Definition pca0 : nat := O.

Definition pdf12 : gx_device_pdf := {| CompatibilityLevel := 1.2 |}.
Definition pdf13 : gx_device_pdf := {| CompatibilityLevel := 1.3 |}.
Definition pdf14 : gx_device_pdf := {| CompatibilityLevel := 1.4 |}.
Definition pdf15 : gx_device_pdf := {| CompatibilityLevel := 1.5 |}.
Definition pdf16 : gx_device_pdf := {| CompatibilityLevel := 1.6 |}.
Definition pdf17 : gx_device_pdf := {| CompatibilityLevel := 1.7 |}.

Definition black : gs_vector3 := {| u := 0; v := 0; w := 0 |}.

(** A white point of one on every axis, and the white point
    (0.9505, 1.0, 1.089); the decode functions are one-to-one. *)
Definition unit_white : gs_cie_common :=
  {| points := {| WhitePoint := {| u := 1; v := 1; w := 1 |};
                  BlackPoint := black |};
     DecodeLMN := fun _ x => x; DecodeABC := fun _ x => x |}.

Definition d65_white : gs_cie_common :=
  {| points := {| WhitePoint := {| u := 0.9505; v := 1.0; w := 1.089 |};
                  BlackPoint := black |};
     DecodeLMN := fun _ x => x; DecodeABC := fun _ x => x |}.

(** A single-channel CIE space with a one-to-one decode function. *)
Definition gray_space : gs_color_space :=
  {| cs_index := gs_color_space_index_CIEA; cs_num_components := 1;
     Decode := [fun x => x];
     Matrix := [{| u := 0.9505; v := 1.0; w := 1.089 |}];
     cmm_icc_profile_data := no_profile; base_space := None |}.

(** An RGB profile that declares version 4.2, with its bytes and the bytes
    the colour-management system would give for an earlier version. *)
Definition profile42 : cmm_profile_t :=
  {| data_cs := gsRGB; num_comps := 3; Range := [];
     buffer := [1; 2; 3; 4]; buffer_size := 4; profile_handle := true;
     vers_major := 4; vers_minor := 32; v2_buffer := [9; 8; 7] |}.

Definition icc_space42 : gs_color_space :=
  {| cs_index := gs_color_space_index_ICC; cs_num_components := 3;
     Decode := []; Matrix := [];
     cmm_icc_profile_data := profile42; base_space := None |}.

(** A profile whose declared native colour space is a named one. *)
Definition named_profile : cmm_profile_t :=
  {| data_cs := gsNAMED; num_comps := 3; Range := [];
     buffer := [1; 2; 3; 4]; buffer_size := 4; profile_handle := true;
     vers_major := 2; vers_minor := 0; v2_buffer := [] |}.

Definition named_space : gs_color_space :=
  {| cs_index := gs_color_space_index_ICC; cs_num_components := 3;
     Decode := []; Matrix := [];
     cmm_icc_profile_data := named_profile; base_space := None |}.

Definition some_gstate : gs_gstate := {| cie_to_xyz_flag := false |}.


(** A device state whose only object is an empty stream, with no pending
    fault. *)
Definition st_stream : pdf_state :=
  {| objects := [cos_stream [] [] 0]; next_id := 0; written := [];
     resources := []; cms_requests := []; faults := [] |}.

(** A three-channel space with one decode step and a matrix, and the
    tables of its profile when a CIE cache has 512 entries. *)
Definition rgb_matrix : gs_matrix3 :=
  {| cu := {| u := 0.4; v := 0.2; w := 0.0 |};
     cv := {| u := 0.3; v := 0.7; w := 0.1 |};
     cw := {| u := 0.2; v := 0.1; w := 0.9 |} |}.

Definition abc_space : gs_color_space :=
  {| cs_index := gs_color_space_index_CIEABC; cs_num_components := 3;
     Decode := [fun x => x; fun x => x; fun x => x];
     Matrix := [cu rgb_matrix; cv rgb_matrix; cw rgb_matrix];
     cmm_icc_profile_data := no_profile; base_space := None |}.

Definition trc_tables : list Profile.profile_table_t :=
  Synthesis.profile_tables 512 pdf13 abc_space d65_white ONE_STEP_ABC
    (Some rgb_matrix) None Synthesis.white_d50.

(** The synthesis for the single-channel space at level 1.3, from the state
    without faults. *)
Abbreviation sample_run :=
  (Entry.pdf_convert_cie_space 512 pdf13 pca0 gray_space "GRAY" d65_white []
     ONE_STEP_NOT None None st0).

End Examples.

(** * Further notions for the properties of the writers *)

(** ** A reader of the encodings *)

Module Readers.
Local Open Scope Z_scope.

(** The big-endian reading of two bytes, the inverse of the store at the
    end of [set_sample16]. *)
Definition get_uint16 (bs : list byte) : Z :=
  match bs with
  | [b0; b1] => b0 * 256 + b1
  | _ => 0
  end.

End Readers.

(** ** The graphics state of the concretizer *)

Module Staging.
Local Open Scope R_scope.

(** The graphics state that [gx_cie_to_xyz_alloc] returns: [lab_range] and
    [write_a2b0] run [cie_to_xyz] in it. *)
Definition staging_gstate : gs_gstate := {| cie_to_xyz_flag := true |}.

(** Lab at the extremum [i] of the domain, as the loop of [lab_range]
    computes it in the graphics state [pgs]. *)
Definition lab_at (pcs : gs_color_space) (pgs : gs_gstate)
    (pciec : gs_cie_common) (ranges : list gs_range) (i : Z) : list R :=
  xyz_to_lab
    (snd (cie_to_xyz (corner ranges (gs_color_space_num_components pcs) i)
            pcs pgs pciec))
    pciec.

End Staging.

(** ** The bytes of a synthesized profile *)

Module Layout.
Import Profile Synthesis.
Local Open Scope Z_scope.

Section Layout.

Variable gx_cie_cache_size : Z.

(** What the procedure in the [write] field of a table appends when every
    call to the stream succeeds. *)
Definition written_by (t : profile_table_t) (pciec : gs_cie_common)
  : list byte :=
  match write t, write_data t with
  | Some write_trc_abc_proc, write_data_cie pabc =>
      take_bytes (Z.to_nat (gx_cie_cache_size * 2))
        (trc_samples gx_cie_cache_size (DecodeABC pabc (rgb_to_index t)) t)
  | Some write_trc_lmn_proc, write_data_cie pcie =>
      take_bytes (Z.to_nat (gx_cie_cache_size * 2))
        (trc_samples gx_cie_cache_size (DecodeLMN pcie (rgb_to_index t)) t)
  | Some write_a2b0_proc, write_data_a2b0 pa2b =>
      take_bytes (Z.to_nat (nth 8 (header pa2b) 0 * 4)) v01
      ++ Streams.clut_bytes
           (a2b0_entry t pa2b Staging.staging_gstate pciec)
           (map Z.of_nat (seq 0 (Z.to_nat (count pa2b))))
      ++ take_bytes (Z.to_nat (3 * 4)) v01
  | _, _ => []
  end.

(** The payload of a table: its literal bytes, then what its writer adds. *)
Definition payload (t : profile_table_t) (pciec : gs_cie_common) : list byte :=
  take_bytes (Z.to_nat (data_length t)) (data t) ++ written_by t pciec.

(** The zero bytes after a payload. *)
Definition padding (t : profile_table_t) : list byte :=
  take_bytes (Z.to_nat (Z.land (- to_int (length t)) 3)) [0; 0; 0].

(** The whole profile, as [pdf_convert_cie_to_iccbased] sends it to the
    stream: the header, the count of tables and the directory, and the
    payloads with their padding. *)
Definition profile_bytes (tables : list profile_table_t) (dcsname : string)
    (pciec : gs_cie_common) : list byte :=
  let num_tables := Z.of_nat (List.length tables) in
  let table_size := to_uint (4 + num_tables * 12) in
  let dir := directory tables (to_uint (sizeof_header + table_size)) in
  take_bytes (Z.to_nat sizeof_header)
    (profile_header dcsname (data (add_table_xyz3 "wtpt" white_d50)) (snd dir))
  ++ take_bytes (Z.to_nat table_size)
       (set_uint32 (to_uint num_tables) ++ fst dir)
  ++ flat_map (fun t => payload t pciec ++ padding t) tables.

(** A double on which the casts of [set_XYZ] and [set_sample16] are defined
    in C: its product with 65536 is within the range of [int]. *)
Definition castable (x : R) : Prop := (-32768 < x < 32768)%R.



End Layout.
End Layout.

(** ** More sample inputs *)

Module MoreExamples.
Local Open Scope Z_scope.

(** The synthesis of a profile for the single-channel sample space, from
    the state without faults: the lookup-table path. *)
Abbreviation sample_synthesis :=
  (Synthesis.pdf_convert_cie_to_iccbased 512 Examples.pdf13 Examples.pca0
     Examples.gray_space "GRAY" Examples.d65_white [] ONE_STEP_NOT None None
     Examples.st0).

(** The synthesis for the three-channel sample space with its matrix: the
    tone-curve path. *)
Abbreviation sample_curves :=
  (Synthesis.pdf_convert_cie_to_iccbased 512 Examples.pdf13 Examples.pca0
     Examples.abc_space "RGB " Examples.d65_white [] ONE_STEP_ABC
     (Some Examples.rgb_matrix) None Examples.st0).

End MoreExamples.

(** ** The contents of a /Range array *)

Module Ranges.
Local Open Scope R_scope.

(** The numbers of a /Range array for the ranges [prange]: the two bounds of
    each range, and with [clamp] the lower bound raised to 0 and the upper
    bound lowered to 1. *)
Definition range_values (clamp : bool) (prange : list gs_range)
  : list cos_value_t :=
  flat_map
    (fun r =>
       [ cos_real_value (if clamp then Rmax 0 (rmin r) else rmin r);
         cos_real_value (if clamp then Rmin 1 (rmax r) else rmax r) ])
    prange.


(** The entries that [pdf_make_iccbased] puts in the dictionary of the
    stream after /N: an /Alternate entry, unless there is no alternate
    space or it is one of the three device spaces, which are implicit. *)
Definition alternate_entries (pcs_alt : option gs_color_space)
  : list (string * cos_value_t) :=
  match pcs_alt with
  | Some alt =>
      match gs_color_space_get_index alt with
      | gs_color_space_index_DeviceGray
      | gs_color_space_index_DeviceRGB
      | gs_color_space_index_DeviceCMYK => []
      | i => [("/Alternate"%string, cos_resource_value i)]
      end
  | None => []
  end.

End Ranges.

Module RangeExamples.
Local Open Scope R_scope.

(** A device state with one empty dictionary and one empty array, and no
    pending fault. *)
Definition st_dict : pdf_state :=
  {| objects := [cos_dict []; cos_array []]; next_id := 0; written := [];
     resources := []; cms_requests := []; faults := [] |}.

(** The same state when the next call to a collaborator fails. *)
Definition st_dict_fault : pdf_state :=
  {| objects := [cos_dict []; cos_array []]; next_id := 0; written := [];
     resources := []; cms_requests := [];
     faults := [Some gs_error_VMerror] |}.

Definition wide_range : gs_range := {| rmin := -1; rmax := 2 |}.

Definition lab_ranges : list gs_range :=
  [ {| rmin := 0; rmax := 100 |}; {| rmin := -128; rmax := 127 |};
    {| rmin := -100; rmax := 100 |} ].

End RangeExamples.

(** * Properties *)

Unset Implicit Arguments.

(** ** The piecewise cube root *)

Module LabFacts.
Local Open Scope R_scope.

Lemma breakpoint_value : (6 * 6 * 6) / (29 * 29 * 29) = (6 / 29) ^ 3.
Proof. field. Qed.

Lemma pow_cube_root (x : R) : 0 < x -> C.pow (x ^ 3) (1 / 3) = x.
Proof.
  intros Hx. unfold C.pow.
  rewrite <- (Rpower_pow 3 x Hx), Rpower_mult.
  replace (INR 3 * (1 / 3)) with 1 by (simpl; field).
  now apply Rpower_1.
Qed.

Lemma pow_third_le (a b : R) : 0 < a <= b -> C.pow a (1 / 3) <= C.pow b (1 / 3).
Proof. intros H. unfold C.pow. apply Rle_Rpower_l; lra. Qed.

Lemma pow_third_one : C.pow 1 (1 / 3) = 1.
Proof.
  replace 1 with (1 ^ 3) at 1 by (simpl; ring). apply pow_cube_root; lra.
Qed.

Lemma lab_g_inverse_high (t : R) :
  (6 / 29) ^ 3 <= t -> lab_g_inverse t = C.pow t (1 / 3).
Proof.
  intros H. unfold lab_g_inverse. rewrite breakpoint_value.
  destruct (Rge_dec t ((6 / 29) ^ 3)); [reflexivity | lra].
Qed.

Lemma lab_g_inverse_low (t : R) :
  t < (6 / 29) ^ 3 -> lab_g_inverse t = t * (841 / 108) + 4 / 29.
Proof.
  intros H. unfold lab_g_inverse. rewrite breakpoint_value.
  destruct (Rge_dec t ((6 / 29) ^ 3)); [lra | reflexivity].
Qed.

Lemma continuity_pt_pow_third (c : R) :
  0 < c -> continuity_pt (fun x => C.pow x (1 / 3)) c.
Proof.
  intros Hc. apply derivable_continuous_pt.
  exists (1 / 3 * Rpower c (1 / 3 - 1)).
  now apply derivable_pt_lim_power.
Qed.

Lemma continuity_pt_linear (a b c : R) :
  continuity_pt (fun x => x * a + b) c.
Proof.
  apply derivable_continuous_pt. exists a.
  intros eps Heps. exists (mkposreal 1 Rlt_0_1). intros h Hh _.
  replace (((c + h) * a + b - (c * a + b)) / h - a) with 0 by (field; exact Hh).
  rewrite Rabs_R0. exact Heps.
Qed.

(** Two functions continuous at [c] that agree there glue to a function
    continuous at [c]. *)
Lemma continuity_pt_glue (f g : R -> R) (c : R) :
  continuity_pt f c -> continuity_pt g c -> f c = g c ->
  continuity_pt (fun x => if Rge_dec x c then f x else g x) c.
Proof.
  intros Hf Hg Hfg eps Heps.
  destruct (Hf eps Heps) as (d1 & Hd1 & H1).
  destruct (Hg eps Heps) as (d2 & Hd2 & H2).
  exists (Rmin d1 d2). split.
  - apply Rmin_glb_lt; assumption.
  - intros x [HD Hx]. simpl in *.
    destruct (Rge_dec c c) as [_ | n]; [| exfalso; apply n; lra].
    destruct (Rge_dec x c).
    + apply H1. split; [exact HD |].
      eapply Rlt_le_trans; [exact Hx | apply Rmin_l].
    + rewrite Hfg. apply H2. split; [exact HD |].
      eapply Rlt_le_trans; [exact Hx | apply Rmin_r].
Qed.

Lemma lab_g_inverse_glue (x : R) :
  lab_g_inverse x =
  (fun x => if Rge_dec x ((6 / 29) ^ 3) then (fun x => C.pow x (1 / 3)) x
            else (fun x => x * (841 / 108) + 4 / 29) x) x.
Proof.
  unfold lab_g_inverse. rewrite breakpoint_value. reflexivity.
Qed.


(** C9: at the breakpoint [(6/29)^3] the cube-root branch of
    [lab_g_inverse] yields [6/29], the linear branch yields
    [(6/29)^3 * 841/108 + 4/29], the two values are equal, and the function
    is continuous there. *)
Theorem lab_g_inverse_branches_agree :
  let t := ((6 / 29) ^ 3)%R in
  (C.pow t (1 / 3) = 6 / 29 /\
   t * (841 / 108) + 4 / 29 = 6 / 29 /\
   C.pow t (1 / 3) = t * (841 / 108) + 4 / 29 /\
   lab_g_inverse t = 6 / 29 /\
   continuity_pt lab_g_inverse t)%R.
Proof.
  intros t.
  assert (Hp : C.pow t (1 / 3) = 6 / 29) by (apply LabFacts.pow_cube_root; lra).
  assert (Hl : t * (841 / 108) + 4 / 29 = 6 / 29) by (unfold t; field).
  repeat split.
  - exact Hp.
  - exact Hl.
  - now rewrite Hp, Hl.
  - rewrite LabFacts.lab_g_inverse_high by (unfold t; lra). exact Hp.
  - assert (E : lab_g_inverse =
               (fun x => if Rge_dec x t then C.pow x (1 / 3)
                         else x * (841 / 108) + 4 / 29)).
    { unfold lab_g_inverse, t. rewrite LabFacts.breakpoint_value. reflexivity. }
    rewrite E.
    apply (LabFacts.continuity_pt_glue (fun x => C.pow x (1 / 3))
             (fun x => x * (841 / 108) + 4 / 29)).
    + apply LabFacts.continuity_pt_pow_third. unfold t.
      apply pow_lt. lra.
    + apply LabFacts.continuity_pt_linear.
    + now rewrite Hp, Hl.
Qed.

End LabFacts.

(** ** The Lab encoder *)

Module LabEncoder.
Local Open Scope R_scope.

Lemma stated_f_eq (t : R) : Stated.f t = lab_g_inverse t.
Proof.
  unfold Stated.f, lab_g_inverse, C.pow. rewrite LabFacts.breakpoint_value.
  destruct (Rle_dec ((6 / 29) ^ 3) t), (Rge_dec t ((6 / 29) ^ 3));
    try lra; try reflexivity.
Qed.

Lemma lab_g_inverse_zero : lab_g_inverse 0 = 4 / 29.
Proof. rewrite LabFacts.lab_g_inverse_low; lra. Qed.

Lemma lab_g_inverse_eight : lab_g_inverse 8 = 2.
Proof.
  rewrite LabFacts.lab_g_inverse_high by lra.
  replace 8 with (2 ^ 3) by ring. apply LabFacts.pow_cube_root. lra.
Qed.

(** On [0, 1] the function stays in [4/29, 1]: there L* is not clamped. *)
Lemma lab_g_inverse_unit (t : R) :
  0 <= t <= 1 -> 4 / 29 <= lab_g_inverse t <= 1.
Proof.
  intros [H0 H1]. destruct (Rlt_le_dec t ((6 / 29) ^ 3)) as [Hlt | Hge].
  - rewrite LabFacts.lab_g_inverse_low by exact Hlt. lra.
  - rewrite LabFacts.lab_g_inverse_high by exact Hge. split.
    + apply Rle_trans with (C.pow ((6 / 29) ^ 3) (1 / 3)).
      * rewrite LabFacts.pow_cube_root; lra.
      * apply LabFacts.pow_third_le. lra.
    + rewrite <- LabFacts.pow_third_one at 2. apply LabFacts.pow_third_le. lra.
Qed.

(** The clamp of the code is the clamp to [0, 100]. *)
Lemma clamp_L (L : R) :
  (if Rlt_dec L 0 then 0 else if Rgt_dec L 100 then 100 else L)
  = Rmax 0 (Rmin 100 L).
Proof.
  destruct (Rlt_dec L 0) as [Hn | Hn].
  - rewrite Rmin_right, Rmax_left by lra. reflexivity.
  - destruct (Rgt_dec L 100) as [Hg | Hg].
    + rewrite Rmin_left, Rmax_right by lra. reflexivity.
    + rewrite Rmin_right, Rmax_right by lra. reflexivity.
Qed.


(** The code and the stated formulas at two inputs, with a white point of
    one on every axis. *)
Lemma xyz_to_lab_at_samples :
  idx (xyz_to_lab [0; 0; 0.005] Examples.unit_white) 2 = - (841 / 108) /\
  snd (Stated.lab 0 0 0.005 1 1 1) = 841 / 108 /\
  idx (xyz_to_lab [8; 8; 8] Examples.unit_white) 0 = 500 /\
  snd (fst (Stated.lab 8 8 8 1 1 1)) = 0.
Proof.
  unfold xyz_to_lab, Stated.lab, idx, Examples.unit_white.
  cbn -[xyz_to_lab lab_g_inverse Stated.f].
  rewrite !LabEncoder.stated_f_eq.
  replace (0 / 1) with 0 by field. replace (8 / 1) with 8 by field.
  replace (0.005 / 1) with 0.005 by field.
  rewrite LabEncoder.lab_g_inverse_zero, LabEncoder.lab_g_inverse_eight.
  rewrite (LabFacts.lab_g_inverse_low 0.005) by lra.
  repeat split.
  - destruct (Rlt_dec (4 / 29 * 116 - 16) 0); [lra |].
    destruct (Rgt_dec (4 / 29 * 116 - 16) 100); lra.
  - lra.
  - destruct (Rlt_dec (2 * 116 - 16) 0); [lra |].
    destruct (Rgt_dec (2 * 116 - 16) 100); lra.
  - lra.
Qed.

(** C5 (as stated, refuted): [xyz_to_lab] is not the triple of the stated
    formulas.  With a unit white point, b* has the opposite sign at
    XYZ = (0, 0, 0.005), and at XYZ = (8, 8, 8), where L* is clamped, a* is
    500 and not 0. *)
Lemma xyz_to_lab_differs_from_stated :
  idx (xyz_to_lab [0; 0; 0.005] Examples.unit_white) 2
    <> snd (Stated.lab 0 0 0.005 1 1 1) /\
  idx (xyz_to_lab [8; 8; 8] Examples.unit_white) 0
    <> snd (fst (Stated.lab 8 8 8 1 1 1)).
Proof.
  destruct xyz_to_lab_at_samples as (Hb & Hb' & Ha & Ha').
  rewrite Hb, Hb', Ha, Ha'. split; lra.
Qed.

(** C5 (amended): for a white point with positive components, [xyz_to_lab]
    computes L* = 116 f(Y/Yn) - 16 clamped into [0, 100], and, with
    lunit = (L* + 16) / 116 taken from the clamped L*,
    a* = 500 (f(X/Xn) - lunit) and b* = -200 (f(Z/Zn) - lunit), where f is
    the piecewise cube root; a* and b* are not clamped, and
    lunit = f(Y/Yn) whenever 0 <= Y/Yn <= 1. *)
Theorem xyz_to_lab_formulas (X Y Z : R) (pciec : gs_cie_common) :
  let wp := WhitePoint (points pciec) in
  (0 < u wp -> 0 < v wp -> 0 < w wp ->
   let L := Rmax 0 (Rmin 100 (116 * Stated.f (Y / v wp) - 16)) in
   let lunit := (L + 16) / 116 in
   xyz_to_lab [X; Y; Z] pciec =
     [ 500 * (Stated.f (X / u wp) - lunit);
       L;
       -200 * (Stated.f (Z / w wp) - lunit) ] /\
   0 <= L <= 100 /\
   (0 <= Y / v wp <= 1 -> lunit = Stated.f (Y / v wp)))%R.
Proof.
  intros wp Hu Hv Hw L lunit.
  assert (HL : 0 <= L <= 100).
  { unfold L. split; [apply Rmax_l |].
    apply Rmax_lub; [lra | apply Rmin_l]. }
  repeat split; try apply HL.
  - unfold xyz_to_lab, idx. cbn [nth]. fold wp.
    rewrite LabEncoder.clamp_L, <- !LabEncoder.stated_f_eq.
    replace (Stated.f (Y / v wp) * 116 - 16)
      with (116 * Stated.f (Y / v wp) - 16) by ring.
    fold L. fold lunit. f_equal; [ring | f_equal; f_equal; ring].
  - intros HY. unfold lunit, L.
    pose proof (LabEncoder.lab_g_inverse_unit _ HY) as Hf.
    rewrite <- LabEncoder.stated_f_eq in Hf.
    rewrite Rmin_right, Rmax_right by lra. field.
Qed.

Lemma xyz_to_lab_formulas_witness :
  0 <= Rmax 0 (Rmin 100 (116 * Stated.f (0.5 / 1.0) - 16)) <= 100.
Proof.
  apply (xyz_to_lab_formulas 0.4 0.5 0.6 Examples.d65_white); simpl; lra.
Defined.

End LabEncoder.

(** ** The sample count of the lookup table *)

Module LutFacts.
Import Profile.
Local Open Scope R_scope.

Lemma floor_IZR (n : Z) : C.floor (IZR n) = n.
Proof.
  unfold C.floor. symmetry. apply Int_part_spec. lra.
Qed.

Lemma floor_between (x : R) (n : Z) :
  IZR n <= x < IZR n + 1 -> C.floor x = n.
Proof.
  intros H. unfold C.floor. symmetry. apply Int_part_spec. lra.
Qed.

Lemma int_of_double_IZR (n : Z) : (0 <= n)%Z -> C.int_of_double (IZR n) = n.
Proof.
  intros Hn. unfold C.int_of_double.
  destruct (Rle_dec 0 (IZR n)) as [_ | H].
  - apply floor_IZR.
  - exfalso. apply H. now apply IZR_le.
Qed.

(** The [k]-th root of a [k]-th power. *)
Lemma pow_root (x : R) (k : nat) :
  0 < x -> (0 < k)%nat -> C.pow (x ^ k) (1 / INR k) = x.
Proof.
  intros Hx Hk. unfold C.pow.
  rewrite <- (Rpower_pow k x Hx), Rpower_mult.
  replace (INR k * (1 / INR k)) with 1.
  - now apply Rpower_1.
  - field. apply not_0_INR. lia.
Qed.

(** [floor (n ^ (1/k))] is the integer [s] with [s^k <= n < (s+1)^k]. *)
Lemma floor_pow_root (n s : Z) (k : nat) :
  (0 < s)%Z -> (0 < k)%nat ->
  (s ^ Z.of_nat k <= n < (s + 1) ^ Z.of_nat k)%Z ->
  C.floor (C.pow (IZR n) (1 / INR k)) = s.
Proof.
  intros Hs Hk [Hlo Hhi].
  assert (Hs' : 0 < IZR s) by now apply IZR_lt.
  assert (Hpos : 0 < IZR s ^ k) by now apply pow_lt.
  assert (Hk' : 0 < 1 / INR k).
  { apply Rdiv_lt_0_compat; [lra | apply lt_0_INR; lia]. }
  apply IZR_le in Hlo. apply IZR_lt in Hhi.
  rewrite <- !pow_IZR in Hlo, Hhi. rewrite plus_IZR in Hhi.
  apply floor_between. split.
  - rewrite <- (pow_root (IZR s) k Hs' Hk) at 1.
    unfold C.pow. apply Rle_Rpower_l; lra.
  - assert (Hs1 : 0 < IZR s + 1) by lra.
    rewrite <- (pow_root (IZR s + 1) k Hs1 Hk) at 1.
    unfold C.pow. apply Rlt_Rpower_l; lra.
Qed.

(** An integer power computed by [pow] and cast back to [int]. *)
Lemma int_of_double_pow (s : Z) (k : nat) :
  (0 < s)%Z -> C.int_of_double (C.pow (IZR s) (INR k)) = (s ^ Z.of_nat k)%Z.
Proof.
  intros Hs. unfold C.pow.
  rewrite Rpower_pow by now apply IZR_lt.
  rewrite pow_IZR. apply int_of_double_IZR.
  apply Z.pow_nonneg. lia.
Qed.

(** The sample count on each axis, for the three channel counts. *)
Lemma num_points_1 (pcs : gs_color_space) :
  num_points (fst (add_a2b0 1 pcs)) = 255%Z.
Proof.
  unfold add_a2b0. cbn [fst num_points].
  change (IZR MAX_CLUT_ENTRIES) with (IZR 2500).
  replace (1 / IZR 1) with (1 / INR 1) by (simpl; lra).
  rewrite (floor_pow_root 2500 2500 1); [reflexivity | lia | lia | lia].
Qed.

Lemma num_points_3 (pcs : gs_color_space) :
  num_points (fst (add_a2b0 3 pcs)) = 13%Z.
Proof.
  unfold add_a2b0. cbn [fst num_points].
  change (IZR MAX_CLUT_ENTRIES) with (IZR 2500).
  replace (1 / IZR 3) with (1 / INR 3) by (simpl; lra).
  rewrite (floor_pow_root 2500 13 3); [reflexivity | lia | lia | ].
  simpl. lia.
Qed.

Lemma num_points_4 (pcs : gs_color_space) :
  num_points (fst (add_a2b0 4 pcs)) = 7%Z.
Proof.
  unfold add_a2b0. cbn [fst num_points].
  change (IZR MAX_CLUT_ENTRIES) with (IZR 2500).
  replace (1 / IZR 4) with (1 / INR 4) by (simpl; lra).
  rewrite (floor_pow_root 2500 7 4); [reflexivity | lia | lia | ].
  simpl. lia.
Qed.

End LutFacts.

(** ** The stream under the collaborators *)

Module StreamFacts.
Import Streams.
Local Open Scope cos_scope.

Lemma stream_at_data {st p d} : stream_at st p d -> stream_data st p = d.
Proof. intros (dict & id & H). unfold stream_data. now rewrite H. Qed.

Lemma nth_error_update {A} (l : list A) (i j : nat) (f : A -> A) :
  nth_error (update l i f) j =
  if Nat.eqb i j then option_map f (nth_error l j) else nth_error l j.
Proof.
  revert i j. induction l as [| x l IH]; intros [| i] [| j]; simpl; auto;
    now destruct (Nat.eqb i j).
Qed.

Lemma length_update {A} (l : list A) (i : nat) (f : A -> A) :
  List.length (update l i f) = List.length l.
Proof.
  revert i. induction l as [| x l IH]; intros [| i]; simpl; auto.
Qed.

Lemma next_fault_objects {st f st'} :
  next_fault st = (f, st') -> objects st' = objects st.
Proof.
  unfold next_fault. destruct (faults st); intros H; inversion H; reflexivity.
Qed.

Lemma stream_at_next_fault {st f st' p d} :
  next_fault st = (f, st') -> stream_at st p d -> stream_at st' p d.
Proof.
  intros H (dict & id & Hp). exists dict, id.
  now rewrite (next_fault_objects H).
Qed.

Lemma stream_at_modify_keeps {st} q {f p d} :
  keeps_data f -> stream_at st p d -> stream_at (modify q f st) p d.
Proof.
  intros Hf (dict & id & Hp). unfold stream_at, modify. simpl.
  rewrite nth_error_update. destruct (Nat.eqb q p).
  - rewrite Hp. simpl. destruct (Hf dict d id) as (dict' & id' & E).
    rewrite E. eauto.
  - eauto.
Qed.

Lemma stream_at_modify_append {st p d} bs :
  stream_at st p d -> stream_at (modify p (stream_append bs) st) p (d ++ bs).
Proof.
  intros (dict & id & Hp). unfold stream_at, modify. simpl.
  rewrite nth_error_update, Nat.eqb_refl, Hp. simpl. eauto.
Qed.

Lemma keeps_data_array_push x : keeps_data (array_push x).
Proof. intros dict d id. simpl. eauto. Qed.

Lemma keeps_data_dict_put k x : keeps_data (dict_put k x).
Proof. intros dict d id. simpl. eauto. Qed.

Lemma keeps_data_stream_set_id i : keeps_data (stream_set_id i).
Proof. intros dict d id. simpl. eauto. Qed.

Lemma app_nil_suffix {A} (d : list A) : d = d ++ [].
Proof. now rewrite app_nil_r. Qed.

(** *** Outcomes of the primitive calls *)

Lemma fallible_inv {ok st r st'} :
  fallible ok st = (r, st') ->
  exists f st1, next_fault st = (f, st1) /\
    match f with
    | Some e => r = Error e /\ st' = st1
    | None => r = Ok tt /\ st' = ok st1
    end.
Proof.
  unfold fallible. destruct (next_fault st) as [[e |] st1] eqn:E;
    intros H; inversion H; subst.
  - exists (Some e), st'. auto.
  - exists None, st1. auto.
Qed.

Lemma bind_inv {A B} {c : M A} {k : A -> M B} {st r st'} :
  bind c k st = (r, st') ->
  (exists a st1, c st = (Ok a, st1) /\ k a st1 = (r, st')) \/
  (exists e, c st = (Error e, st') /\ r = Error e).
Proof.
  unfold bind. destruct (c st) as [[a | e] st1] eqn:E; intros H.
  - left. eauto.
  - right. inversion H; subst. eauto.
Qed.

Lemma bind_ok_inv {A B} {c : M A} {k : A -> M B} {st b st'} :
  bind c k st = (Ok b, st') ->
  exists a st1, c st = (Ok a, st1) /\ k a st1 = (Ok b, st').
Proof.
  intros H. destruct (bind_inv H) as [? | (e & _ & Habs)]; [assumption |].
  discriminate.
Qed.

(** *** Composition *)

Lemma extends_ret p {A} (a : A) : extends p (ret a).
Proof.
  intros st d r st' Hs H. inversion H; subst. exists []. now rewrite app_nil_r.
Qed.

Lemma extends_bind p {A B} (c : M A) (k : A -> M B) :
  extends p c -> (forall a, extends p (k a)) -> extends p (bind c k).
Proof.
  intros Hc Hk st d r st' Hs H.
  destruct (bind_inv H) as [(a & st1 & H1 & H2) | (e & H1 & _)].
  - destruct (Hc _ _ _ _ Hs H1) as (s1 & Hs1).
    destruct (Hk a _ _ _ _ Hs1 H2) as (s2 & Hs2).
    exists (s1 ++ s2). now rewrite app_assoc.
  - exact (Hc _ _ _ _ Hs H1).
Qed.

Lemma extends_fallible_keeps p q f :
  keeps_data f -> extends p (fallible (modify q f)).
Proof.
  intros Hf st d r st' Hs H.
  destruct (fallible_inv H) as (flt & st1 & Hn & Hr).
  exists []. rewrite app_nil_r.
  pose proof (stream_at_next_fault Hn Hs) as Hs1.
  destruct flt; destruct Hr as [_ ->]; [assumption |].
  now apply stream_at_modify_keeps.
Qed.

Lemma extends_fallible_id p : extends p (fallible (fun st => st)).
Proof.
  intros st d r st' Hs H.
  destruct (fallible_inv H) as (flt & st1 & Hn & Hr).
  exists []. rewrite app_nil_r.
  pose proof (stream_at_next_fault Hn Hs) as Hs1.
  destruct flt; destruct Hr as [_ ->]; assumption.
Qed.

Lemma extends_add_bytes p q data size :
  extends p (cos_stream_add_bytes q data size).
Proof.
  intros st d r st' Hs H. unfold cos_stream_add_bytes in H.
  destruct (fallible_inv H) as (flt & st1 & Hn & Hr).
  pose proof (stream_at_next_fault Hn Hs) as Hs1.
  destruct flt; destruct Hr as [_ ->].
  - exists []. now rewrite app_nil_r.
  - destruct Hs1 as (dict & id & Hp). unfold stream_at, modify. simpl.
    rewrite nth_error_update. destruct (Nat.eqb q p).
    + rewrite Hp. simpl. eauto.
    + exists []. rewrite app_nil_r. eauto.
Qed.

Lemma appends_add_bytes p data size :
  appends p (cos_stream_add_bytes p data size) (take_bytes (Z.to_nat size) data).
Proof.
  intros st d a st' Hs H. unfold cos_stream_add_bytes in H.
  destruct (fallible_inv H) as (flt & st1 & Hn & Hr).
  pose proof (stream_at_next_fault Hn Hs) as Hs1.
  destruct flt; destruct Hr as [Hr ->]; [discriminate |].
  now apply stream_at_modify_append.
Qed.

Lemma appends_ret p {A} (a : A) : appends p (ret a) [].
Proof.
  intros st d a' st' Hs H. inversion H; subst. now rewrite app_nil_r.
Qed.

Lemma appends_bind p {A B} (c : M A) (k : A -> M B) bs1 bs2 :
  appends p c bs1 -> (forall a, appends p (k a) bs2) ->
  appends p (bind c k) (bs1 ++ bs2).
Proof.
  intros Hc Hk st d b st' Hs H.
  destruct (bind_ok_inv H) as (a & st1 & H1 & H2).
  rewrite app_assoc. eapply Hk; [| exact H2]. eapply Hc; eassumption.
Qed.

Lemma keeps_extends p {A} (c : M A) : keeps p c -> extends p c.
Proof.
  intros Hc st d r st' Hs H. exists []. rewrite app_nil_r. eauto.
Qed.

Lemma keeps_appends p {A} (c : M A) : keeps p c -> appends p c [].
Proof.
  intros Hc st d r st' Hs H. rewrite app_nil_r. eauto.
Qed.

Lemma keeps_ret p {A} (a : A) : keeps p (ret a).
Proof. intros st d r st' Hs H. now inversion H; subst. Qed.

Lemma keeps_bind p {A B} (c : M A) (k : A -> M B) :
  keeps p c -> (forall a, keeps p (k a)) -> keeps p (bind c k).
Proof.
  intros Hc Hk st d r st' Hs H.
  destruct (bind_inv H) as [(a & st1 & H1 & H2) | (e & H1 & _)].
  - eapply Hk; [| exact H2]. eapply Hc; eassumption.
  - eapply Hc; eassumption.
Qed.

Lemma keeps_fallible_keeps p q f :
  keeps_data f -> keeps p (fallible (modify q f)).
Proof.
  intros Hf st d r st' Hs H.
  destruct (fallible_inv H) as (flt & st1 & Hn & Hr).
  pose proof (stream_at_next_fault Hn Hs) as Hs1.
  destruct flt; destruct Hr as [_ ->]; [assumption |].
  now apply stream_at_modify_keeps.
Qed.

Lemma keeps_fallible_id p : keeps p (fallible (fun st => st)).
Proof.
  intros st d r st' Hs H.
  destruct (fallible_inv H) as (flt & st1 & Hn & Hr).
  pose proof (stream_at_next_fault Hn Hs) as Hs1.
  destruct flt; destruct Hr as [_ ->]; assumption.
Qed.

Lemma keeps_cos_array_add p q x : keeps p (cos_array_add q x).
Proof. apply keeps_fallible_keeps, keeps_data_array_push. Qed.

Lemma keeps_cos_dict_put_c_key p q k x : keeps p (cos_dict_put_c_key q k x).
Proof. apply keeps_fallible_keeps, keeps_data_dict_put. Qed.

Lemma keeps_pdf_color_space_named p pcs : keeps p (pdf_color_space_named pcs).
Proof.
  apply keeps_bind; [apply keeps_fallible_id | intros; apply keeps_ret].
Qed.

Lemma keeps_gx_cie_to_xyz_alloc p pcs : keeps p (gx_cie_to_xyz_alloc pcs).
Proof.
  apply keeps_bind; [apply keeps_fallible_id | intros; apply keeps_ret].
Qed.

Lemma keeps_pdf_finish_iccbased p pdev q : keeps p (pdf_finish_iccbased pdev q).
Proof.
  unfold pdf_finish_iccbased. apply keeps_bind.
  - intros st d r st' Hs H. inversion H; subst. exact Hs.
  - intros id. apply keeps_bind.
    + intros st d r st' Hs H. inversion H; subst.
      apply stream_at_modify_keeps; [apply keeps_data_stream_set_id | exact Hs].
    + intros _. intros st d r st' Hs H. unfold cos_write_object in H.
      destruct (fallible_inv H) as (flt & st1 & Hn & Hr).
      pose proof (stream_at_next_fault Hn Hs) as Hs1.
      destruct flt; destruct Hr as [_ ->]; assumption.
Qed.

(** A stream that [pdf_make_iccbased] returns is the object allocated last,
    and it is empty. *)
Lemma pdf_make_iccbased_ok {pdev pgs pca ncomps prange pcs_alt pprange st p st'} :
  pdf_make_iccbased pdev pgs pca ncomps prange pcs_alt pprange st = (Ok p, st') ->
  p = List.length (objects st) /\ stream_at st' p [].
Proof.
  unfold pdf_make_iccbased.
  destruct (cos_array_add pca (cos_c_string_value "/ICCBased") st)
    as [[[] | e] st1] eqn:E1; [| discriminate].
  assert (L1 : List.length (objects st1) = List.length (objects st)).
  { unfold cos_array_add in E1.
    destruct (fallible_inv E1) as (flt & st0 & Hn & Hr).
    destruct flt; destruct Hr as [Hr ->]; [discriminate |].
    unfold modify. simpl. rewrite length_update.
    now rewrite (next_fault_objects Hn). }
  unfold cos_stream_alloc, alloc.
  destruct (next_fault st1) as [[e |] st2] eqn:E2; [discriminate |].
  pose proof (next_fault_objects E2) as O2.
  set (q := List.length (objects st2)).
  set (st3 := with_objects st2 (objects st2 ++ [cos_stream [] [] 0])).
  assert (S3 : stream_at st3 q []).
  { exists [], 0%Z. unfold st3, q. simpl.
    rewrite nth_error_app2, Nat.sub_diag by lia. reflexivity. }
  assert (Hq : q = List.length (objects st)) by (unfold q; congruence).
  clearbody q st3.
  destruct (cos_dict_put_c_key_int q "/N" ncomps st3) as [[[] | e] st4] eqn:E4;
    [| discriminate].
  assert (S4 : stream_at st4 q []).
  { eapply keeps_cos_dict_put_c_key; eassumption. }
  match goal with
  | |- (let '(code, st) := ?alt in _) = _ -> _ =>
      destruct alt as [[[] | e] st5] eqn:E5; [| discriminate];
      assert (S5 : stream_at st5 q [])
  end.
  { destruct pcs_alt as [alt |].
    - destruct (gs_color_space_get_index alt);
        try (inversion E5; subst; exact S4);
        (eapply (keeps_bind q (pdf_color_space_named alt)); [ | | exact S4 | exact E5];
         [apply keeps_pdf_color_space_named | intros; apply keeps_cos_dict_put_c_key]).
    - destruct (negb (ncomps =? 1)%Z && negb (ncomps =? 3)%Z && negb (ncomps =? 4)%Z);
        inversion E5; subst; exact S4. }
  destruct (cos_array_add_object pca q st5) as [[[] | e] st6] eqn:E6;
    [| discriminate].
  intros H. inversion H; subst. split; [reflexivity |].
  eapply keeps_cos_array_add; eassumption.
Qed.

End StreamFacts.

(** ** The profile on the stream *)

Module ProfileFacts.
Import Profile Synthesis Streams StreamFacts.
Local Open Scope cos_scope.

Lemma appends_appends_some p {A} (c : M A) bs :
  appends p c bs -> appends_some p c bs.
Proof.
  intros Hc st d a st' Hs H. exists []. rewrite app_nil_r. eauto.
Qed.

Lemma extends_appends_some p {A} (c : M A) :
  extends p c -> appends_some p c [].
Proof. intros Hc st d a st' Hs H. simpl. eauto. Qed.

Lemma appends_some_bind p {A B} (c : M A) (k : A -> M B) bs1 bs2 :
  appends p c bs1 -> (forall a, appends_some p (k a) bs2) ->
  appends_some p (bind c k) (bs1 ++ bs2).
Proof.
  intros Hc Hk st d b st' Hs H.
  destruct (bind_ok_inv H) as (a & st1 & H1 & H2).
  destruct (Hk a _ _ _ _ (Hc _ _ _ _ Hs H1) H2) as (sfx & Hsfx).
  exists sfx. now rewrite <- !app_assoc in *.
Qed.

(** The general sequencing: each part succeeds with some more appended. *)
Lemma appends_some_bind_ext p {A B} (c : M A) (k : A -> M B) bs :
  appends_some p c bs -> (forall a, appends_some p (k a) []) ->
  appends_some p (bind c k) bs.
Proof.
  intros Hc Hk st d b st' Hs H.
  destruct (bind_ok_inv H) as (a & st1 & H1 & H2).
  destruct (Hc _ _ _ _ Hs H1) as (s1 & Hs1).
  destruct (Hk a _ _ _ _ Hs1 H2) as (s2 & Hs2).
  exists (s1 ++ s2). simpl in Hs2. now rewrite <- !app_assoc in *.
Qed.

Section Writers.
Variable gx_cie_cache_size : Z.
Variable p : nat.

Lemma extends_write_trc_abc pdev q pnt pciec :
  extends p (write_trc_abc gx_cie_cache_size pdev q pnt pciec).
Proof.
  unfold write_trc_abc. destruct (write_data pnt);
    first [apply extends_ret | apply extends_add_bytes].
Qed.

Lemma extends_write_trc_lmn pdev q pnt pciec :
  extends p (write_trc_lmn gx_cie_cache_size pdev q pnt pciec).
Proof.
  unfold write_trc_lmn. destruct (write_data pnt);
    first [apply extends_ret | apply extends_add_bytes].
Qed.

Lemma extends_a2b0_loop q entry entries :
  extends p (a2b0_loop q entry entries).
Proof.
  induction entries as [| i entries IH]; simpl.
  - apply extends_ret.
  - apply extends_bind; [apply extends_add_bytes | intros _; exact IH].
Qed.

Lemma extends_write_a2b0 pdev q pnt pciec :
  extends p (write_a2b0 pdev q pnt pciec).
Proof.
  unfold write_a2b0. destruct (write_data pnt); try apply extends_ret.
  apply extends_bind; [apply extends_add_bytes | intros _].
  apply extends_bind; [apply keeps_extends, keeps_gx_cie_to_xyz_alloc | intros pgs].
  apply extends_bind; [| intros _; apply extends_add_bytes].
  intros st d r st' Hs H.
  destruct (a2b0_loop q _ _ st) as [code st1] eqn:E.
  inversion H; subst. unfold gx_cie_to_xyz_free.
  eapply extends_a2b0_loop; eassumption.
Qed.

Lemma extends_call_write f pdev q pnt pciec :
  extends p (call_write gx_cie_cache_size f pdev q pnt pciec).
Proof.
  destruct f; simpl.
  - apply extends_write_trc_abc.
  - apply extends_write_trc_lmn.
  - apply extends_write_a2b0.
Qed.

Lemma extends_write_tables pdev q pciec tables :
  extends p (write_tables gx_cie_cache_size pdev q pciec tables).
Proof.
  induction tables as [| t tables IH]; simpl.
  - apply extends_ret.
  - apply extends_bind; [apply extends_add_bytes | intros _].
    apply extends_bind.
    + destruct (write t); [apply extends_call_write | apply extends_ret].
    + intros _. apply extends_bind; [apply extends_add_bytes | intros _; exact IH].
Qed.

(** A table without a writer whose length is a multiple of four: its data
    are what is appended. *)
Lemma appends_some_write_tables_plain pdev pciec t tables bs :
  write t = None ->
  Z.land (- to_int (length t)) 3 = 0%Z ->
  appends_some p (write_tables gx_cie_cache_size pdev p pciec tables) bs ->
  appends_some p (write_tables gx_cie_cache_size pdev p pciec (t :: tables))
    (take_bytes (Z.to_nat (data_length t)) (data t) ++ bs).
Proof.
  intros Hw Hpad Hrest. simpl. rewrite Hw, Hpad.
  apply appends_some_bind; [apply appends_add_bytes | intros _].
  change bs with ([] ++ bs).
  apply appends_some_bind; [apply appends_ret | intros _].
  change bs with ([] ++ bs).
  apply appends_some_bind; [| intros _; exact Hrest].
  apply (appends_add_bytes p [0; 0; 0]%Z 0).
Qed.

End Writers.

(** *** Lengths *)

Lemma take_bytes_length n src : List.length (take_bytes n src) = n.
Proof.
  unfold take_bytes, zeros. rewrite length_firstn, length_app, repeat_length.
  apply Nat.min_l. lia.
Qed.

Lemma take_bytes_exact n src : List.length src = n -> take_bytes n src = src.
Proof.
  intros H. unfold take_bytes. rewrite firstn_app, H, Nat.sub_diag. simpl.
  rewrite app_nil_r. rewrite <- H. apply firstn_all.
Qed.

Lemma take_bytes_0 src : take_bytes 0 src = [].
Proof. reflexivity. Qed.

Lemma memcpy_length dst off src n :
  (off + n <= List.length dst)%nat ->
  List.length (memcpy dst off src n) = List.length dst.
Proof.
  intros H. unfold memcpy.
  rewrite !length_app, length_firstn, take_bytes_length, length_skipn. lia.
Qed.

Lemma set_uint32_length x : List.length (set_uint32 x) = 4%nat.
Proof. reflexivity. Qed.

Lemma profile_header_length dcsname wtpt size :
  List.length (profile_header dcsname wtpt size) = 128%nat.
Proof.
  unfold profile_header.
  set (h0 := zeros (Z.to_nat sizeof_header)).
  assert (L0 : List.length h0 = 128%nat) by reflexivity.
  set (h1 := memcpy h0 0 header_data (List.length header_data)).
  assert (L1 : List.length h1 = 128%nat).
  { unfold h1. rewrite memcpy_length; [exact L0 | rewrite L0; simpl; lia]. }
  set (h2 := memcpy h1 16 (bytes_of_string dcsname) 4).
  assert (L2 : List.length h2 = 128%nat).
  { unfold h2. rewrite memcpy_length; [exact L1 | rewrite L1; lia]. }
  set (h3 := memcpy h2 68 (skipn 8 wtpt) 12).
  assert (L3 : List.length h3 = 128%nat).
  { unfold h3. rewrite memcpy_length; [exact L2 | rewrite L2; lia]. }
  rewrite memcpy_length; [exact L3 | rewrite L3; lia].
Qed.

Lemma directory_length tables offset :
  List.length (fst (directory tables offset)) = (12 * List.length tables)%nat.
Proof.
  revert offset. induction tables as [| t tables IH]; intros offset; simpl.
  - reflexivity.
  - specialize (IH (to_uint (offset + round_up (length t) 4))).
    destruct (directory tables _) as [bytes off'] eqn:E. simpl in *.
    rewrite !length_app, take_bytes_length, IH. simpl. lia.
Qed.

(** *** What a successful synthesis leaves on the stream *)

Section Emitted.
Variable gx_cie_cache_size : Z.

Lemma profile_tables_head pdev pcs pciec one_step pmat pprange wd50 :
  exists rest,
    profile_tables gx_cie_cache_size pdev pcs pciec one_step pmat pprange wd50 =
    add_table "desc"
      (memcpy (zeros (Z.to_nat sizeof_desc)) 0 desc_data (List.length desc_data))
      sizeof_desc
    :: add_table_xyz3 "wtpt" wd50
    :: rest
    /\ (List.length rest = 2 \/ List.length rest = 7)%nat.
Proof.
  unfold profile_tables.
  destruct one_step, pmat as [m |]; simpl;
    try destruct (add_a2b0 _ _) as [a2b0 pnt];
    try destruct pprange;
    eexists; (split; [reflexivity | simpl; auto]).
Qed.

Lemma iccbased_emits pdev pca pcs dcsname pciec prange one_step pmat pprange
    st st' :
  pdf_convert_cie_to_iccbased gx_cie_cache_size pdev pca pcs dcsname pciec
    prange one_step pmat pprange st = (Ok tt, st') ->
  let tables :=
    profile_tables gx_cie_cache_size pdev pcs pciec one_step pmat pprange
      white_d50 in
  let n := Z.of_nat (List.length tables) in
  let dir := directory tables (to_uint (sizeof_header + to_uint (4 + n * 12))) in
  exists suffix,
    stream_at st' (List.length (objects st))
      (profile_header dcsname (data (add_table_xyz3 "wtpt" white_d50)) (snd dir)
       ++ (set_uint32 (to_uint n) ++ fst dir)
       ++ data (add_table "desc"
            (memcpy (zeros (Z.to_nat sizeof_desc)) 0 desc_data
               (List.length desc_data)) sizeof_desc)
       ++ data (add_table_xyz3 "wtpt" white_d50)
       ++ suffix).
Proof.
  intros H tables n dir.
  unfold pdf_convert_cie_to_iccbased in H.
  destruct (bind_ok_inv H) as (p & st1 & Hmk & Hrest). clear H.
  destruct (pdf_make_iccbased_ok Hmk) as [-> Hs1].
  fold tables in Hrest. fold n in Hrest.
  change (directory tables (to_uint (sizeof_header + to_uint (4 + n * 12))))
    with dir in Hrest.
  assert (Hn : (List.length tables = 4 \/ List.length tables = 9)%nat).
  { unfold tables.
    destruct (profile_tables_head pdev pcs pciec one_step pmat pprange white_d50)
      as (rest & -> & [L | L]); simpl; rewrite L; auto. }
  assert (Hlen : List.length (set_uint32 (to_uint n) ++ fst dir)
                 = Z.to_nat (to_uint (4 + n * 12))).
  { rewrite length_app. unfold dir. rewrite directory_length.
    unfold n. destruct Hn as [Hn | Hn]; rewrite Hn; reflexivity. }
  destruct dir as [entries size] eqn:Edir. simpl fst in *. simpl snd in *.
  set (p := List.length (objects st)) in *.
  revert Hrest.
  destruct (profile_tables_head pdev pcs pciec one_step pmat pprange white_d50)
    as (rest & Etab & _).
  fold tables in Etab. rewrite Etab. intros Hrest.
  match type of Hrest with
  | ?c st1 = _ =>
      assert (Hc : appends_some p c
        (take_bytes (Z.to_nat sizeof_header)
           (profile_header dcsname (data (add_table_xyz3 "wtpt" white_d50)) size)
         ++ take_bytes (Z.to_nat (to_uint (4 + n * 12)))
              (set_uint32 (to_uint n) ++ entries)
         ++ take_bytes (Z.to_nat sizeof_desc)
              (memcpy (zeros (Z.to_nat sizeof_desc)) 0 desc_data
                 (List.length desc_data))
         ++ take_bytes 20 (data (add_table_xyz3 "wtpt" white_d50))
         ++ []))
  end.
  { apply appends_some_bind; [apply appends_add_bytes | intros _].
    apply appends_some_bind; [apply appends_add_bytes | intros _].
    rewrite !app_assoc.
    replace (@nil byte) with (@nil byte ++ @nil byte) by reflexivity.
    rewrite !app_assoc.
    rewrite <- (app_nil_r (_ ++ take_bytes 20 _)).
    rewrite <- !app_assoc.
    eapply (appends_some_bind_ext p); [| intros _; apply extends_appends_some,
      keeps_extends, keeps_pdf_finish_iccbased].
    apply (appends_some_write_tables_plain gx_cie_cache_size p pdev pciec
             (add_table "desc" _ sizeof_desc)); [reflexivity | reflexivity |].
    apply (appends_some_write_tables_plain gx_cie_cache_size p pdev pciec
             (add_table_xyz3 "wtpt" white_d50)); [reflexivity | reflexivity |].
    apply extends_appends_some, extends_write_tables. }
  destruct (Hc _ _ _ _ Hs1 Hrest) as (sfx & Hsfx).
  exists sfx.
  rewrite (take_bytes_exact (Z.to_nat sizeof_header)) in Hsfx
    by apply profile_header_length.
  rewrite (take_bytes_exact _ (set_uint32 (to_uint n) ++ entries)) in Hsfx
    by exact Hlen.
  rewrite (take_bytes_exact (Z.to_nat sizeof_desc)) in Hsfx by reflexivity.
  rewrite (take_bytes_exact 20) in Hsfx by reflexivity.
  rewrite <- !app_assoc in Hsfx. rewrite <- !app_assoc. exact Hsfx.
Qed.

End Emitted.

End ProfileFacts.

(** ** Runs without faults *)

Module TotalFacts.
Import Profile Synthesis Streams StreamFacts ProfileFacts.
Local Open Scope cos_scope.

Lemma total_ret {A} (a : A) : total (ret a).
Proof. intros st H. exists a, st. auto. Qed.

Lemma total_bind {A B} (c : M A) (k : A -> M B) :
  total c -> (forall a, total (k a)) -> total (bind c k).
Proof.
  intros Hc Hk st H. destruct (Hc st H) as (a & st1 & E1 & F1).
  destruct (Hk a st1 F1) as (b & st2 & E2 & F2).
  exists b, st2. unfold bind. rewrite E1. auto.
Qed.

Lemma next_fault_none st : faults st = [] -> next_fault st = (None, st).
Proof. intros H. unfold next_fault. now rewrite H. Qed.

Lemma total_fallible ok :
  (forall st, faults (ok st) = faults st) -> total (fallible ok).
Proof.
  intros Hok st H. exists tt, (ok st). unfold fallible.
  rewrite (next_fault_none st H). split; [reflexivity |].
  now rewrite Hok.
Qed.

Lemma faults_modify q f st : faults (modify q f st) = faults st.
Proof. reflexivity. Qed.

Lemma total_cos_array_add q x : total (cos_array_add q x).
Proof. apply total_fallible. intros; apply faults_modify. Qed.

Lemma total_cos_dict_put_c_key q k x : total (cos_dict_put_c_key q k x).
Proof. apply total_fallible. intros; apply faults_modify. Qed.

Lemma total_cos_stream_add_bytes q data size :
  total (cos_stream_add_bytes q data size).
Proof. apply total_fallible. intros; apply faults_modify. Qed.

Lemma total_gx_cie_to_xyz_alloc pcs : total (gx_cie_to_xyz_alloc pcs).
Proof.
  apply total_bind; [now apply total_fallible | intros; apply total_ret].
Qed.

Lemma total_pdf_finish_iccbased pdev q : total (pdf_finish_iccbased pdev q).
Proof.
  unfold pdf_finish_iccbased. apply total_bind.
  - intros st H. eexists _, _. split; [reflexivity | exact H].
  - intros id. apply total_bind.
    + intros st H. eexists _, _. split; [reflexivity | exact H].
    + intros _. now apply total_fallible.
Qed.

Lemma total_a2b0_loop q entry entries : total (a2b0_loop q entry entries).
Proof.
  induction entries as [| i entries IH]; simpl.
  - apply total_ret.
  - apply total_bind; [apply total_cos_stream_add_bytes | intros _; exact IH].
Qed.

Section Writers.
Variable gx_cie_cache_size : Z.

Lemma total_write_a2b0 pdev q pnt pciec : total (write_a2b0 pdev q pnt pciec).
Proof.
  unfold write_a2b0. destruct (write_data pnt); try apply total_ret.
  apply total_bind; [apply total_cos_stream_add_bytes | intros _].
  apply total_bind; [apply total_gx_cie_to_xyz_alloc | intros pgs].
  apply total_bind; [| intros _; apply total_cos_stream_add_bytes].
  intros st H.
  destruct (total_a2b0_loop q (a2b0_entry pnt pa2b pgs pciec)
              (map Z.of_nat (seq 0 (Z.to_nat (count pa2b)))) st H)
    as ([] & st1 & E & F).
  exists tt, st1. rewrite E. auto.
Qed.

Lemma total_call_write f pdev q pnt pciec :
  total (call_write gx_cie_cache_size f pdev q pnt pciec).
Proof.
  destruct f; simpl.
  - unfold write_trc_abc. destruct (write_data pnt);
      first [apply total_ret | apply total_cos_stream_add_bytes].
  - unfold write_trc_lmn. destruct (write_data pnt);
      first [apply total_ret | apply total_cos_stream_add_bytes].
  - apply total_write_a2b0.
Qed.

Lemma total_write_tables pdev q pciec tables :
  total (write_tables gx_cie_cache_size pdev q pciec tables).
Proof.
  induction tables as [| t tables IH]; simpl.
  - apply total_ret.
  - apply total_bind; [apply total_cos_stream_add_bytes | intros _].
    apply total_bind.
    + destruct (write t); [apply total_call_write | apply total_ret].
    + intros _. apply total_bind;
        [apply total_cos_stream_add_bytes | intros _; exact IH].
Qed.

End Writers.

(** With one, three or four components, [pdf_make_iccbased] is handed a
    device space as the alternate space and succeeds. *)
Lemma total_pdf_make_iccbased_device pdev pgs pca ncomps prange pprange :
  (ncomps = 1 \/ ncomps = 3 \/ ncomps = 4)%Z ->
  total (pdf_make_iccbased pdev pgs pca ncomps prange
           (pdf_cspace_init_Device ncomps) pprange).
Proof.
  intros Hn st H. unfold pdf_make_iccbased.
  destruct (total_cos_array_add pca (cos_c_string_value "/ICCBased") st H)
    as ([] & st1 & -> & F1).
  unfold cos_stream_alloc, alloc. rewrite (next_fault_none st1 F1).
  set (q := List.length (objects st1)).
  set (st2 := with_objects st1 _).
  assert (F2 : faults st2 = []) by exact F1.
  destruct (total_cos_dict_put_c_key q "/N" (cos_int_value ncomps) st2 F2)
    as ([] & st3 & E3 & F3).
  unfold cos_dict_put_c_key_int. rewrite E3.
  assert (Ealt : exists i n,
            pdf_cspace_init_Device ncomps = Some (device_space i n) /\
            (i = gs_color_space_index_DeviceGray \/
             i = gs_color_space_index_DeviceRGB \/
             i = gs_color_space_index_DeviceCMYK)).
  { destruct Hn as [-> | [-> | ->]]; eexists _, _; (split; [reflexivity | auto]). }
  destruct Ealt as (i & n & -> & Hi).
  assert (Ei : gs_color_space_get_index (device_space i n) = i) by reflexivity.
  rewrite Ei.
  destruct (total_cos_array_add pca (cos_object_value q) st3 F3)
    as ([] & st4 & E4 & F4).
  unfold cos_array_add_object.
  destruct Hi as [-> | [-> | ->]]; rewrite E4; eauto.
Qed.

Lemma total_pdf_convert_cie_to_iccbased cache pdev pca pcs dcsname pciec prange
    one_step pmat pprange :
  let ncomps := gs_color_space_num_components pcs in
  (ncomps = 1 \/ ncomps = 3 \/ ncomps = 4)%Z ->
  total (pdf_convert_cie_to_iccbased cache pdev pca pcs dcsname pciec prange
           one_step pmat pprange).
Proof.
  intros ncomps Hn. unfold pdf_convert_cie_to_iccbased. fold ncomps.
  apply total_bind; [now apply total_pdf_make_iccbased_device | intros p].
  destruct (directory _ _) as [entries offset].
  apply total_bind; [apply total_cos_stream_add_bytes | intros _].
  apply total_bind; [apply total_cos_stream_add_bytes | intros _].
  apply total_bind; [apply total_write_tables | intros _].
  apply total_pdf_finish_iccbased.
Qed.

End TotalFacts.

(** ** Reading the profile back *)

Module ReaderFacts.
Import Profile Synthesis Streams StreamFacts ProfileFacts Stated.

Lemma slice_skip (a b : list byte) (k off len : nat) :
  List.length a = k -> slice (a ++ b) (k + off) len = slice b off len.
Proof.
  intros <-. unfold slice. rewrite skipn_app.
  rewrite skipn_all2 by lia.
  replace (List.length a + off - List.length a)%nat with off by lia.
  reflexivity.
Qed.

Lemma slice_take (a b : list byte) (len : nat) :
  List.length a = len -> slice (a ++ b) 0 len = a.
Proof.
  intros <-. unfold slice. simpl.
  rewrite firstn_app, Nat.sub_diag, firstn_all. simpl. apply app_nil_r.
Qed.

Lemma slice_inside (a b : list byte) (off len : nat) :
  (off + len <= List.length a)%nat -> slice (a ++ b) off len = slice a off len.
Proof.
  intros H. unfold slice. rewrite skipn_app, firstn_app, length_skipn.
  replace (len - (List.length a - off))%nat with O by lia.
  simpl. apply app_nil_r.
Qed.

Lemma slice_all (a : list byte) (len : nat) :
  List.length a = len -> slice a 0 len = a.
Proof. intros <-. unfold slice. simpl. apply firstn_all. Qed.

Lemma slice_memcpy_same dst off src n :
  (off <= List.length dst)%nat ->
  slice (memcpy dst off src n) off n = take_bytes n src.
Proof.
  intros H. unfold memcpy.
  set (rest := take_bytes n src ++ skipn (off + n) dst).
  transitivity (slice (firstn off dst ++ rest) (off + 0) n).
  { f_equal. lia. }
  rewrite slice_skip by (rewrite length_firstn; lia).
  apply slice_take, take_bytes_length.
Qed.

Lemma slice_memcpy_after dst off src n o len :
  (off + n <= o)%nat -> (off + n <= List.length dst)%nat ->
  slice (memcpy dst off src n) o len = slice dst o len.
Proof.
  intros H1 H2. unfold memcpy.
  set (mid := take_bytes n src). set (tl := skipn (off + n) dst).
  transitivity (slice (firstn off dst ++ mid ++ tl) (off + (n + (o - off - n))) len).
  { f_equal. lia. }
  rewrite slice_skip by (rewrite length_firstn; lia).
  rewrite slice_skip by apply take_bytes_length.
  unfold slice, tl. rewrite skipn_skipn. do 2 f_equal. lia.
Qed.

Lemma get_set_uint32 (x : Z) :
  (0 <= x < 4294967296)%Z -> get_uint32 (set_uint32 x) = x.
Proof.
  intros H. unfold get_uint32, set_uint32, to_byte.
  rewrite !Z.shiftr_div_pow2 by lia.
  change (2 ^ 24)%Z with 16777216%Z. change (2 ^ 16)%Z with 65536%Z.
  change (2 ^ 8)%Z with 256%Z.
  Z.div_mod_to_equations. lia.
Qed.

(** The illuminant field of the header holds the bytes 8..19 of the wtpt
    table. *)
Lemma illuminant_of_header dcsname wtpt size :
  slice (profile_header dcsname wtpt size) 68 12 = take_bytes 12 (skipn 8 wtpt).
Proof.
  unfold profile_header.
  set (h0 := zeros (Z.to_nat sizeof_header)).
  assert (L0 : List.length h0 = 128%nat) by reflexivity.
  set (h1 := memcpy h0 0 header_data (List.length header_data)).
  assert (L1 : List.length h1 = 128%nat).
  { unfold h1. rewrite memcpy_length; [exact L0 | rewrite L0; simpl; lia]. }
  set (h2 := memcpy h1 16 (bytes_of_string dcsname) 4).
  assert (L2 : List.length h2 = 128%nat).
  { unfold h2. rewrite memcpy_length; [exact L1 | rewrite L1; lia]. }
  set (h3 := memcpy h2 68 (skipn 8 wtpt) 12).
  assert (L3 : List.length h3 = 128%nat).
  { unfold h3. rewrite memcpy_length; [exact L2 | rewrite L2; lia]. }
  rewrite slice_memcpy_after by (rewrite ?L3; lia).
  unfold h3. apply slice_memcpy_same. rewrite L2. lia.
Qed.

(** *** The white point table *)

Local Open Scope R_scope.

Lemma int_of_double_between (x : R) (n : Z) :
  (0 <= n)%Z -> IZR n <= x < IZR n + 1 -> C.int_of_double x = n.
Proof.
  intros Hn H. unfold C.int_of_double.
  destruct (Rle_dec 0 x) as [_ | Hx].
  - now apply LutFacts.floor_between.
  - exfalso. apply Hx. apply Rle_trans with (IZR n); [now apply IZR_le | lra].
Qed.

(** The encoding of a value does not depend on how the constant is rounded
    to a [float]: every value within 2^-24 of 0.9642 has the same bytes. *)
Lemma set_XYZ_near_X (x : R) :
  Rabs (x - 0.9642) <= / 2 ^ 24 -> set_XYZ x = [0; 0; 246; 213]%Z.
Proof.
  intros H. unfold set_XYZ.
  rewrite (int_of_double_between (x * 65536) 63189); [reflexivity | lia |].
  unfold Rabs in H. destruct (Rcase_abs _); lra.
Qed.

Lemma set_XYZ_near_Z (x : R) :
  Rabs (x - 0.8249) <= / 2 ^ 24 -> set_XYZ x = [0; 0; 211; 44]%Z.
Proof.
  intros H. unfold set_XYZ.
  rewrite (int_of_double_between (x * 65536) 54060); [reflexivity | lia |].
  unfold Rabs in H. destruct (Rcase_abs _); lra.
Qed.

Lemma set_XYZ_one : set_XYZ 1.0 = [0; 1; 0; 0]%Z.
Proof.
  unfold set_XYZ.
  rewrite (int_of_double_between (1.0 * 65536) 65536); [reflexivity | lia | lra].
Qed.

Lemma wtpt_data :
  data (add_table_xyz3 "wtpt" white_d50) =
  [88; 89; 90; 32; 0; 0; 0; 0; 0; 0; 246; 213; 0; 1; 0; 0; 0; 0; 211; 44]%Z.
Proof.
  unfold add_table_xyz3, add_table, white_d50. cbn [data u v w].
  rewrite set_XYZ_near_X, set_XYZ_one, set_XYZ_near_Z.
  - reflexivity.
  - rewrite Rminus_diag, Rabs_R0. left. apply Rinv_0_lt_compat. lra.
  - rewrite Rminus_diag, Rabs_R0. left. apply Rinv_0_lt_compat. lra.
Qed.

Lemma s15Fixed16_value (b0 b1 b2 b3 : Z) (n : Z) :
  Profile.to_int (get_uint32 [b0; b1; b2; b3]) = n ->
  s15Fixed16 [b0; b1; b2; b3] = IZR n / 65536.
Proof. intros <-. reflexivity. Qed.

Local Close Scope R_scope.

(** *** The directory in front of the white point table *)

Lemma entry_length t offset : List.length (entry t offset) = 12%nat.
Proof. unfold entry. rewrite !length_app, take_bytes_length. reflexivity. Qed.

Lemma directory_cons t tables offset :
  directory (t :: tables) offset =
  (entry t offset
   ++ fst (directory tables (to_uint (offset + round_up (length t) 4))),
   snd (directory tables (to_uint (offset + round_up (length t) 4)))).
Proof.
  simpl. destruct (directory tables _) as [bytes off']. unfold entry. simpl.
  now rewrite <- !app_assoc.
Qed.

(** A reader finds the second entry of a directory whose first entry has
    another signature. *)
Lemma find_tag_second (d H e0 rest : list byte) (sig : string) (n off len : Z) :
  d = H ++ set_uint32 n ++ e0
        ++ (take_bytes 4 (bytes_of_string sig) ++ set_uint32 off ++ set_uint32 len)
        ++ rest ->
  List.length H = 128%nat ->
  (2 <= n < 4294967296)%Z ->
  List.length e0 = 12%nat ->
  bytes_eqb (slice e0 0 4) (bytes_of_string sig) = false ->
  bytes_eqb (take_bytes 4 (bytes_of_string sig)) (bytes_of_string sig) = true ->
  (0 <= off < 4294967296)%Z -> (0 <= len < 4294967296)%Z ->
  find_tag d sig = Some (off, len).
Proof.
  intros -> LH Hn Le0 Hne Heq Hoff Hlen.
  set (e1 := take_bytes 4 (bytes_of_string sig) ++ set_uint32 off ++ set_uint32 len).
  assert (Le1 : List.length e1 = 12%nat).
  { unfold e1. rewrite !length_app, take_bytes_length. reflexivity. }
  set (d := H ++ set_uint32 n ++ e0 ++ e1 ++ rest).
  assert (S0 : slice d 128 4 = set_uint32 n).
  { unfold d. change 128%nat with (128 + 0)%nat.
    rewrite (slice_skip H _ 128 0 4 LH). reflexivity. }
  assert (S1 : slice d 132 12 = e0).
  { unfold d. change 132%nat with (128 + (4 + 0))%nat.
    rewrite (slice_skip H _ 128 (4 + 0) 12 LH).
    rewrite (slice_skip (set_uint32 n) _ 4 0 12 eq_refl).
    apply slice_take, Le0. }
  assert (S2 : slice d 144 12 = e1).
  { unfold d. change 144%nat with (128 + (4 + (12 + 0)))%nat.
    rewrite (slice_skip H _ 128 (4 + (12 + 0)) 12 LH).
    rewrite (slice_skip (set_uint32 n) _ 4 (12 + 0) 12 eq_refl).
    rewrite (slice_skip e0 _ 12 0 12 Le0).
    apply slice_take, Le1. }
  assert (S3 : slice e1 0 4 = take_bytes 4 (bytes_of_string sig)).
  { unfold e1. apply slice_take, take_bytes_length. }
  assert (S4 : slice e1 4 4 = set_uint32 off).
  { unfold e1. change 4%nat with (4 + 0)%nat at 2.
    rewrite (slice_skip _ _ 4 0 4 (take_bytes_length _ _)). reflexivity. }
  assert (S5 : slice e1 8 4 = set_uint32 len).
  { unfold e1. change 8%nat with (4 + (4 + 0))%nat.
    rewrite (slice_skip _ _ 4 (4 + 0) 4 (take_bytes_length _ _)).
    reflexivity. }
  clearbody d e1.
  unfold find_tag, tag_count. rewrite S0, get_set_uint32 by lia.
  destruct (Z.to_nat n) as [| [| m]] eqn:En; try lia.
  cbn [find_tag_from].
  change (132 + 12 * 0)%nat with 132%nat.
  change (132 + 12 * 1)%nat with 144%nat.
  rewrite S1, Hne, S2, S3, Heq, S4, S5.
  now rewrite !get_set_uint32 by lia.
Qed.

(** *** The white point of an emitted profile *)

Lemma to_uint_small (x : Z) : (0 <= x < 4294967296)%Z -> to_uint x = x.
Proof. intros H. unfold to_uint. now apply Z.mod_small. Qed.

Section Emitted.
Variable gx_cie_cache_size : Z.

Lemma emitted_profile_wtpt pdev pca pcs dcsname pciec prange one_step pmat
    pprange st st' :
  pdf_convert_cie_to_iccbased gx_cie_cache_size pdev pca pcs dcsname pciec
    prange one_step pmat pprange st = (Ok tt, st') ->
  let d := stream_data st' (List.length (objects st)) in
  exists off,
    find_tag d "wtpt" = Some (off, 20%Z) /\
    slice d (Z.to_nat off) 20 = wtpt_bytes /\
    illuminant d = slice d (Z.to_nat off + 8) 12.
Proof.
  intros Hrun d.
  destruct (iccbased_emits _ _ _ _ _ _ _ _ _ _ _ _ Hrun) as (sfx & Hs).
  apply stream_at_data in Hs. fold d in Hs.
  destruct (profile_tables_head gx_cie_cache_size pdev pcs pciec one_step pmat
              pprange white_d50) as (rest & Etab & Hrest).
  rewrite Etab in Hs. clear Etab Hrun.
  set (m := List.length rest) in *.
  assert (Hm : (m <= 7)%nat) by lia. clear Hrest.
  cbn [List.length] in Hs. fold m in Hs.
  set (n := Z.of_nat (S (S m))) in *.
  assert (Hn : (2 <= n <= 9)%Z) by (unfold n; lia).
  assert (E0 : to_uint (sizeof_header + to_uint (4 + n * 12)) = (132 + 12 * n)%Z).
  { unfold sizeof_header. rewrite (to_uint_small (4 + n * 12)) by lia.
    rewrite to_uint_small by lia. lia. }
  rewrite E0 in Hs. rewrite !directory_cons in Hs. cbn [fst snd] in Hs.
  change (length (add_table "desc" _ sizeof_desc)) with 96%Z in Hs.
  change (round_up 96 4) with 96%Z in Hs.
  assert (E1 : to_uint (132 + 12 * n + 96) = (228 + 12 * n)%Z)
    by (rewrite to_uint_small; lia).
  rewrite E1 in Hs.
  change (length (add_table_xyz3 "wtpt" white_d50)) with 20%Z in Hs.
  set (more := fst (directory rest _)) in Hs.
  assert (Lmore : List.length more = (12 * m)%nat) by apply directory_length.
  rewrite (to_uint_small n) in Hs by lia.
  rewrite wtpt_data in Hs. fold wtpt_bytes in Hs.
  set (Hd := profile_header dcsname wtpt_bytes _) in Hs.
  assert (LH : List.length Hd = 128%nat) by apply profile_header_length.
  assert (HI : slice Hd 68 12 = slice wtpt_bytes 8 12).
  { unfold Hd. rewrite illuminant_of_header. reflexivity. }
  set (e0 := entry (add_table "desc" _ sizeof_desc) (132 + 12 * n)) in Hs.
  assert (Le0 : List.length e0 = 12%nat) by apply entry_length.
  set (DESC := data (add_table "desc" _ sizeof_desc)) in Hs.
  assert (LD : List.length DESC = 96%nat) by reflexivity.
  set (e1 := entry (add_table_xyz3 "wtpt" white_d50) (228 + 12 * n)) in Hs.
  assert (Le1 : List.length e1 = 12%nat) by apply entry_length.
  assert (Hd' : d = Hd ++ set_uint32 n ++ e0 ++ e1 ++ more ++ DESC ++ wtpt_bytes
                  ++ sfx).
  { rewrite Hs. now rewrite <- !app_assoc. }
  clear Hs. clearbody Hd DESC.
  exists (228 + 12 * n)%Z. split; [| split].
  - apply (find_tag_second d Hd e0 (more ++ DESC ++ wtpt_bytes ++ sfx) "wtpt" n
             (228 + 12 * n) 20); try lia; try reflexivity; assumption.
  - rewrite Hd'.
    replace (Z.to_nat (228 + 12 * n))
      with (128 + (4 + (12 + (12 + (12 * m + (96 + 0))))))%nat by (unfold n; lia).
    rewrite (slice_skip Hd _ 128 _ 20 LH).
    rewrite (slice_skip (set_uint32 n) _ 4 _ 20 eq_refl).
    rewrite (slice_skip e0 _ 12 _ 20 Le0).
    rewrite (slice_skip e1 _ 12 _ 20 Le1).
    rewrite (slice_skip more _ (12 * m) _ 20 Lmore).
    rewrite (slice_skip DESC _ 96 _ 20 LD).
    apply slice_take. reflexivity.
  - unfold illuminant. rewrite Hd'.
    rewrite slice_inside by (rewrite LH; lia). rewrite HI.
    replace (Z.to_nat (228 + 12 * n) + 8)%nat
      with (128 + (4 + (12 + (12 + (12 * m + (96 + 8))))))%nat by (unfold n; lia).
    rewrite (slice_skip Hd _ 128 _ 12 LH).
    rewrite (slice_skip (set_uint32 n) _ 4 _ 12 eq_refl).
    rewrite (slice_skip e0 _ 12 _ 12 Le0).
    rewrite (slice_skip e1 _ 12 _ 12 Le1).
    rewrite (slice_skip more _ (12 * m) _ 12 Lmore).
    rewrite (slice_skip DESC _ 96 _ 12 LD).
    rewrite slice_inside by (simpl; lia). reflexivity.
Qed.

End Emitted.

(** The values a reader decodes from the white point table. *)
Lemma wtpt_decoded :
  (s15Fixed16 (slice (slice wtpt_bytes 0 20) 8 4) = 63189 / 65536 /\
   s15Fixed16 (slice (slice wtpt_bytes 0 20) 12 4) = 1 /\
   s15Fixed16 (slice (slice wtpt_bytes 0 20) 16 4) = 54060 / 65536)%R.
Proof.
  split; [| split].
  - apply (s15Fixed16_value 0 0 246 213 63189). reflexivity.
  - change (slice (slice wtpt_bytes 0 20) 12 4) with [0; 1; 0; 0]%Z.
    rewrite (s15Fixed16_value 0 1 0 0 65536) by reflexivity. lra.
  - apply (s15Fixed16_value 0 0 211 44 54060). reflexivity.
Qed.

End ReaderFacts.

(** ** The synthesis policy *)

Module PolicyFacts.
Import Profile Synthesis Entry Streams StreamFacts.

Lemma Qlt_bool_true (a b : Q) : Qlt_bool a b = true <-> (a < b)%Q.
Proof.
  unfold Qlt_bool. rewrite negb_true_iff. split.
  - intros H. apply Qnot_le_lt. intros Hle.
    apply Qle_bool_iff in Hle. congruence.
  - intros H. destruct (Qle_bool b a) eqn:E; [| reflexivity].
    apply Qle_bool_iff in E. exfalso. exact (Qlt_not_le _ _ H E).
Qed.

Lemma Qlt_bool_false (a b : Q) : Qlt_bool a b = false <-> ~ (a < b)%Q.
Proof.
  rewrite <- Qlt_bool_true. destruct (Qlt_bool a b); split; intros H;
    congruence.
Qed.

Lemma pdf_convert_cie_to_lab_rejects pdev pca pcs pciec prange st :
  pdf_convert_cie_to_lab pdev pca pcs pciec prange st
  = (Error gs_error_rangecheck, st).
Proof. reflexivity. Qed.

Section Dispatch.
Variable gx_cie_cache_size : Z.

Lemma pdf_convert_cie_space_low pdev pca pcs dcsname pciec prange one_step
    pmat pprange st :
  (CompatibilityLevel pdev < 1.3)%Q ->
  pdf_convert_cie_space gx_cie_cache_size pdev pca pcs dcsname pciec prange
    one_step pmat pprange st = (Error gs_error_rangecheck, st).
Proof.
  intros H. unfold pdf_convert_cie_space.
  apply Qlt_bool_true in H. rewrite H. reflexivity.
Qed.

Lemma pdf_convert_cie_space_high pdev pca pcs dcsname pciec prange one_step
    pmat pprange st :
  ~ (CompatibilityLevel pdev < 1.3)%Q ->
  pdf_convert_cie_space gx_cie_cache_size pdev pca pcs dcsname pciec prange
    one_step pmat pprange st =
  pdf_convert_cie_to_iccbased gx_cie_cache_size pdev pca pcs dcsname pciec
    prange one_step pmat pprange st.
Proof.
  intros H. unfold pdf_convert_cie_space.
  apply Qlt_bool_false in H. rewrite H. reflexivity.
Qed.

End Dispatch.


(** C10: [pdf_convert_cie_to_lab] returns a range-check error for every
    input, before anything is allocated or emitted: the state is the one it
    was given.  So at a compatibility level below 1.3
    [pdf_convert_cie_space] fails with a range-check error, leaves the
    state as it was and adds nothing to the colour-space array: no Lab
    space is produced. *)
Theorem lab_synthesis_is_disabled (gx_cie_cache_size : Z)
    (pdev : gx_device_pdf) (pca : nat) (pcs : gs_color_space)
    (dcsname : string) (pciec : gs_cie_common) (prange : list gs_range)
    (one_step : cie_cache_one_step_t) (pmat : option gs_matrix3)
    (pprange : option (list gs_range)) (st : pdf_state) :
  pdf_convert_cie_to_lab pdev pca pcs pciec prange st
    = (Error gs_error_rangecheck, st) /\
  ((CompatibilityLevel pdev < 1.3)%Q ->
   let run :=
     Entry.pdf_convert_cie_space gx_cie_cache_size pdev pca pcs dcsname pciec
       prange one_step pmat pprange st in
   run = (Error gs_error_rangecheck, st) /\
   array_elements (snd run) pca = array_elements st pca /\
   ~ Stated.emits_lab run pca).
Proof.
  split; [reflexivity |].
  intros H run.
  assert (E : run = (Error gs_error_rangecheck, st))
    by now apply PolicyFacts.pdf_convert_cie_space_low.
  rewrite E. repeat split. intros [Hok _]. discriminate.
Qed.

Lemma lab_synthesis_is_disabled_witness :
  Entry.pdf_convert_cie_space 512 Examples.pdf12 Examples.pca0
    Examples.gray_space "GRAY" Examples.d65_white [] ONE_STEP_NOT None None
    Examples.st0
  = (Error gs_error_rangecheck, Examples.st0).
Proof.
  apply (lab_synthesis_is_disabled 512 Examples.pdf12 Examples.pca0
           Examples.gray_space "GRAY" Examples.d65_white [] ONE_STEP_NOT None
           None Examples.st0).
  reflexivity.
Defined.

(** C1 (as stated, refuted): at compatibility level 1.2 the conversion of a
    single-channel CIE space does not emit a Lab space. *)
Lemma no_lab_space_at_level_1_2 :
  (CompatibilityLevel Examples.pdf12 < 1.3)%Q /\
  ~ Stated.emits_lab
      (Entry.pdf_convert_cie_space 512 Examples.pdf12 Examples.pca0
         Examples.gray_space "GRAY" Examples.d65_white [] ONE_STEP_NOT None
         None Examples.st0)
      Examples.pca0.
Proof.
  split; [reflexivity |].
  rewrite PolicyFacts.pdf_convert_cie_space_low by reflexivity.
  intros [Hok _]. discriminate.
Qed.

(** C1 (amended): for every CIE-based colour space, below compatibility
    level 1.3 [pdf_convert_cie_space] hands over to
    [pdf_convert_cie_to_lab], which returns a range-check error and
    builds nothing (no Lab space and no profile: the state is unchanged);
    at level 1.3 or above it is [pdf_convert_cie_to_iccbased], the
    synthesis of an ICC profile. *)
Theorem cie_space_dispatch (gx_cie_cache_size : Z)
    (pdev : gx_device_pdf) (pca : nat) (pcs : gs_color_space)
    (dcsname : string) (pciec : gs_cie_common) (prange : list gs_range)
    (one_step : cie_cache_one_step_t) (pmat : option gs_matrix3)
    (pprange : option (list gs_range)) (st : pdf_state) :
  let run :=
    Entry.pdf_convert_cie_space gx_cie_cache_size pdev pca pcs dcsname pciec
      prange one_step pmat pprange st in
  ((CompatibilityLevel pdev < 1.3)%Q ->
   run = pdf_convert_cie_to_lab pdev pca pcs pciec prange st /\
   run = (Error gs_error_rangecheck, st)) /\
  ((1.3 <= CompatibilityLevel pdev)%Q ->
   run = Synthesis.pdf_convert_cie_to_iccbased gx_cie_cache_size pdev pca pcs
           dcsname pciec prange one_step pmat pprange st).
Proof.
  intros run. split.
  - intros H. split; now apply PolicyFacts.pdf_convert_cie_space_low.
  - intros H. apply PolicyFacts.pdf_convert_cie_space_high.
    now apply Qle_not_lt.
Qed.

Lemma cie_space_dispatch_witness :
  Entry.pdf_convert_cie_space 512 Examples.pdf12 Examples.pca0
    Examples.gray_space "GRAY" Examples.d65_white [] ONE_STEP_NOT None None
    Examples.st0
  = (Error gs_error_rangecheck, Examples.st0) /\
  Entry.pdf_convert_cie_space 512 Examples.pdf13 Examples.pca0
    Examples.gray_space "GRAY" Examples.d65_white [] ONE_STEP_NOT None None
    Examples.st0
  = Synthesis.pdf_convert_cie_to_iccbased 512 Examples.pdf13 Examples.pca0
      Examples.gray_space "GRAY" Examples.d65_white [] ONE_STEP_NOT None None
      Examples.st0.
Proof.
  split.
  - apply (cie_space_dispatch 512 Examples.pdf12 Examples.pca0
             Examples.gray_space "GRAY" Examples.d65_white [] ONE_STEP_NOT
             None None Examples.st0).
    reflexivity.
  - apply (cie_space_dispatch 512 Examples.pdf13 Examples.pca0
             Examples.gray_space "GRAY" Examples.d65_white [] ONE_STEP_NOT
             None None Examples.st0).
    unfold Qle. simpl. lia.
Defined.

End PolicyFacts.

(** ** The white point of a synthesized profile *)

Module WhitePointFacts.
Import Profile Synthesis Entry Streams StreamFacts ReaderFacts.

(** What a reader finds in the profile a successful synthesis leaves on its
    stream, in terms of the bytes. *)
Lemma synthesized_white_point cache pdev pca pcs dcsname pciec prange one_step
    pmat pprange st st' :
  pdf_convert_cie_to_iccbased cache pdev pca pcs dcsname pciec prange one_step
    pmat pprange st = (Ok tt, st') ->
  let d := stream_data st' (List.length (objects st)) in
  Stated.xyz_tag d "wtpt"
    = Some ((63189 / 65536)%R, 1%R, (54060 / 65536)%R) /\
  exists off len,
    Stated.find_tag d "wtpt" = Some (off, len) /\
    Stated.illuminant d = Stated.slice d (Z.to_nat off + 8) 12.
Proof.
  intros Hrun d.
  destruct (emitted_profile_wtpt _ _ _ _ _ _ _ _ _ _ _ _ Hrun)
    as (off & Hfind & Hpay & Hill).
  fold d in Hfind, Hpay, Hill. split.
  - unfold Stated.xyz_tag. rewrite Hfind.
    change (Z.to_nat 20) with 20%nat. rewrite Hpay.
    destruct wtpt_decoded as (Hx & Hy & Hz).
    change (Stated.slice wtpt_bytes 0 20) with wtpt_bytes in Hx, Hy, Hz.
    now rewrite Hx, Hy, Hz.
  - exists off, 20%Z. auto.
Qed.

Lemma sample_run_succeeds :
  Examples.sample_run = (Ok tt, snd Examples.sample_run).
Proof.
  rewrite PolicyFacts.pdf_convert_cie_space_high
    by (intros H; discriminate H).
  destruct (TotalFacts.total_pdf_convert_cie_to_iccbased 512 Examples.pdf13
              Examples.pca0 Examples.gray_space "GRAY" Examples.d65_white []
              ONE_STEP_NOT None None (or_introl eq_refl) Examples.st0 eq_refl)
    as ([] & st' & E & _).
  now rewrite E.
Qed.


(** Among the numbers of the format, the nearest to [c] is m/65536 when
    65536 c is within one half of m. *)
Lemma nearest_s15Fixed16 (c : R) (m n : Z) :
  (IZR m - / 2 <= c * 65536 <= IZR m + / 2)%R ->
  (Rabs (IZR m / 65536 - c) <= Rabs (IZR n / 65536 - c))%R.
Proof.
  intros H.
  assert (Hn : (n <= m - 1 \/ n = m \/ m + 1 <= n)%Z) by lia.
  destruct Hn as [Hn | [-> | Hn]].
  - apply IZR_le in Hn. rewrite minus_IZR in Hn.
    unfold Rabs. repeat destruct Rcase_abs; lra.
  - apply Rle_refl.
  - apply IZR_le in Hn. rewrite plus_IZR in Hn.
    unfold Rabs. repeat destruct Rcase_abs; lra.
Qed.

(** C2: for every CIE-based colour space synthesized as an ICC profile at
    a compatibility level of 1.3 or more, whatever the white point of the
    source space, the wtpt tag of the emitted profile decodes to
    X = 63189/65536, Y = 1, Z = 54060/65536, and the twelve bytes of the
    illuminant field at offset 68 of the header are the twelve bytes of the
    three encoded values of the tag.  X and Z are D50 cut off to 16
    fractional bits, less than 1/65536 below 0.9642 and 0.8249; they are
    not the numbers of the format nearest to 0.9642 and 0.8249, which are
    63190/65536 and 54061/65536. *)
Theorem wtpt_is_truncated_D50 (gx_cie_cache_size : Z)
    (pdev : gx_device_pdf) (pca : nat) (pcs : gs_color_space)
    (dcsname : string) (pciec : gs_cie_common) (prange : list gs_range)
    (one_step : cie_cache_one_step_t) (pmat : option gs_matrix3)
    (pprange : option (list gs_range)) (st st' : pdf_state) :
  (1.3 <= CompatibilityLevel pdev)%Q ->
  Entry.pdf_convert_cie_space gx_cie_cache_size pdev pca pcs dcsname pciec
    prange one_step pmat pprange st = (Ok tt, st') ->
  let d := stream_data st' (List.length (objects st)) in
  Stated.xyz_tag d "wtpt"
    = Some ((63189 / 65536)%R, 1%R, (54060 / 65536)%R) /\
  (exists off len,
     Stated.find_tag d "wtpt" = Some (off, len) /\
     Stated.illuminant d = Stated.slice d (Z.to_nat off + 8) 12) /\
  (0 < 0.9642 - 63189 / 65536 < 1 / 65536)%R /\
  (0 < 0.8249 - 54060 / 65536 < 1 / 65536)%R /\
  (forall n : Z,
     Rabs (63190 / 65536 - 0.9642) <= Rabs (IZR n / 65536 - 0.9642))%R /\
  (forall n : Z,
     Rabs (54061 / 65536 - 0.8249) <= Rabs (IZR n / 65536 - 0.8249))%R.
Proof.
  intros Hlevel Hrun d.
  rewrite PolicyFacts.pdf_convert_cie_space_high in Hrun
    by now apply Qle_not_lt.
  destruct (synthesized_white_point _ _ _ _ _ _ _ _ _ _ _ _ Hrun)
    as [Hx Hill].
  split; [exact Hx |]. split; [exact Hill |].
  split; [lra |]. split; [lra |]. split.
  - intros n. apply (nearest_s15Fixed16 0.9642 63190 n). lra.
  - intros n. apply (nearest_s15Fixed16 0.8249 54061 n). lra.
Qed.

Lemma wtpt_is_truncated_D50_witness :
  fst Examples.sample_run = Ok tt /\
  Stated.xyz_tag (stream_data (snd Examples.sample_run) 1) "wtpt"
    = Some ((63189 / 65536)%R, 1%R, (54060 / 65536)%R).
Proof.
  split; [now rewrite sample_run_succeeds |].
  apply (wtpt_is_truncated_D50 512 Examples.pdf13 Examples.pca0
           Examples.gray_space "GRAY" Examples.d65_white [] ONE_STEP_NOT None
           None Examples.st0 (snd Examples.sample_run)).
  - unfold Qle. simpl. lia.
  - exact sample_run_succeeds.
Defined.

End WhitePointFacts.

(** ** The lookup table on the stream *)

Module LutStreamFacts.
Import Profile Synthesis Streams StreamFacts ProfileFacts LutFacts.
Local Open Scope cos_scope.

Lemma clut_bytes_length entry entries :
  List.length (clut_bytes entry entries) = (6 * List.length entries)%nat.
Proof.
  induction entries as [| i entries IH]; simpl; [reflexivity |].
  rewrite length_app, take_bytes_length, IH. lia.
Qed.

Lemma appends_a2b0_loop p entry entries :
  appends p (a2b0_loop p entry entries) (clut_bytes entry entries).
Proof.
  induction entries as [| i entries IH]; simpl.
  - apply appends_ret.
  - apply appends_bind; [apply appends_add_bytes | intros _; exact IH].
Qed.

Lemma a2b0_fields ncomps pcs :
  let a := fst (add_a2b0 ncomps pcs) in
  let pnt := snd (add_a2b0 ncomps pcs) in
  write_data pnt = write_data_a2b0 a /\
  nth 8 (header a) 0%Z = to_byte ncomps /\
  nth 10 (header a) 0%Z = to_byte (num_points a) /\
  count a = C.int_of_double (C.pow (IZR (num_points a)) (IZR ncomps)) /\
  length pnt
    = to_uint (52 + ncomps * 2 * NUM_IN_ENTRIES + count a * (3 * 2)
               + 3 * 2 * NUM_OUT_ENTRIES)%Z.
Proof. repeat split. Qed.

Lemma count_1 pcs : count (fst (add_a2b0 1 pcs)) = 255%Z.
Proof.
  destruct (a2b0_fields 1 pcs) as (_ & _ & _ & -> & _).
  rewrite num_points_1.
  replace (IZR 1) with (INR 1) by (simpl; lra).
  now rewrite int_of_double_pow.
Qed.

Lemma count_3 pcs : count (fst (add_a2b0 3 pcs)) = 2197%Z.
Proof.
  destruct (a2b0_fields 3 pcs) as (_ & _ & _ & -> & _).
  rewrite num_points_3.
  replace (IZR 3) with (INR 3) by (simpl; lra).
  now rewrite int_of_double_pow.
Qed.

Lemma count_4 pcs : count (fst (add_a2b0 4 pcs)) = 2401%Z.
Proof.
  destruct (a2b0_fields 4 pcs) as (_ & _ & _ & -> & _).
  rewrite num_points_4.
  replace (IZR 4) with (INR 4) by (simpl; lra).
  now rewrite int_of_double_pow.
Qed.


(** The entries as blocks of six bytes, one for each point. *)
Lemma clut_bytes_blocks entry entries :
  exists blocks : list (list byte),
    clut_bytes entry entries = List.concat blocks /\
    List.length blocks = List.length entries /\
    Forall (fun b => List.length b = 6%nat) blocks.
Proof.
  exists (map (fun i => take_bytes 6 (entry i)) entries).
  split; [apply flat_map_concat_map |].
  split; [apply length_map |].
  apply Forall_forall. intros b Hb. apply in_map_iff in Hb.
  destruct Hb as (i & <- & _). apply take_bytes_length.
Qed.

Lemma write_a2b0_entries pdev p pnt pa2b pciec st d st' :
  write_data pnt = write_data_a2b0 pa2b ->
  stream_at st p d ->
  write_a2b0 pdev p pnt pciec st = (Ok tt, st') ->
  exists (inp : list byte) (blocks : list (list byte)) (out : list byte),
    stream_at st' p (d ++ inp ++ List.concat blocks ++ out) /\
    List.length inp = Z.to_nat (nth 8 (header pa2b) 0%Z * 4) /\
    List.length blocks = Z.to_nat (count pa2b) /\
    Forall (fun b => List.length b = 6%nat) blocks /\
    List.length out = 12%nat.
Proof.
  intros Hw Hs H. unfold write_a2b0 in H. rewrite Hw in H.
  destruct (bind_ok_inv H) as ([] & st1 & H1 & H2). clear H.
  pose proof (appends_add_bytes p _ _ _ _ _ _ Hs H1) as Hs1.
  destruct (bind_ok_inv H2) as (pgs & st2 & H3 & H4). clear H2.
  pose proof (keeps_gx_cie_to_xyz_alloc p _ _ _ _ _ Hs1 H3) as Hs2.
  destruct (bind_ok_inv H4) as ([] & st3 & H5 & H6). clear H4.
  destruct (a2b0_loop p _ _ st2) as [code st2'] eqn:E.
  inversion H5; subst. unfold gx_cie_to_xyz_free in *.
  pose proof (appends_a2b0_loop p _ _ _ _ _ _ Hs2 E) as Hs3.
  pose proof (appends_add_bytes p _ _ _ _ _ _ Hs3 H6) as Hs4.
  destruct (clut_bytes_blocks (a2b0_entry pnt pa2b pgs pciec)
              (map Z.of_nat (seq 0 (Z.to_nat (count pa2b)))))
    as (blocks & Eb & Lb & Fb).
  rewrite Eb in Hs4. rewrite length_map, length_seq in Lb.
  eexists _, blocks, _. split; [| split; [| split; [| split]]].
  - rewrite <- !app_assoc in Hs4. exact Hs4.
  - apply take_bytes_length.
  - exact Lb.
  - exact Fb.
  - apply take_bytes_length.
Qed.

(** C6: for a channel count k of 1, 3 or 4, [add_a2b0] takes
    s = min(floor(2500^(1/k)), 255) sample points on each axis, where
    floor(2500^(1/k)) is the integer r with r^k <= 2500 < (r+1)^k; s is at
    most 255 and s^k at most 2500; s is the byte of the mft2 header for the
    grid points and the table has s^k entries.  [write_a2b0], whenever it
    succeeds, has appended the input table, s^k entries of six bytes each
    and the output table; and it succeeds from every state without a
    pending fault. *)
Theorem lut_sample_count (ncomps : Z) (pcs : gs_color_space) :
  (ncomps = 1 \/ ncomps = 3 \/ ncomps = 4)%Z ->
  let a := fst (Profile.add_a2b0 ncomps pcs) in
  let pnt := snd (Profile.add_a2b0 ncomps pcs) in
  let s := Profile.num_points a in
  let r := C.floor (C.pow (IZR Profile.MAX_CLUT_ENTRIES) (1 / IZR ncomps)) in
  s = Z.min r 255 /\
  (r ^ ncomps <= 2500 < (r + 1) ^ ncomps)%Z /\
  (1 <= s <= 255)%Z /\
  (s ^ ncomps <= 2500)%Z /\
  nth 8 (Profile.header a) 0%Z = ncomps /\
  nth 10 (Profile.header a) 0%Z = s /\
  Profile.count a = (s ^ ncomps)%Z /\
  Profile.length pnt = (52 + 4 * ncomps + 6 * s ^ ncomps + 12)%Z /\
  (forall (pdev : gx_device_pdf) (p : nat) (pciec : gs_cie_common)
          (st : pdf_state) (d : list byte) (st' : pdf_state),
     Streams.stream_at st p d ->
     Profile.write_a2b0 pdev p pnt pciec st = (Ok tt, st') ->
     exists (inp : list byte) (blocks : list (list byte)) (out : list byte),
       Streams.stream_at st' p (d ++ inp ++ List.concat blocks ++ out) /\
       Z.of_nat (List.length inp) = (4 * ncomps)%Z /\
       Z.of_nat (List.length blocks) = (s ^ ncomps)%Z /\
       Forall (fun b => List.length b = 6%nat) blocks /\
       List.length out = 12%nat) /\
  (forall (pdev : gx_device_pdf) (p : nat) (pciec : gs_cie_common)
          (st : pdf_state),
     faults st = [] ->
     fst (Profile.write_a2b0 pdev p pnt pciec st) = Ok tt).
Proof.
  intros Hk a pnt s r.
  assert (Hr : (ncomps = 1 /\ r = 2500 /\ s = 255 /\ count a = 255)%Z \/
               (ncomps = 3 /\ r = 13 /\ s = 13 /\ count a = 2197)%Z \/
               (ncomps = 4 /\ r = 7 /\ s = 7 /\ count a = 2401)%Z).
  { unfold r, s, a. change (IZR MAX_CLUT_ENTRIES) with (IZR 2500).
    destruct Hk as [-> | [-> | ->]]; [left | right; left | right; right].
    - rewrite num_points_1, count_1.
      replace (1 / IZR 1)%R with (1 / INR 1)%R by (simpl; lra).
      rewrite (floor_pow_root 2500 2500 1); [auto | lia | lia | lia].
    - rewrite num_points_3, count_3.
      replace (1 / IZR 3)%R with (1 / INR 3)%R by (simpl; lra).
      rewrite (floor_pow_root 2500 13 3); [auto | lia | lia | simpl; lia].
    - rewrite num_points_4, count_4.
      replace (1 / IZR 4)%R with (1 / INR 4)%R by (simpl; lra).
      rewrite (floor_pow_root 2500 7 4); [auto | lia | lia | simpl; lia]. }
  destruct (a2b0_fields ncomps pcs) as (Hw & H8 & H10 & _ & Hlen).
  fold a in Hw, H8, H10, Hlen. fold pnt in Hw, Hlen. fold s in H10.
  assert (Hvals : (r ^ ncomps <= 2500 < (r + 1) ^ ncomps)%Z /\
                  (1 <= s <= 255)%Z /\ (s ^ ncomps <= 2500)%Z /\
                  to_byte ncomps = ncomps /\ to_byte s = s /\
                  count a = (s ^ ncomps)%Z /\ s = Z.min r 255 /\
                  (0 <= ncomps)%Z).
  { destruct Hr as [(-> & -> & -> & ->) | [(-> & -> & -> & ->) | (-> & -> & -> & ->)]];
      repeat split; try reflexivity; try discriminate. }
  destruct Hvals as (Hroot & Hs & Hpow & Eb8 & Eb10 & Ecount & Emin & Hk0).
  repeat (split; [first [assumption | lia | congruence] |]).
  split; [| split].
  - rewrite Hlen, Ecount. unfold NUM_IN_ENTRIES, NUM_OUT_ENTRIES.
    rewrite (ReaderFacts.to_uint_small); lia.
  - intros pdev p pciec st d st' Hst Hrun.
    destruct (write_a2b0_entries pdev p pnt a pciec st d st' Hw Hst Hrun)
      as (inp & blocks & out & Hs' & Li & Lb & Fb & Lo).
    exists inp, blocks, out. rewrite Li, Lb, H8, Eb8, Ecount.
    repeat split; try assumption; lia.
  - intros pdev p pciec st Hf.
    destruct (TotalFacts.total_write_a2b0 pdev p pnt pciec st Hf)
      as ([] & st' & E & _).
    now rewrite E.
Qed.

Lemma lut_sample_count_witness :
  let pnt := snd (Profile.add_a2b0 4 Examples.gray_space) in
  let run :=
    Profile.write_a2b0 Examples.pdf13 0 pnt Examples.d65_white
      Examples.st_stream in
  fst run = Ok tt /\
  exists (inp : list byte) (blocks : list (list byte)) (out : list byte),
    Streams.stream_at (snd run) 0 ([] ++ inp ++ List.concat blocks ++ out) /\
    Z.of_nat (List.length blocks) = (7 ^ 4)%Z.
Proof.
  intros pnt run.
  destruct (lut_sample_count 4 Examples.gray_space
              (or_intror (or_intror eq_refl)))
    as (Hmin & Hroot & Hs & Hpow & _ & _ & Hcount & _ & Happ & Hok).
  assert (H7 : Profile.num_points (fst (Profile.add_a2b0 4 Examples.gray_space))
               = 7%Z).
  { set (s := Profile.num_points _) in *.
    set (r := C.floor _) in *.
    assert (r = 7)%Z by nia. lia. }
  pose proof (Hok Examples.pdf13 0%nat Examples.d65_white Examples.st_stream
                eq_refl) as Hrun.
  fold pnt in Hrun. fold run in Hrun.
  split; [exact Hrun |].
  assert (Hst : Streams.stream_at Examples.st_stream 0 []).
  { exists [], 0%Z. reflexivity. }
  assert (E : run = (Ok tt, snd run)).
  { destruct run as [c st']. simpl in Hrun. now rewrite Hrun. }
  destruct (Happ Examples.pdf13 0%nat Examples.d65_white Examples.st_stream []
              (snd run) Hst E)
    as (inp & blocks & out & Hs' & _ & Lb & _).
  exists inp, blocks, out. split; [exact Hs' |].
  rewrite Lb, H7. reflexivity.
Defined.

End LutStreamFacts.

(** ** The directory *)

Module DirectoryFacts.
Import Profile Synthesis Streams StreamFacts ProfileFacts ReaderFacts.
Local Open Scope Z_scope.

Lemma pad4_bounds (n : Z) : 0 <= n -> n <= Stated.pad4 n < n + 4.
Proof. intros H. unfold Stated.pad4. Z.div_mod_to_equations. lia. Qed.

Lemma round_up_pad4 (n : Z) :
  0 <= n -> Stated.pad4 n < 4294967296 -> round_up n 4 = Stated.pad4 n.
Proof.
  intros H0 H1. unfold round_up. rewrite to_uint_small.
  - unfold Stated.pad4. do 2 f_equal.
  - pose proof (pad4_bounds n H0) as Hb. unfold Stated.pad4 in *.
    replace (n + (4 - 1)) with (n + 3) by lia. lia.
Qed.

Lemma zsum_pad4_nonneg (lens : list Z) :
  Forall (fun n => 0 <= n) lens -> 0 <= Stated.zsum (map Stated.pad4 lens).
Proof.
  induction 1 as [| n lens Hn _ IH]; simpl; [lia |].
  pose proof (pad4_bounds n Hn). lia.
Qed.

(** Without wrap-around the directory loop keeps the running offset that
    the document describes. *)
Lemma directory_offsets (tables : list profile_table_t) (offset : Z) :
  Forall (fun n => 0 <= n) (lengths tables) ->
  0 <= offset ->
  offset + Stated.zsum (map Stated.pad4 (lengths tables)) < 4294967296 ->
  snd (directory tables offset)
    = offset + Stated.zsum (map Stated.pad4 (lengths tables)) /\
  forall (i : nat) (t : profile_table_t),
    nth_error tables i = Some t ->
    Stated.slice (fst (directory tables offset)) (12 * i) 12
      = entry t (offset
                 + Stated.zsum (map Stated.pad4 (firstn i (lengths tables)))).
Proof.
  revert offset. induction tables as [| t0 tables IH]; intros offset Hpos H0 Hfit.
  - simpl. split; [lia |]. intros [| i] t H; discriminate.
  - simpl lengths in *. simpl map in Hfit. simpl Stated.zsum in Hfit.
    inversion Hpos as [| n l Hn Hrest]; subst.
    pose proof (pad4_bounds _ Hn) as Hb.
    pose proof (zsum_pad4_nonneg _ Hrest) as Hs.
    assert (E : to_uint (offset + round_up (length t0) 4)
                = offset + Stated.pad4 (length t0)).
    { rewrite round_up_pad4 by lia. apply to_uint_small. lia. }
    rewrite directory_cons, E. cbn [fst snd].
    destruct (IH (offset + Stated.pad4 (length t0)) Hrest) as [IHs IHe];
      [lia | fold (lengths tables); lia |].
    split.
    + rewrite IHs. fold (lengths tables). simpl. lia.
    + intros [| i] t Ht.
      * inversion Ht; subst. simpl firstn. simpl Stated.zsum.
        rewrite Z.add_0_r. apply slice_take, entry_length.
      * simpl in Ht.
        replace (12 * S i)%nat with (12 + 12 * i)%nat by lia.
        rewrite (slice_skip _ _ 12 _ 12 (entry_length _ _)).
        rewrite (IHe i t Ht). f_equal. simpl. fold (lengths tables). lia.
Qed.

Lemma entry_fields (t : profile_table_t) (offset : Z) :
  0 <= offset < 4294967296 -> 0 <= length t < 4294967296 ->
  Stated.slice (entry t offset) 0 4 = take_bytes 4 (bytes_of_string (tag t)) /\
  get_uint32 (Stated.slice (entry t offset) 4 4) = offset /\
  get_uint32 (Stated.slice (entry t offset) 8 4) = length t.
Proof.
  intros Ho Hl. unfold entry. repeat split.
  - apply slice_take, take_bytes_length.
  - change 4%nat with (4 + 0)%nat at 1.
    rewrite (slice_skip _ _ 4 0 4 (take_bytes_length _ _)).
    change (Stated.slice (set_uint32 offset ++ set_uint32 (length t)) 0 4)
      with (set_uint32 offset).
    now apply get_set_uint32.
  - change 8%nat with (4 + (4 + 0))%nat.
    rewrite (slice_skip _ _ 4 (4 + 0) 4 (take_bytes_length _ _)).
    change (Stated.slice (set_uint32 offset ++ set_uint32 (length t)) (4 + 0) 4)
      with (set_uint32 (length t)).
    now apply get_set_uint32.
Qed.

Lemma size_field (dcsname : string) (wtpt : list byte) (size : Z) :
  0 <= size < 4294967296 ->
  get_uint32 (Stated.slice (profile_header dcsname wtpt size) 0 4) = size.
Proof.
  intros H. unfold profile_header.
  set (h := memcpy _ 68 _ 12).
  change (Stated.slice (memcpy h 0 (set_uint32 size) 4) 0 4)
    with (set_uint32 size).
  now apply get_set_uint32.
Qed.

Lemma zsum_app (a b : list Z) :
  Stated.zsum (a ++ b) = Stated.zsum a + Stated.zsum b.
Proof. induction a as [| x a IH]; simpl; lia. Qed.

Lemma zsum_firstn_le (lens : list Z) (i : nat) :
  Forall (fun n => 0 <= n) lens ->
  0 <= Stated.zsum (map Stated.pad4 (firstn i lens))
    <= Stated.zsum (map Stated.pad4 lens).
Proof.
  intros H. rewrite <- (firstn_skipn i lens) at 3.
  rewrite map_app, zsum_app.
  rewrite <- (firstn_skipn i lens) in H. apply Forall_app in H.
  destruct H as [H1 H2].
  pose proof (zsum_pad4_nonneg _ H1). pose proof (zsum_pad4_nonneg _ H2). lia.
Qed.


(** The tables that the builder itself makes have lengths that are [uint]s
    and a total size that fits a [uint]: with a curve of at most 2^20
    samples on the tone-curve path, and with 1, 3 or 4 channels on the
    lookup-table path. *)
Lemma builder_tables_fit (gx_cie_cache_size : Z) (pdev : gx_device_pdf)
    (pcs : gs_color_space) (pciec : gs_cie_common)
    (one_step : cie_cache_one_step_t) (pmat : option gs_matrix3)
    (pprange : option (list gs_range)) :
  0 <= gx_cie_cache_size <= 2 ^ 20 ->
  (let k := gs_color_space_num_components pcs in k = 1 \/ k = 3 \/ k = 4) ->
  let lens :=
    lengths (profile_tables gx_cie_cache_size pdev pcs pciec one_step pmat
               pprange white_d50) in
  Forall (fun l => 0 <= l < 4294967296) lens /\
  Stated.profile_size lens < 4294967296.
Proof.
  intros Hc Hk lens.
  set (L := to_uint (12 + gx_cie_cache_size * 2)).
  assert (HL : L = 12 + gx_cie_cache_size * 2).
  { unfold L. apply to_uint_small. change (2 ^ 20) with 1048576 in Hc. lia. }
  assert (Etrc : forall m : gs_matrix3,
            (one_step = ONE_STEP_ABC \/ one_step = ONE_STEP_LMN) ->
            pmat = Some m -> lens = [96; 20; 13; L; L; L; 20; 20; 20]).
  { intros m Ho ->. unfold lens, lengths, profile_tables.
    destruct Ho as [-> | ->]; destruct pprange; reflexivity. }
  assert (Elut : (one_step = ONE_STEP_NOT \/ pmat = None) ->
            exists A, lens = [96; 20; 13; A] /\ 0 <= A < 20000).
  { intros Ho.
    set (k := gs_color_space_num_components pcs) in *.
    assert (HA : 0 <= length (snd (add_a2b0 k pcs)) < 20000).
    { pose proof (LutStreamFacts.count_1 pcs) as C1.
      pose proof (LutStreamFacts.count_3 pcs) as C3.
      pose proof (LutStreamFacts.count_4 pcs) as C4.
      destruct (LutStreamFacts.a2b0_fields k pcs) as (_ & _ & _ & _ & ->).
      unfold NUM_IN_ENTRIES, NUM_OUT_ENTRIES.
      destruct Hk as [-> | [-> | ->]];
        [rewrite C1 | rewrite C3 | rewrite C4]; vm_compute; split; congruence. }
    exists (length (snd (add_a2b0 k pcs))). split; [| exact HA].
    unfold lens, lengths, profile_tables. fold k.
    destruct (add_a2b0 k pcs) as [a pnt]. cbn [snd].
    destruct Ho as [-> | ->]; [| destruct one_step]; reflexivity. }
  assert (Hcases : (exists m, (one_step = ONE_STEP_ABC \/ one_step = ONE_STEP_LMN)
                              /\ pmat = Some m)
                   \/ (one_step = ONE_STEP_NOT \/ pmat = None)).
  { destruct pmat as [m |]; [| auto]. destruct one_step; eauto 6. }
  change (2 ^ 20) with 1048576 in Hc.
  destruct Hcases as [(m & Ho & Hm) | Ho].
  - rewrite (Etrc m Ho Hm). unfold Stated.profile_size.
    cbn [List.length map Stated.zsum fold_right].
    pose proof (pad4_bounds L ltac:(lia)) as Hp.
    change (Stated.pad4 96) with 96. change (Stated.pad4 20) with 20.
    change (Stated.pad4 13) with 16.
    split; [repeat constructor; lia | lia].
  - destruct (Elut Ho) as (A & -> & HA). unfold Stated.profile_size.
    cbn [List.length map Stated.zsum fold_right].
    pose proof (pad4_bounds A ltac:(lia)) as Hp.
    change (Stated.pad4 96) with 96. change (Stated.pad4 20) with 20.
    change (Stated.pad4 13) with 16.
    split; [repeat constructor; lia | lia].
Qed.

End DirectoryFacts.

(** ** The concretizer *)

Module ConcretizeFacts.
Import Profile Synthesis.
Local Open Scope R_scope.







End ConcretizeFacts.

(** ** The pass-through embedder *)

Module EmbedFacts.
Import Profile Synthesis Entry Streams StreamFacts ProfileFacts TotalFacts.
Local Open Scope cos_scope.

(** The test of the code against the ceilings of the document. *)
Lemma version_gate (level : Q) (major minor : Z) (ok : bool) :
  Stated.within_ceiling level major minor = Some ok ->
  Qlt_bool level 1.3 = false /\
  (if Qlt_bool level 1.5 then (if major >? 2 then true else false)
   else if Qeq_bool level 1.5 then
     (if (major >? 4) || (minor >? 0) then true else false)
   else if Qeq_bool level 1.6 then
     (if (major >? 4) || (minor >? 1) then true else false)
   else
     (if (major >? 4) || (minor >? 2) then true else false))%Z
  = negb ok.
Proof.
  unfold Stated.within_ceiling, Qlt_bool.
  assert (G : forall a b : Z, (if (a >? b)%Z then true else false)
                              = negb (a <=? b)%Z).
  { intros a b. destruct (a >? b)%Z eqn:E1, (a <=? b)%Z eqn:E2; try reflexivity; lia. }
  assert (G2 : forall a b c d : Z,
             (if (a >? b)%Z || (c >? d)%Z then true else false)
             = negb ((a <=? b)%Z && (c <=? d)%Z)).
  { intros a b c d.
    destruct (a >? b)%Z eqn:E1, (a <=? b)%Z eqn:E2, (c >? d)%Z eqn:E3,
      (c <=? d)%Z eqn:E4; try reflexivity; lia. }
  rewrite G, !G2.
  destruct (Qle_bool 1.3 level) eqn:E13, (Qle_bool 1.5 level) eqn:E15;
    cbn [andb negb].
  - (* 1.5 <= level *)
    destruct (Qeq_bool level 1.5) eqn:Q15.
    + intros H; inversion H; subst. auto.
    + destruct (Qeq_bool level 1.6) eqn:Q16.
      * intros H; inversion H; subst. auto.
      * destruct (Qle_bool 1.7 level); intros H; inversion H; subst. auto.
  - intros H; inversion H; subst. auto.
  - exfalso. levels. lia.
  - destruct (Qeq_bool level 1.5) eqn:Q15; [exfalso; levels; lia |].
    destruct (Qeq_bool level 1.6) eqn:Q16; [exfalso; levels; lia |].
    destruct (Qle_bool 1.7 level) eqn:Q17; [exfalso; levels; lia |].
    discriminate.
Qed.

Lemma stream_at_lt st p d : stream_at st p d -> (p < List.length (objects st))%nat.
Proof.
  intros (dict & id & H). apply nth_error_Some. congruence.
Qed.

(** The end of [pdf_iccbased_color_space], once the bytes are added: the
    stream is entered in the resource chain and finished.  Nothing is asked
    of the colour management and the data of the stream stay. *)
Lemma transfer_tail pdev p (code : result unit) st d :
  stream_at st p d ->
  let run :=
    let '(code1, st1) :=
      pdf_alloc_resource resourceOther (stream_id st p) st in
    let st2 :=
      match code1 with
      | Ok pres =>
          set_resource_object pres p (COS_FREE (resource_object st1 pres) st1)
      | Error _ => st1
      end in
    match code with
    | Ok _ => pdf_finish_iccbased pdev p st2
    | Error e => (Error e, st2)
    end in
  cms_requests (snd run) = cms_requests st /\
  stream_at (snd run) p d /\
  (faults st = [] -> code = Ok tt -> fst run = Ok tt).
Proof.
  intros Hs. pose proof (stream_at_lt _ _ _ Hs) as Hlt.
  unfold pdf_alloc_resource.
  destruct (next_fault st) as [[e |] st1] eqn:En.
  - (* the resource is not allocated *)
    pose proof (stream_at_next_fault En Hs) as Hs1.
    assert (C1 : cms_requests st1 = cms_requests st).
    { unfold next_fault in En. destruct (faults st); inversion En; reflexivity. }
    assert (F : faults st = [] -> False).
    { intros F. rewrite (next_fault_none st F) in En. discriminate. }
    destruct code as [[] | e'].
    + destruct (pdf_finish_iccbased pdev p st1) as [r st3] eqn:Ef.
      cbn [fst snd]. split; [| split].
      * pose proof Ef as Ef'. unfold pdf_finish_iccbased, bind, pdf_obj_ref,
          cos_write_object, fallible in Ef'. simpl in Ef'.
        destruct (next_fault _) as [[e2 |] st4] eqn:En2 in Ef';
          inversion Ef'; subst; unfold next_fault in En2; simpl in En2;
          destruct (faults st1); inversion En2; subst; simpl; exact C1.
      * eapply keeps_pdf_finish_iccbased; eassumption.
      * intros F'. contradiction (F F').
    + cbn [fst snd]. split; [exact C1 | split; [exact Hs1 |]].
      intros F'. contradiction (F F').
  - pose proof (stream_at_next_fault En Hs) as Hs1.
    pose proof (next_fault_objects En) as O1.
    assert (C1 : cms_requests st1 = cms_requests st).
    { unfold next_fault in En. destruct (faults st); inversion En; reflexivity. }
    assert (F1 : faults st = [] -> faults st1 = []).
    { intros F. rewrite (next_fault_none st F) in En. inversion En; subst.
      exact F. }
    set (st1' := {| objects := objects st1 ++ [cos_dict []];
                    next_id := next_id st1; written := written st1;
                    resources := resources st1 ++ _;
                    cms_requests := cms_requests st1;
                    faults := faults st1 |}).
    assert (R : resource_object st1' (List.length (resources st1))
                = List.length (objects st1)).
    { unfold resource_object, st1'. cbn [resources].
      rewrite nth_error_app2, Nat.sub_diag by lia. reflexivity. }
    rewrite R.
    set (st2 := set_resource_object _ p (COS_FREE _ st1')).
    assert (Hs2 : stream_at st2 p d).
    { destruct Hs1 as (dict & id & Hp). exists dict, id.
      unfold st2, set_resource_object, COS_FREE, modify.
      cbn [objects with_objects].
      rewrite nth_error_update.
      assert (Hne : Nat.eqb (List.length (objects st1)) p = false).
      { apply Nat.eqb_neq. rewrite O1. lia. }
      rewrite Hne. unfold st1'. cbn [objects].
      rewrite nth_error_app1 by (rewrite O1; lia). exact Hp. }
    assert (C2 : cms_requests st2 = cms_requests st) by exact C1.
    assert (F2 : faults st = [] -> faults st2 = []) by exact F1.
    clearbody st2. clear R. clear st1'.
    destruct code as [[] | e'].
    + destruct (pdf_finish_iccbased pdev p st2) as [r st3] eqn:Ef.
      cbn [fst snd]. split; [| split].
      * pose proof Ef as Ef'. unfold pdf_finish_iccbased, bind, pdf_obj_ref,
          cos_write_object, fallible in Ef'. simpl in Ef'.
        destruct (next_fault _) as [[e2 |] st4] eqn:En2 in Ef';
          inversion Ef'; subst; unfold next_fault in En2; simpl in En2;
          destruct (faults st2); inversion En2; subst; simpl; exact C2.
      * eapply keeps_pdf_finish_iccbased; eassumption.
      * intros F _. destruct (total_pdf_finish_iccbased pdev p st2 (F2 F))
          as ([] & st5 & E5 & _). rewrite E5 in Ef. now inversion Ef.
    + cbn [fst snd]. split; [exact C2 | split; [exact Hs2 |]].
      intros _ Habs. discriminate.
Qed.

Lemma cms_add_bytes p data size st r st' :
  cos_stream_add_bytes p data size st = (r, st') ->
  cms_requests st' = cms_requests st.
Proof.
  intros H. unfold cos_stream_add_bytes in H.
  destruct (fallible_inv H) as (flt & st1 & Hn & Hr).
  assert (C1 : cms_requests st1 = cms_requests st).
  { unfold next_fault in Hn. destruct (faults st); inversion Hn; reflexivity. }
  destruct flt; destruct Hr as [_ ->]; exact C1.
Qed.

(** The original bytes are streamed: nothing is asked of the colour
    management, and in a run without faults the bytes of the profile are
    what is added to the stream. *)
Lemma transfer_original pdev pgs pcs p st d :
  stream_at st p d ->
  let profile := cmm_icc_profile_data pcs in
  let run := transfer_profile pdev pgs pcs p false st in
  cms_requests (snd run) = cms_requests st /\
  (faults st = [] ->
   fst run = Ok tt /\
   stream_at (snd run) p
     (d ++ take_bytes (Z.to_nat (buffer_size profile)) (buffer profile))).
Proof.
  intros Hs profile run. unfold run, transfer_profile. fold profile.
  destruct (cos_stream_add_bytes p (buffer profile) (buffer_size profile) st)
    as [code st1] eqn:E.
  pose proof (cms_add_bytes _ _ _ _ _ _ E) as C1.
  destruct (extends_add_bytes p p _ _ _ _ _ _ Hs E) as (sfx & Hs1).
  destruct (transfer_tail pdev p code st1 _ Hs1) as (C2 & _ & _).
  split; [rewrite <- C1; exact C2 |].
  intros F.
  destruct (total_cos_stream_add_bytes p (buffer profile) (buffer_size profile)
              st F) as ([] & st1' & E' & F1).
  rewrite E in E'. inversion E'; subst.
  pose proof (appends_add_bytes p _ _ _ _ _ _ Hs E) as Hs2.
  destruct (transfer_tail pdev p (Ok tt) st1' _ Hs2) as (_ & Hs3 & Hok).
  split; [now apply Hok | exact Hs3].
Qed.

(** A downgraded buffer is asked for and streamed. *)
Lemma transfer_downgraded pdev g pcs p st d :
  stream_at st p d ->
  let profile := cmm_icc_profile_data pcs in
  let run := transfer_profile pdev (Some g) pcs p true st in
  cms_requests (snd run) = cms_requests st ++ [profile] /\
  (faults st = [] ->
   fst run = Ok tt /\ stream_at (snd run) p (d ++ v2_buffer profile)).
Proof.
  intros Hs profile run. unfold run, transfer_profile. fold profile.
  set (st0 := {| objects := objects st; next_id := next_id st;
                 written := written st; resources := resources st;
                 cms_requests := cms_requests st ++ [profile];
                 faults := faults st |}).
  assert (E0 : ((if profile_handle profile then ret tt
                 else gsicc_initialize_default_profile profile);;;
                v2 <- gsicc_create_getv2buffer g profile;;
                cos_stream_add_bytes p (fst v2) (snd v2)) st
               = cos_stream_add_bytes p (v2_buffer profile)
                   (Z.of_nat (List.length (v2_buffer profile))) st0).
  { unfold bind. destruct (profile_handle profile); reflexivity. }
  rewrite E0. clear E0.
  assert (Hs0 : stream_at st0 p d) by exact Hs.
  destruct (cos_stream_add_bytes p _ _ st0) as [code st1] eqn:E.
  pose proof (cms_add_bytes _ _ _ _ _ _ E) as C1.
  destruct (extends_add_bytes p p _ _ _ _ _ _ Hs0 E) as (sfx & Hs1).
  destruct (transfer_tail pdev p code st1 _ Hs1) as (C2 & _ & _).
  split; [change (cms_requests st ++ [profile]) with (cms_requests st0);
          rewrite <- C1; exact C2 |].
  intros F.
  destruct (total_cos_stream_add_bytes p (v2_buffer profile)
              (Z.of_nat (List.length (v2_buffer profile))) st0 F)
    as ([] & st1' & E' & F1).
  rewrite E in E'. inversion E'; subst.
  pose proof (appends_add_bytes p _ _ _ _ _ _ Hs0 E) as Hs2.
  rewrite Nat2Z.id, take_bytes_exact in Hs2 by reflexivity.
  destruct (transfer_tail pdev p (Ok tt) st1' _ Hs2) as (_ & Hs3 & Hok).
  split; [now apply Hok | exact Hs3].
Qed.


(** C8: the embedder goes on to create and stream the profile only for a
    declared native colour space of the allow-list {XYZ, Lab, RGB, Gray,
    CMYK}; for every other one (undefined, N-channel, named) it returns a
    range-check error and leaves the state as it was: nothing is embedded. *)
Theorem native_space_allow_list (pdev : gx_device_pdf)
    (pgs : option gs_gstate) (pcs : gs_color_space) (pca : nat)
    (st : pdf_state) :
  let cs := data_cs (cmm_icc_profile_data pcs) in
  let run := Entry.pdf_iccbased_color_space pdev pgs pcs pca st in
  (In cs Stated.allow_list \/
   cs = gsUNDEFINED \/ cs = gsNCHANNEL \/ cs = gsNAMED) /\
  (~ In cs Stated.allow_list -> run = (Error gs_error_rangecheck, st)) /\
  (fst run = Ok tt \/ snd run <> st -> In cs Stated.allow_list).
Proof.
  intros cs run. unfold run, Entry.pdf_iccbased_color_space.
  fold cs. unfold Stated.allow_list.
  destruct cs; simpl; repeat split; auto 10;
    try (intros H; exfalso; apply H; auto 10);
    try (intros [H | H]; [discriminate | exfalso; apply H; reflexivity]).
Qed.

Lemma native_space_allow_list_witness :
  Entry.pdf_iccbased_color_space Examples.pdf17 (Some Examples.some_gstate)
    Examples.named_space Examples.pca0 Examples.st0
  = (Error gs_error_rangecheck, Examples.st0).
Proof.
  apply (native_space_allow_list Examples.pdf17 (Some Examples.some_gstate)
           Examples.named_space Examples.pca0 Examples.st0).
  simpl. intros H. decompose [or] H; discriminate || assumption.
Defined.

(** C3 (as stated, refuted): at level 1.5 a profile declaring version 4.2
    exceeds the ceiling, and yet, when no graphics state is supplied, no
    downgraded buffer is requested and nothing is streamed: the embedder
    returns an undefined error. *)
Lemma no_downgrade_without_graphics_state :
  Stated.within_ceiling (CompatibilityLevel Examples.pdf15) 4 2 = Some false /\
  let run :=
    Entry.pdf_iccbased_color_space Examples.pdf15 None Examples.icc_space42
      Examples.pca0 Examples.st0 in
  fst run = Error gs_error_undefined /\
  cms_requests (snd run) = [] /\
  stream_data (snd run) 1 = [].
Proof. vm_compute. auto. Qed.

(** C3 (amended): for a pass-through profile of an allowed native colour
    space whose stream object has been created, with the declared version
    (major, minor): below level 1.3 the embedder returns a range-check
    error; where the level has a ceiling (major <= 2 in [1.3, 1.5);
    major <= 4 and minor <= 0 at 1.5; major <= 4 and minor <= 1 at 1.6;
    major <= 4 and minor <= 2 from 1.7 on) a version within it has the
    original bytes streamed and nothing requested from the colour
    management; a version above it has, when a graphics state is supplied,
    a downgraded buffer requested and streamed instead, and, when none is
    supplied, an undefined error returned and nothing streamed.  Version
    4.2 is within the ceiling from level 1.7 on and above it at 1.5. *)
Theorem version_gating (pdev : gx_device_pdf) (pgs : option gs_gstate)
    (pcs : gs_color_space) (pca : nat) (st : pdf_state) (p : nat)
    (st1 : pdf_state) :
  let profile := cmm_icc_profile_data pcs in
  let major := to_byte (vers_major profile) in
  let minor := Z.shiftr (to_byte (vers_minor profile)) 4 in
  let level := CompatibilityLevel pdev in
  let run := Entry.pdf_iccbased_color_space pdev pgs pcs pca st in
  In (data_cs profile) Stated.allow_list ->
  pdf_make_iccbased pdev pgs pca (num_comps profile) (Range profile)
    (base_space pcs) None st = (Ok p, st1) ->
  ((level < 1.3)%Q -> run = (Error gs_error_rangecheck, st1)) /\
  (Stated.within_ceiling level major minor = Some true ->
   cms_requests (snd run) = cms_requests st1 /\
   (faults st1 = [] ->
    fst run = Ok tt /\
    stream_data (snd run) p
      = take_bytes (Z.to_nat (buffer_size profile)) (buffer profile))) /\
  (Stated.within_ceiling level major minor = Some false ->
   match pgs with
   | Some _ =>
       cms_requests (snd run) = cms_requests st1 ++ [profile] /\
       (faults st1 = [] ->
        fst run = Ok tt /\ stream_data (snd run) p = v2_buffer profile)
   | None => run = (Error gs_error_undefined, st1)
   end) /\
  ((1.7 <= level)%Q -> Stated.within_ceiling level 4 2 = Some true) /\
  Stated.within_ceiling 1.5 4 2 = Some false.
Proof.
  intros profile major minor level run Hcs Hmk.
  destruct (pdf_make_iccbased_ok Hmk) as [_ Hs].
  assert (Erun : run =
            (if Qlt_bool level 1.3 then return_error gs_error_rangecheck st1
             else
               transfer_profile pdev pgs pcs p
                 (if Qlt_bool level 1.5 then (if (major >? 2)%Z then true else false)
                  else if Qeq_bool level 1.5 then
                    (if (major >? 4)%Z || (minor >? 0)%Z then true else false)
                  else if Qeq_bool level 1.6 then
                    (if (major >? 4)%Z || (minor >? 1)%Z then true else false)
                  else
                    (if (major >? 4)%Z || (minor >? 2)%Z then true else false))
                 st1)).
  { unfold run, pdf_iccbased_color_space. cbv zeta. fold profile.
    unfold Stated.allow_list in Hcs.
    destruct (data_cs profile) eqn:Ecs;
      try (exfalso; simpl in Hcs; decompose [or] Hcs; congruence);
      unfold bind; cbv beta; rewrite Hmk; unfold gsicc_getprofilevers;
      cbv iota beta; fold profile; fold major; fold minor; fold level;
      destruct (Qlt_bool level 1.3); reflexivity. }
  split; [| split; [| split; [| split]]].
  - intros Hl. apply PolicyFacts.Qlt_bool_true in Hl.
    rewrite Erun, Hl. reflexivity.
  - intros Hc. destruct (version_gate _ _ _ _ Hc) as [E13 Eg].
    rewrite Erun, E13, Eg. cbn [negb].
    destruct (transfer_original pdev pgs pcs p st1 [] Hs) as [C S].
    fold profile in S. split; [exact C |].
    intros F. destruct (S F) as [Hok Hst]. split; [exact Hok |].
    exact (stream_at_data Hst).
  - intros Hc. destruct (version_gate _ _ _ _ Hc) as [E13 Eg].
    rewrite Erun, E13, Eg. cbn [negb].
    destruct pgs as [g |]; [| reflexivity].
    destruct (transfer_downgraded pdev g pcs p st1 [] Hs) as [C S].
    fold profile in C, S. split; [exact C |].
    intros F. destruct (S F) as [Hok Hst]. split; [exact Hok |].
    exact (stream_at_data Hst).
  - intros Hl. unfold Stated.within_ceiling.
    assert (E13 : Qle_bool 1.3 level = true).
    { apply Qle_bool_iff. apply Qle_trans with 1.7%Q; [| exact Hl].
      unfold Qle; simpl; lia. }
    assert (E15 : Qle_bool 1.5 level = true).
    { apply Qle_bool_iff. apply Qle_trans with 1.7%Q; [| exact Hl].
      unfold Qle; simpl; lia. }
    assert (Q15 : Qeq_bool level 1.5 = false).
    { destruct (Qeq_bool level 1.5) eqn:E; [| reflexivity].
      apply Qeq_bool_iff in E. rewrite E in Hl. exfalso.
      revert Hl. unfold Qle; simpl; lia. }
    assert (Q16 : Qeq_bool level 1.6 = false).
    { destruct (Qeq_bool level 1.6) eqn:E; [| reflexivity].
      apply Qeq_bool_iff in E. rewrite E in Hl. exfalso.
      revert Hl. unfold Qle; simpl; lia. }
    apply Qle_bool_iff in Hl. rewrite E13, E15, Q15, Q16, Hl. reflexivity.
  - reflexivity.
Qed.

Lemma version_gating_witness :
  stream_data
    (snd (Entry.pdf_iccbased_color_space Examples.pdf17
            (Some Examples.some_gstate) Examples.icc_space42 Examples.pca0
            Examples.st0)) 1
  = [1; 2; 3; 4]%Z.
Proof.
  apply (version_gating Examples.pdf17 (Some Examples.some_gstate)
           Examples.icc_space42 Examples.pca0 Examples.st0 1
           (snd (pdf_make_iccbased Examples.pdf17 (Some Examples.some_gstate)
                   Examples.pca0 3 [] None None Examples.st0)));
    reflexivity || (simpl; auto).
Defined.

End EmbedFacts.

(** * Further properties of the code *)

Module EncodingFacts.
Import Profile Readers.

Lemma byte_range (x : Z) : (0 <= to_byte x < 256)%Z.
Proof. unfold to_byte. apply Z.mod_pos_bound. lia. Qed.

Lemma get_set_uint32_wraps (x : Z) : get_uint32 (set_uint32 x) = to_uint x.
Proof.
  unfold get_uint32, set_uint32, to_byte, to_uint.
  rewrite !Z.shiftr_div_pow2 by lia.
  change (2 ^ 24)%Z with 16777216%Z. change (2 ^ 16)%Z with 65536%Z.
  change (2 ^ 8)%Z with 256%Z. change (2 ^ 32)%Z with 4294967296%Z.
  Z.div_mod_to_equations. lia.
Qed.

Lemma set_uint32_wraps (x : Z) : set_uint32 (to_uint x) = set_uint32 x.
Proof.
  unfold set_uint32, to_byte, to_uint.
  rewrite !Z.shiftr_div_pow2 by lia.
  change (2 ^ 24)%Z with 16777216%Z. change (2 ^ 16)%Z with 65536%Z.
  change (2 ^ 8)%Z with 256%Z. change (2 ^ 32)%Z with 4294967296%Z.
  f_equal; [| f_equal; [| f_equal; [| f_equal]]];
    Z.div_mod_to_equations; lia.
Qed.

(** X1: [set_uint32] stores a value as four bytes, the most significant
    first: each is a byte, reading them back big-endian gives the value
    modulo 2^32, and two values have the same bytes only if they agree
    modulo 2^32. *)
Theorem set_uint32_big_endian (value : Z) :
  List.length (set_uint32 value) = 4%nat /\
  Forall (fun b => 0 <= b < 256)%Z (set_uint32 value) /\
  get_uint32 (set_uint32 value) = to_uint value /\
  set_uint32 (to_uint value) = set_uint32 value /\
  (forall value' : Z,
     set_uint32 value = set_uint32 value' -> to_uint value = to_uint value').
Proof.
  split; [reflexivity |]. split.
  { unfold set_uint32. repeat constructor; apply byte_range. }
  split; [apply get_set_uint32_wraps |]. split; [apply set_uint32_wraps |].
  intros value' H. rewrite <- !get_set_uint32_wraps. now rewrite H.
Qed.


Local Open Scope R_scope.

(** [(int)x] truncates towards zero. *)
Lemma int_of_double_trunc (x : R) :
  (0 <= x ->
   IZR (C.int_of_double x) <= x < IZR (C.int_of_double x) + 1 /\
   (0 <= C.int_of_double x)%Z) /\
  (x < 0 ->
   IZR (C.int_of_double x) - 1 < x <= IZR (C.int_of_double x) /\
   (C.int_of_double x <= 0)%Z).
Proof.
  unfold C.int_of_double. split; intros Hx.
  - destruct (Rle_dec 0 x) as [_ | N]; [| contradiction].
    destruct (base_Int_part x) as [A B]. split; [lra |].
    assert (H : -1 < IZR (Int_part x)) by lra.
    apply (lt_IZR (-1)) in H. lia.
  - destruct (Rle_dec 0 x) as [P | _]; [lra |].
    destruct (base_Int_part (- x)) as [A B].
    rewrite opp_IZR. split; [lra |].
    assert (H : -1 < IZR (Int_part (- x))) by lra.
    apply (lt_IZR (-1)) in H. lia.
Qed.

Lemma int_of_double_Z (k : Z) : C.int_of_double (IZR k) = k.
Proof.
  unfold C.int_of_double. destruct (Rle_dec 0 (IZR k)).
  - apply LutFacts.floor_IZR.
  - rewrite <- opp_IZR. change (Int_part (IZR (- k))) with (C.floor (IZR (- k))).
    rewrite LutFacts.floor_IZR. lia.
Qed.

Lemma int_of_double_mono (x y : R) :
  x <= y -> (C.int_of_double x <= C.int_of_double y)%Z.
Proof.
  intros H.
  destruct (int_of_double_trunc x) as [Px Nx].
  destruct (int_of_double_trunc y) as [Py Ny].
  destruct (Rle_dec 0 x) as [Hx | Hx]; destruct (Rle_dec 0 y) as [Hy | Hy].
  - destruct (Px Hx) as [[A B] _]. destruct (Py Hy) as [[C D] _].
    apply Z.lt_succ_r. apply lt_IZR. rewrite succ_IZR. lra.
  - lra.
  - assert (Hx' : x < 0) by lra.
    destruct (Nx Hx') as [_ A]. destruct (Py Hy) as [_ B]. lia.
  - assert (Hx' : x < 0) by lra. assert (Hy' : y < 0) by lra.
    destruct (Nx Hx') as [[A B] _]. destruct (Ny Hy') as [[C D] _].
    apply Z.lt_succ_r. apply lt_IZR. rewrite succ_IZR. lra.
Qed.

Lemma to_int_to_uint (n : Z) :
  (- 2147483648 <= n < 2147483648)%Z -> to_int (to_uint n) = n.
Proof.
  intros H. unfold to_int, to_uint.
  change (2 ^ 32)%Z with 4294967296%Z. change (2 ^ 31)%Z with 2147483648%Z.
  Z.div_mod_to_equations. lia.
Qed.

(** What a reader decodes from the four bytes of [set_XYZ]. *)
Lemma s15Fixed16_set_XYZ (value : R) :
  -32768 < value < 32768 ->
  Stated.s15Fixed16 (set_XYZ value)
  = IZR (C.int_of_double (value * 65536)) / 65536.
Proof.
  intros H. unfold Stated.s15Fixed16, set_XYZ.
  rewrite get_set_uint32_wraps.
  assert (E : to_uint (to_uint (C.int_of_double (value * 65536)))
              = to_uint (C.int_of_double (value * 65536))).
  { unfold to_uint. apply Z.mod_mod. discriminate. }
  rewrite E, to_int_to_uint; [reflexivity |].
  destruct (int_of_double_trunc (value * 65536)) as [P N].
  destruct (Rle_dec 0 (value * 65536)) as [Hx | Hx].
  - destruct (P Hx) as [[A B] C]. split; [lia |].
    apply lt_IZR. lra.
  - assert (Hx' : value * 65536 < 0) by lra.
    destruct (N Hx') as [[A B] C]. split; [| lia].
    apply Z.lt_le_incl. apply lt_IZR. lra.
Qed.

(** X2: for a value in (-32768, 32768), [set_XYZ] stores four bytes that a
    reader decodes, as a signed count of 65536ths, to the value truncated
    towards zero to 16 fractional bits: less than 1/65536 away from the
    value, never beyond it, and equal to it when the value is a multiple of
    1/65536. *)
Theorem set_XYZ_truncates (value : R) :
  -32768 < value < 32768 ->
  let d := Stated.s15Fixed16 (set_XYZ value) in
  List.length (set_XYZ value) = 4%nat /\
  (0 <= value -> value - / 65536 < d <= value) /\
  (value <= 0 -> value <= d < value + / 65536) /\
  (forall k : Z, value = IZR k / 65536 -> d = value).
Proof.
  intros H d. split; [reflexivity |].
  unfold d. rewrite (s15Fixed16_set_XYZ value H).
  destruct (int_of_double_trunc (value * 65536)) as [P N].
  split; [| split].
  - intros Hv. destruct P as [[A B] _]; lra.
  - intros Hv. destruct (Rle_dec 0 (value * 65536)) as [Hx | Hx].
    + destruct (P Hx) as [[A B] C]. apply IZR_le in C. lra.
    + destruct N as [[A B] _]; lra.
  - intros k ->.
    replace (IZR k / 65536 * 65536) with (IZR k) by field.
    now rewrite int_of_double_Z.
Qed.

Lemma set_XYZ_truncates_witness :
  Stated.s15Fixed16 (set_XYZ 0.5) = 0.5.
Proof.
  assert (H : -32768 < 0.5 < 32768) by lra.
  destruct (set_XYZ_truncates 0.5 H) as (_ & _ & _ & E).
  apply (E 32768%Z). lra.
Defined.


(** *** Samples of 16 bits *)

Lemma get_uint16_set_sample16 (v : R) :
  get_uint16 (set_sample16 v)
  = Z.max 0 (Z.min 65535 (C.int_of_double (v * 65535))).
Proof.
  unfold get_uint16, set_sample16.
  set (n := C.int_of_double (v * 65535)).
  destruct (Z.ltb_spec n 0) as [L | L].
  - change (to_byte (Z.shiftr 0 8) * 256 + to_byte 0)%Z with 0%Z. lia.
  - destruct (Z.gtb_spec n 65535) as [G | G].
    + change (to_byte (Z.shiftr 65535 8) * 256 + to_byte 65535)%Z with 65535%Z.
      lia.
    + unfold to_byte. rewrite Z.shiftr_div_pow2 by lia.
      change (2 ^ 8)%Z with 256%Z. Z.div_mod_to_equations. lia.
Qed.

(** X3: for v in (-32768, 32768), [set_sample16] stores a big-endian
    16-bit number n of [0, 65535]: n = 0 when v < 1/65535, n = 65535 when
    v >= 1, n is the integer part of 65535 v for v in [0, 1]; and n does not
    decrease when v grows. *)
Theorem set_sample16_clamps (v : R) :
  -32768 < v < 32768 ->
  let n := get_uint16 (set_sample16 v) in
  List.length (set_sample16 v) = 2%nat /\
  Forall (fun b => 0 <= b < 256)%Z (set_sample16 v) /\
  (0 <= n <= 65535)%Z /\
  (v < / 65535 -> n = 0%Z) /\
  (1 <= v -> n = 65535%Z) /\
  (0 <= v <= 1 -> IZR n <= v * 65535 < IZR n + 1) /\
  (forall v' : R,
     v <= v' < 32768 -> (n <= get_uint16 (set_sample16 v'))%Z).
Proof.
  intros Hv n. split; [reflexivity |]. split.
  { unfold set_sample16. repeat constructor; apply byte_range. }
  unfold n. rewrite get_uint16_set_sample16.
  destruct (int_of_double_trunc (v * 65535)) as [P N].
  split; [lia |]. split; [| split; [| split]].
  - intros H. assert (H1 : v * 65535 < 1) by lra.
    destruct (Rle_dec 0 (v * 65535)) as [Hx | Hx].
    + destruct (P Hx) as [[A B] C].
      assert (D : IZR (C.int_of_double (v * 65535)) < 1) by lra.
      apply lt_IZR in D. lia.
    + assert (Hx' : v * 65535 < 0) by lra. destruct (N Hx') as [_ C]. lia.
  - intros H. assert (Hx : 0 <= v * 65535) by lra.
    destruct (P Hx) as [[A B] C].
    assert (D : 65534 < IZR (C.int_of_double (v * 65535))) by lra.
    apply lt_IZR in D. lia.
  - intros H. assert (Hx : 0 <= v * 65535) by lra.
    destruct (P Hx) as [[A B] C].
    assert (D : IZR (C.int_of_double (v * 65535)) < 65536) by lra.
    apply lt_IZR in D.
    rewrite Z.max_r, Z.min_r by lia. lra.
  - intros v' H. rewrite get_uint16_set_sample16.
    assert (M : (C.int_of_double (v * 65535)
                 <= C.int_of_double (v' * 65535))%Z).
    { apply int_of_double_mono. lra. }
    lia.
Qed.

Lemma set_sample16_clamps_witness :
  get_uint16 (set_sample16 1) = 65535%Z.
Proof.
  assert (H : -32768 < 1 < 32768) by lra.
  destruct (set_sample16_clamps 1 H) as (_ & _ & _ & _ & E & _).
  apply E. lra.
Defined.

(** *** The arguments at which a table is sampled *)

Lemma unit_fraction (i denom : Z) :
  (0 < denom)%Z -> (0 <= i <= denom)%Z -> 0 <= IZR i / IZR denom <= 1.
Proof.
  intros Hd [Hi Hj].
  assert (D : 0 < IZR denom) by now apply IZR_lt.
  apply IZR_le in Hi, Hj. split.
  - apply Rmult_le_pos; [lra | left; now apply Rinv_0_lt_compat].
  - apply (Rmult_le_reg_r (IZR denom)); [exact D |].
    unfold Rdiv. rewrite Rmult_assoc, Rinv_l by lra. lra.
Qed.

Lemma fraction_mono (i j denom : Z) :
  (0 < denom)%Z -> (i <= j)%Z -> IZR i / IZR denom <= IZR j / IZR denom.
Proof.
  intros Hd H. apply IZR_lt in Hd. apply IZR_le in H.
  apply Rmult_le_compat_r; [left; now apply Rinv_0_lt_compat | exact H].
Qed.

Lemma cache_arg_ends (denom : Z) (range : option gs_range) :
  (0 < denom)%Z ->
  cache_arg 0 denom range
  = match range with Some r => rmin r | None => 0 end /\
  cache_arg denom denom range
  = match range with Some r => rmax r | None => 1 end.
Proof.
  intros Hd. assert (D : 0 < IZR denom) by now apply IZR_lt.
  assert (Z0 : IZR 0 / IZR denom = 0) by (unfold Rdiv; lra).
  assert (Z1 : IZR denom / IZR denom = 1) by (field; lra).
  unfold cache_arg. rewrite Z0, Z1. destruct range; split; lra.
Qed.

Lemma cache_arg_order (i j denom : Z) (range : option gs_range) :
  (0 < denom)%Z -> (0 <= i <= j)%Z -> (j <= denom)%Z ->
  match range with Some r => rmin r | None => 0 end
  <= match range with Some r => rmax r | None => 1 end ->
  match range with Some r => rmin r | None => 0 end
  <= cache_arg i denom range /\
  cache_arg i denom range <= cache_arg j denom range /\
  cache_arg j denom range
  <= match range with Some r => rmax r | None => 1 end.
Proof.
  intros Hd Hi Hj.
  pose proof (unit_fraction i denom Hd ltac:(lia)) as Ui.
  pose proof (unit_fraction j denom Hd ltac:(lia)) as Uj.
  pose proof (fraction_mono i j denom Hd ltac:(lia)) as M.
  unfold cache_arg. destruct range as [r |].
  - intros L.
    set (ti := IZR i / IZR denom) in *. set (tj := IZR j / IZR denom) in *.
    split; [nra |]. split; nra.
  - intros _. lra.
Qed.

(** X4: for denom > 0 and 0 <= i <= j <= denom, [cache_arg] is rmin at 0
    and rmax at denom (0 and 1 without a range), and, when rmin <= rmax, it
    stays within the range and does not decrease with its index. *)
Theorem cache_arg_spans_range (i j denom : Z) (range : option gs_range) :
  (0 < denom)%Z -> (0 <= i <= j)%Z -> (j <= denom)%Z ->
  let lo := match range with Some r => rmin r | None => 0 end in
  let hi := match range with Some r => rmax r | None => 1 end in
  cache_arg 0 denom range = lo /\
  cache_arg denom denom range = hi /\
  (lo <= hi ->
   lo <= cache_arg i denom range /\
   cache_arg i denom range <= cache_arg j denom range /\
   cache_arg j denom range <= hi).
Proof.
  intros Hd Hi Hj lo hi.
  destruct (cache_arg_ends denom range Hd) as [E0 E1].
  split; [exact E0 |]. split; [exact E1 |].
  now apply cache_arg_order.
Qed.

Lemma cache_arg_spans_range_witness :
  cache_arg 0 511 (Some {| rmin := -1; rmax := 3 |}) = -1 /\
  cache_arg 511 511 (Some {| rmin := -1; rmax := 3 |}) = 3.
Proof.
  destruct (cache_arg_spans_range 0 0 511 (Some {| rmin := -1; rmax := 3 |}))
    as (A & B & _); [lia | lia | lia |].
  split; [exact A | exact B].
Defined.

(** *** The samples of the lookup table *)

Lemma clut_scale (x : R) : x / MAX_ICC_XYZ_VALUE * 65535 = x * 32768.
Proof. unfold MAX_ICC_XYZ_VALUE. field. Qed.

(** X5: the sample that [write_a2b0] stores for an XYZ component x in
    (-32768, 32768), [set_sample16 (x / MAX_ICC_XYZ_VALUE)], is x in units
    of 1/32768: 0 for x < 1/32768, the integer part of 32768 x for x in
    [0, MAX_ICC_XYZ_VALUE], 65535 from MAX_ICC_XYZ_VALUE on; 1.0 is stored
    as 32768, and every multiple k/32768 with 0 <= k <= 65535 as k. *)
Theorem clut_sample_is_u1Fixed15 (x : R) :
  -32768 < x < 32768 ->
  let n := get_uint16 (set_sample16 (x / MAX_ICC_XYZ_VALUE)) in
  (x < / 32768 -> n = 0%Z) /\
  (0 <= x <= MAX_ICC_XYZ_VALUE -> IZR n <= x * 32768 < IZR n + 1) /\
  (MAX_ICC_XYZ_VALUE <= x -> n = 65535%Z) /\
  (x = 1 -> n = 32768%Z) /\
  (forall k : Z, (0 <= k <= 65535)%Z -> x = IZR k / 32768 -> n = k).
Proof.
  intros Hx n. unfold n. rewrite get_uint16_set_sample16, clut_scale.
  destruct (int_of_double_trunc (x * 32768)) as [P N].
  assert (M : MAX_ICC_XYZ_VALUE = 65535 / 32768)
    by (unfold MAX_ICC_XYZ_VALUE; field).
  assert (K : forall k : Z, (0 <= k <= 65535)%Z -> x = IZR k / 32768 ->
              Z.max 0 (Z.min 65535 (C.int_of_double (x * 32768))) = k).
  { intros k Hk ->.
    replace (IZR k / 32768 * 32768) with (IZR k) by field.
    rewrite int_of_double_Z. lia. }
  split; [| split; [| split; [| split]]].
  - intros H. destruct (Rle_dec 0 (x * 32768)) as [H0 | H0].
    + destruct (P H0) as [[A B] C].
      assert (D : IZR (C.int_of_double (x * 32768)) < 1) by lra.
      apply lt_IZR in D. lia.
    + assert (H0' : x * 32768 < 0) by lra. destruct (N H0') as [_ C]. lia.
  - intros H. rewrite M in H. assert (H0 : 0 <= x * 32768) by lra.
    destruct (P H0) as [[A B] C].
    assert (D : IZR (C.int_of_double (x * 32768)) < 65536) by lra.
    apply lt_IZR in D. rewrite Z.max_r, Z.min_r by lia. lra.
  - intros H. rewrite M in H. assert (H0 : 0 <= x * 32768) by lra.
    destruct (P H0) as [[A B] C].
    assert (D : 65534 < IZR (C.int_of_double (x * 32768))) by lra.
    apply lt_IZR in D. lia.
  - intros H. apply K; [lia | lra].
  - exact K.
Qed.

Lemma clut_sample_is_u1Fixed15_witness :
  get_uint16 (set_sample16 (1 / MAX_ICC_XYZ_VALUE)) = 32768%Z.
Proof.
  assert (H : -32768 < 1 < 32768) by lra.
  destruct (clut_sample_is_u1Fixed15 1 H) as (_ & _ & _ & E & _).
  now apply E.
Defined.

End EncodingFacts.

Module GridFacts.
Import Profile Readers.
Local Open Scope Z_scope.

(** The range [j] of a pointer into an array of ranges. *)
Lemma deref_offset_ranges (ranges : option (list gs_range)) (j : nat) :
  match ranges with
  | Some _ => deref (offset_ranges ranges j)
  | None => None
  end
  = option_map (fun l => get_range l j) ranges.
Proof.
  destruct ranges as [l |]; [| reflexivity].
  unfold deref, offset_ranges, get_range. cbn [option_map]. f_equal.
  rewrite nth_skipn. f_equal. lia.
Qed.

Lemma a2b0_in_digits (j : nat) (n s : Z) (ranges : option (list gs_range))
    (acc : list R) :
  0 <= n -> 0 < s ->
  a2b0_in j n s ranges acc
  = map (fun p =>
           cache_arg ((n / s ^ Z.of_nat (j - 1 - p)) mod s) (s - 1)
             (option_map (fun l => get_range l p) ranges))
        (seq 0 j) ++ acc.
Proof.
  revert n acc. induction j as [| j IH]; intros n acc Hn Hs.
  - reflexivity.
  - cbn [a2b0_in]. rewrite deref_offset_ranges.
    rewrite Z.quot_div_nonneg, Z.rem_mod_nonneg by lia.
    rewrite IH by (try apply Z.div_pos; lia).
    rewrite seq_S, map_app, <- app_assoc. cbn [map app Nat.add].
    f_equal.
    + apply map_ext_in. intros p Hp. apply in_seq in Hp.
      f_equal. f_equal.
      rewrite Z.div_div by (try apply Z.pow_pos_nonneg; lia).
      f_equal. replace (S j - 1 - p)%nat with (S (j - 1 - p)) by lia.
      rewrite Nat2Z.inj_succ, Z.pow_succ_r by lia. reflexivity.
    + replace (S j - 1 - j)%nat with 0%nat by lia.
      change (s ^ Z.of_nat 0) with 1. rewrite Z.div_1_r. reflexivity.
Qed.

(** X6: for s > 1 points on an axis and an entry number 0 <= i < s^k, the
    inner loop of [write_a2b0] fills in[0 .. k-1] from the digits of i in
    base s, the last channel being the least significant digit: in[j] is
    [cache_arg] of digit j, with s - 1 as denominator and the range j.
    Entry 0 is the corner of all lower bounds and entry s^k - 1 the corner
    of all upper bounds (0 and 1 without ranges). *)
Theorem a2b0_grid_point (k : nat) (i s : Z) (ranges : option (list gs_range)) :
  1 < s -> 0 <= i < s ^ Z.of_nat k ->
  let in_ := a2b0_in k i s ranges [] in
  let digit (j : nat) := (i / s ^ Z.of_nat (k - 1 - j)) mod s in
  List.length in_ = k /\
  (forall j : nat, (j < k)%nat ->
     0 <= digit j < s /\
     nth j in_ 0%R
     = cache_arg (digit j) (s - 1)
         (option_map (fun l => get_range l j) ranges)) /\
  (i = 0 ->
   forall j : nat, (j < k)%nat ->
     nth j in_ 0%R
     = match ranges with Some l => rmin (get_range l j) | None => 0%R end) /\
  (i = s ^ Z.of_nat k - 1 ->
   forall j : nat, (j < k)%nat ->
     nth j in_ 0%R
     = match ranges with Some l => rmax (get_range l j) | None => 1%R end).
Proof.
  intros Hs Hi in_ digit.
  assert (E : in_ = map (fun p =>
                cache_arg (digit p) (s - 1)
                  (option_map (fun l => get_range l p) ranges)) (seq 0 k)).
  { unfold in_. rewrite a2b0_in_digits by lia. apply app_nil_r. }
  assert (N : forall j, (j < k)%nat ->
            nth j in_ 0%R = cache_arg (digit j) (s - 1)
                              (option_map (fun l => get_range l j) ranges)).
  { intros j Hj. rewrite E.
    rewrite (nth_indep _ 0%R
               (cache_arg (digit 0%nat) (s - 1)
                  (option_map (fun l => get_range l 0) ranges)))
      by (rewrite length_map, length_seq; exact Hj).
    rewrite (map_nth (fun p => cache_arg (digit p) (s - 1)
                        (option_map (fun l => get_range l p) ranges))
               (seq 0 k) 0%nat j).
    rewrite seq_nth by exact Hj. reflexivity. }
  split; [rewrite E, length_map, length_seq; reflexivity |].
  split; [| split].
  - intros j Hj. split; [apply Z.mod_pos_bound; lia | now apply N].
  - intros -> j Hj. rewrite (N j Hj).
    assert (D : digit j = 0).
    { unfold digit. rewrite Z.div_0_l by (apply Z.pow_nonzero; lia).
      apply Z.mod_0_l. lia. }
    rewrite D.
    destruct (EncodingFacts.cache_arg_ends (s - 1)
                (option_map (fun l => get_range l j) ranges))
      as (A & _); [lia |].
    rewrite A. now destruct ranges.
  - intros -> j Hj. rewrite (N j Hj).
    assert (D : digit j = s - 1).
    { unfold digit.
      set (e := Z.of_nat (k - 1 - j)).
      assert (P : Z.of_nat k = Z.of_nat (S j) + e) by (unfold e; lia).
      rewrite P, Z.pow_add_r by lia.
      assert (Q : 0 < s ^ e) by (apply Z.pow_pos_nonneg; lia).
      replace (s ^ Z.of_nat (S j) * s ^ e - 1)
        with ((s ^ Z.of_nat (S j) - 1) * s ^ e + (s ^ e - 1)) by ring.
      rewrite Z.div_add_l by lia.
      rewrite (Z.div_small (s ^ e - 1)) by lia.
      rewrite Z.add_0_r, Nat2Z.inj_succ, Z.pow_succ_r by lia.
      replace (s * s ^ Z.of_nat j - 1)
        with ((s ^ Z.of_nat j - 1) * s + (s - 1)) by ring.
      rewrite Z.add_comm, Z.mod_add by lia. apply Z.mod_small. lia. }
    rewrite D.
    destruct (EncodingFacts.cache_arg_ends (s - 1)
                (option_map (fun l => get_range l j) ranges))
      as (_ & B); [lia |].
    rewrite B. now destruct ranges.
Qed.

Lemma a2b0_grid_point_witness :
  a2b0_in 3 (13 ^ 3 - 1) 13 None [] = [1%R; 1%R; 1%R] .
Proof.
  destruct (a2b0_grid_point 3 (13 ^ 3 - 1) 13 None) as (L & _ & _ & H);
    [lia | lia |].
  cbv zeta in L, H.
  pose proof (H eq_refl 0%nat ltac:(lia)) as H0.
  pose proof (H eq_refl 1%nat ltac:(lia)) as H1.
  pose proof (H eq_refl 2%nat ltac:(lia)) as H2.
  destruct (a2b0_in 3 (13 ^ 3 - 1) 13 None []) as [| a [| b [| c [| d l]]]];
    try discriminate L.
  cbn [nth] in H0, H1, H2. now subst.
Defined.

End GridFacts.

Module LightnessFacts.
Local Open Scope R_scope.

Lemma breakpoint_pos : 0 < (6 / 29) ^ 3.
Proof. lra. Qed.

Lemma pow_third_lt (a b : R) : 0 < a < b -> C.pow a (1 / 3) < C.pow b (1 / 3).
Proof. intros H. unfold C.pow. apply Rlt_Rpower_l; lra. Qed.

Lemma pow_third_cube (t : R) : 0 < t -> C.pow t (1 / 3) ^ 3 = t.
Proof.
  intros Ht. unfold C.pow.
  assert (P : 0 < Rpower t (1 / 3)) by apply exp_pos.
  rewrite <- (Rpower_pow 3 _ P), Rpower_mult.
  replace (1 / 3 * INR 3) with 1 by (simpl; field).
  now apply Rpower_1.
Qed.

Lemma pow_third_breakpoint : C.pow ((6 / 29) ^ 3) (1 / 3) = 6 / 29.
Proof. apply LabFacts.pow_cube_root. lra. Qed.

Lemma lab_g_inverse_lt (x y : R) : x < y -> lab_g_inverse x < lab_g_inverse y.
Proof.
  intros H.
  destruct (Rlt_le_dec x ((6 / 29) ^ 3)) as [Hx | Hx];
    destruct (Rlt_le_dec y ((6 / 29) ^ 3)) as [Hy | Hy].
  - rewrite !LabFacts.lab_g_inverse_low by assumption. lra.
  - rewrite LabFacts.lab_g_inverse_low, LabFacts.lab_g_inverse_high
      by assumption.
    apply Rlt_le_trans with (6 / 29); [lra |].
    rewrite <- pow_third_breakpoint. apply LabFacts.pow_third_le. lra.
  - lra.
  - rewrite !LabFacts.lab_g_inverse_high by lra.
    apply pow_third_lt. lra.
Qed.

Lemma lab_g_inverse_le (x y : R) : x <= y -> lab_g_inverse x <= lab_g_inverse y.
Proof.
  intros [H | ->]; [left; now apply lab_g_inverse_lt | right; reflexivity].
Qed.

(** X7: [lab_g_inverse] is strictly increasing on the whole real line. *)
Theorem lab_g_inverse_increasing (x y : R) :
  x < y -> lab_g_inverse x < lab_g_inverse y.
Proof. apply lab_g_inverse_lt. Qed.

Lemma lab_g_inverse_increasing_witness :
  lab_g_inverse 0 < lab_g_inverse 1.
Proof. apply (lab_g_inverse_increasing 0 1). lra. Defined.

(** X8: [lab_g_inverse] undoes the function it is named after: from the
    breakpoint (6/29)^3 on, its value is at least 6/29 and the cube of its
    value is the argument; below the breakpoint its value is less than 6/29
    and (value - 4/29) * 108/841 is the argument. *)
Theorem lab_g_inverse_inverts (t : R) :
  ((6 / 29) ^ 3 <= t ->
   6 / 29 <= lab_g_inverse t /\ lab_g_inverse t ^ 3 = t) /\
  (t < (6 / 29) ^ 3 ->
   lab_g_inverse t < 6 / 29 /\
   (lab_g_inverse t - 4 / 29) * (108 / 841) = t).
Proof.
  split; intros H.
  - rewrite LabFacts.lab_g_inverse_high by exact H. split.
    + rewrite <- pow_third_breakpoint. apply LabFacts.pow_third_le. lra.
    + apply pow_third_cube. lra.
  - rewrite LabFacts.lab_g_inverse_low by exact H. split; [lra | field].
Qed.

Lemma lab_g_inverse_inverts_witness :
  lab_g_inverse 1 ^ 3 = 1 /\ (lab_g_inverse 0 - 4 / 29) * (108 / 841) = 0.
Proof.
  split.
  - apply (proj1 (lab_g_inverse_inverts 1)). lra.
  - apply (proj2 (lab_g_inverse_inverts 0)). lra.
Defined.

(** *** Neutral colours *)

Lemma lightness (xyz : list R) (pciec : gs_cie_common) :
  idx (xyz_to_lab xyz pciec) 1
  = Rmax 0 (Rmin 100
      (lab_g_inverse (idx xyz 1 / v (WhitePoint (points pciec))) * 116 - 16)).
Proof.
  unfold xyz_to_lab. cbv zeta. unfold idx at 1. cbn [nth].
  apply LabEncoder.clamp_L.
Qed.

(** X9: for a white point with positive components, [xyz_to_lab] gives a
    neutral colour t (Xn, Yn, Zn), 0 <= t <= 1, the chroma components
    lab[0] = lab[2] = 0 and the lightness lab[1] = 116 lab_g_inverse(t) - 16,
    which is not clamped; black has lightness 0 and the white point itself
    lightness 100. *)
Theorem xyz_to_lab_neutral (t : R) (pciec : gs_cie_common) :
  let wp := WhitePoint (points pciec) in
  0 < u wp -> 0 < v wp -> 0 < w wp -> 0 <= t <= 1 ->
  let lab := xyz_to_lab [t * u wp; t * v wp; t * w wp] pciec in
  idx lab 0 = 0 /\
  idx lab 1 = 116 * lab_g_inverse t - 16 /\
  idx lab 2 = 0 /\
  (t = 0 -> idx lab 1 = 0) /\
  (t = 1 -> idx lab 1 = 100).
Proof.
  intros wp Hu Hv Hw Ht lab.
  pose proof (LabEncoder.lab_g_inverse_unit t Ht) as G.
  assert (Eu : t * u wp / u wp = t) by (field; lra).
  assert (Ev : t * v wp / v wp = t) by (field; lra).
  assert (Ew : t * w wp / w wp = t) by (field; lra).
  assert (E : lab = [0; 116 * lab_g_inverse t - 16; 0]).
  { unfold lab, xyz_to_lab. cbv zeta. unfold idx. cbn [nth]. fold wp.
    rewrite Eu, Ev, Ew.
    destruct (Rlt_dec (lab_g_inverse t * 116 - 16) 0) as [N | _]; [lra |].
    destruct (Rgt_dec (lab_g_inverse t * 116 - 16) 100) as [N | _]; [lra |].
    f_equal; [field | f_equal; [ring | f_equal; field]]. }
  rewrite E. unfold idx. cbn [nth].
  split; [reflexivity |]. split; [reflexivity |]. split; [reflexivity |].
  split; intros ->.
  - rewrite LabEncoder.lab_g_inverse_zero. field.
  - rewrite LabFacts.lab_g_inverse_high by lra.
    rewrite LabFacts.pow_third_one. ring.
Qed.

Lemma xyz_to_lab_neutral_witness :
  idx (xyz_to_lab [1 * 0.9505; 1 * 1.0; 1 * 1.089] Examples.d65_white) 1 = 100.
Proof.
  refine (proj2 (proj2 (proj2 (proj2
    (xyz_to_lab_neutral 1 Examples.d65_white _ _ _ _)))) eq_refl);
    unfold Examples.d65_white; cbn [u v w WhitePoint points]; lra.
Defined.

(** X10: for a white point with positive Y, the lightness lab[1] that
    [xyz_to_lab] computes does not decrease when Y grows, and it is within
    [0, 100]. *)
Theorem lightness_is_monotone (xyz xyz' : list R) (pciec : gs_cie_common) :
  0 < v (WhitePoint (points pciec)) ->
  idx xyz 1 <= idx xyz' 1 ->
  0 <= idx (xyz_to_lab xyz pciec) 1 <= idx (xyz_to_lab xyz' pciec) 1 /\
  idx (xyz_to_lab xyz' pciec) 1 <= 100.
Proof.
  intros Hv H. rewrite !lightness.
  set (wv := v (WhitePoint (points pciec))) in *.
  assert (D : idx xyz 1 / wv <= idx xyz' 1 / wv).
  { apply Rmult_le_compat_r; [left; now apply Rinv_0_lt_compat | exact H]. }
  apply lab_g_inverse_le in D.
  set (a := lab_g_inverse (idx xyz 1 / wv)) in *.
  set (b := lab_g_inverse (idx xyz' 1 / wv)) in *.
  unfold Rmin.
  destruct (Rle_dec 100 (a * 116 - 16)), (Rle_dec 100 (b * 116 - 16));
    unfold Rmax;
    repeat match goal with
           | |- context [Rle_dec ?p ?q] => destruct (Rle_dec p q)
           end; lra.
Qed.

Lemma lightness_is_monotone_witness :
  idx (xyz_to_lab [0; 0; 0] Examples.unit_white) 1
  <= idx (xyz_to_lab [1; 1; 1] Examples.unit_white) 1.
Proof.
  refine (proj2 (proj1
    (lightness_is_monotone [0; 0; 0] [1; 1; 1] Examples.unit_white _ _)));
    unfold Examples.unit_white, idx; cbn [u v w WhitePoint points nth]; lra.
Defined.

End LightnessFacts.

Module LayoutFacts.
Import Profile Synthesis Streams StreamFacts ProfileFacts Layout.
Local Open Scope cos_scope.

Section Writers.
Variable gx_cie_cache_size : Z.
Variable p : nat.

Lemma appends_clut pnt pa2b pgs pciec n :
  appends p
    (fun st =>
       let '(code, st) :=
         a2b0_loop p (a2b0_entry pnt pa2b pgs pciec)
           (map Z.of_nat (seq 0 n)) st in
       (code, gx_cie_to_xyz_free pgs st))
    (clut_bytes (a2b0_entry pnt pa2b Staging.staging_gstate pciec)
       (map Z.of_nat (seq 0 n))).
Proof.
  intros st d a st' Hs H.
  destruct (a2b0_loop p _ _ st) as [code st1] eqn:E.
  inversion H; subst. unfold gx_cie_to_xyz_free.
  exact (LutStreamFacts.appends_a2b0_loop p _ _ _ _ _ _ Hs E).
Qed.

Lemma appends_call_write f pdev t pciec :
  write t = Some f ->
  appends p (call_write gx_cie_cache_size f pdev p t pciec)
    (written_by gx_cie_cache_size t pciec).
Proof.
  intros Hw. unfold written_by. rewrite Hw.
  destruct f; unfold call_write, write_trc_abc, write_trc_lmn, write_a2b0;
    destruct (write_data t) as [| pc | pa2b];
    try apply appends_ret; try apply appends_add_bytes.
  apply appends_bind; [apply appends_add_bytes | intros _].
  change (clut_bytes _ _ ++ take_bytes (Z.to_nat (3 * 4)) v01)
    with ([] ++ (clut_bytes
                   (a2b0_entry t pa2b Staging.staging_gstate pciec)
                   (map Z.of_nat (seq 0 (Z.to_nat (count pa2b))))
                 ++ take_bytes (Z.to_nat (3 * 4)) v01)).
  apply appends_bind.
  - apply keeps_appends, keeps_gx_cie_to_xyz_alloc.
  - intros pgs. apply appends_bind; [apply appends_clut | intros _].
    apply appends_add_bytes.
Qed.

Lemma appends_write_tables pdev pciec tables :
  appends p (write_tables gx_cie_cache_size pdev p pciec tables)
    (flat_map (fun t => payload gx_cie_cache_size t pciec ++ padding t) tables).
Proof.
  induction tables as [| t tables IH]; cbn [write_tables flat_map].
  - apply appends_ret.
  - unfold payload at 1, padding at 1. rewrite <- !app_assoc.
    apply appends_bind; [apply appends_add_bytes | intros _].
    apply appends_bind.
    + destruct (write t) as [f |] eqn:Hw.
      * now apply appends_call_write.
      * unfold written_by. rewrite Hw. apply appends_ret.
    + intros _. apply appends_bind; [apply appends_add_bytes | intros _].
      exact IH.
Qed.

End Writers.

Section Emitted.
Variable gx_cie_cache_size : Z.

(** A successful synthesis leaves exactly the bytes of the profile on the
    stream it has created. *)
Lemma emitted_bytes pdev pca pcs dcsname pciec prange one_step pmat pprange
    st st' :
  pdf_convert_cie_to_iccbased gx_cie_cache_size pdev pca pcs dcsname pciec
    prange one_step pmat pprange st = (Ok tt, st') ->
  stream_at st' (List.length (objects st))
    (profile_bytes gx_cie_cache_size
       (profile_tables gx_cie_cache_size pdev pcs pciec one_step pmat pprange
          white_d50) dcsname pciec).
Proof.
  intros H. unfold pdf_convert_cie_to_iccbased in H.
  destruct (bind_ok_inv H) as (p & st1 & Hmk & Hrest). clear H.
  destruct (pdf_make_iccbased_ok Hmk) as [-> Hs1].
  set (tables := profile_tables gx_cie_cache_size pdev pcs pciec one_step pmat
                   pprange white_d50) in *.
  unfold profile_bytes.
  set (n := Z.of_nat (List.length tables)) in *.
  destruct (directory tables (to_uint (sizeof_header + to_uint (4 + n * 12))))
    as [entries size] eqn:Edir.
  cbn [fst snd].
  set (q := List.length (objects st)) in *.
  match type of Hrest with
  | ?c st1 = _ =>
      assert (Hc : appends q c
        (take_bytes (Z.to_nat sizeof_header)
           (profile_header dcsname (data (add_table_xyz3 "wtpt" white_d50)) size)
         ++ take_bytes (Z.to_nat (to_uint (4 + n * 12)))
              (set_uint32 (to_uint n) ++ entries)
         ++ flat_map (fun t => payload gx_cie_cache_size t pciec ++ padding t)
              tables ++ []))
  end.
  { apply appends_bind; [apply appends_add_bytes | intros _].
    apply appends_bind; [apply appends_add_bytes | intros _].
    apply appends_bind; [apply appends_write_tables | intros _].
    apply keeps_appends, keeps_pdf_finish_iccbased. }
  pose proof (Hc _ _ _ _ Hs1 Hrest) as Hs. rewrite app_nil_r in Hs. exact Hs.
Qed.

End Emitted.


(** *** The lengths of the payloads *)

Local Open Scope Z_scope.

Lemma to_int_small (n : Z) : 0 <= n < 2147483648 -> to_int n = n.
Proof.
  intros H. unfold to_int. change (2 ^ 31) with 2147483648.
  change (2 ^ 32) with 4294967296. Z.div_mod_to_equations. lia.
Qed.

Lemma padding_length (t : profile_table_t) :
  0 <= length t < 2147483648 ->
  length t + Z.of_nat (List.length (padding t)) = Stated.pad4 (length t).
Proof.
  intros H. unfold padding. rewrite take_bytes_length, to_int_small by exact H.
  change 3 with (Z.ones 2). rewrite Z.land_ones by lia. change (2 ^ 2) with 4.
  rewrite Z2Nat.id by (apply Z.mod_pos_bound; lia).
  unfold Stated.pad4. Z.div_mod_to_equations. lia.
Qed.

Section Sizes.
Variable gx_cie_cache_size : Z.
Variable pciec : gs_cie_common.

Lemma payload_length t :
  0 <= data_length t ->
  Z.of_nat (List.length (payload gx_cie_cache_size t pciec))
  = data_length t
    + Z.of_nat (List.length (written_by gx_cie_cache_size t pciec)).
Proof.
  intros H. unfold payload. rewrite length_app, take_bytes_length. lia.
Qed.

Lemma sized_plain t :
  write t = None -> data_length t = length t ->
  0 <= length t < 2147483648 ->
  Z.of_nat (List.length (payload gx_cie_cache_size t pciec)) = length t.
Proof.
  intros Hw Hd Hl. rewrite payload_length by lia.
  unfold written_by. rewrite Hw. simpl. lia.
Qed.

Lemma sized_trc t c :
  0 <= gx_cie_cache_size <= 2 ^ 20 ->
  (write t = Some write_trc_abc_proc \/ write t = Some write_trc_lmn_proc) ->
  write_data t = write_data_cie c ->
  data_length t = 12 ->
  length t = to_uint (12 + gx_cie_cache_size * 2) ->
  Z.of_nat (List.length (payload gx_cie_cache_size t pciec)) = length t /\
  0 <= length t < 2147483648.
Proof.
  intros Hc Hw Hd Hdl Hl. change (2 ^ 20) with 1048576 in Hc.
  rewrite Hl, ReaderFacts.to_uint_small by lia. split; [| lia].
  rewrite payload_length by lia. rewrite Hdl.
  unfold written_by. destruct Hw as [-> | ->]; rewrite Hd;
    rewrite take_bytes_length; lia.
Qed.

Lemma sized_a2b0 k pcs r :
  k = 1 \/ k = 3 \/ k = 4 ->
  let t := set_ranges (snd (add_a2b0 k pcs)) r in
  Z.of_nat (List.length (payload gx_cie_cache_size t pciec)) = length t /\
  0 <= length t < 2147483648.
Proof.
  intros Hk t.
  destruct (LutStreamFacts.a2b0_fields k pcs) as (Hwd & H8 & _ & _ & Hl).
  cbv zeta in Hwd, H8, Hl.
  assert (Hc : count (fst (add_a2b0 k pcs)) = 255 /\ k = 1 \/
               count (fst (add_a2b0 k pcs)) = 2197 /\ k = 3 \/
               count (fst (add_a2b0 k pcs)) = 2401 /\ k = 4).
  { destruct Hk as [-> | [-> | ->]];
      [left; split; [apply LutStreamFacts.count_1 | reflexivity]
      | right; left; split; [apply LutStreamFacts.count_3 | reflexivity]
      | right; right; split; [apply LutStreamFacts.count_4 | reflexivity]]. }
  assert (El : length t = length (snd (add_a2b0 k pcs))) by reflexivity.
  assert (Ew : write t = Some write_a2b0_proc) by reflexivity.
  assert (Ed : write_data t = write_data_a2b0 (fst (add_a2b0 k pcs)))
    by reflexivity.
  assert (Edl : data_length t = 52) by reflexivity.
  rewrite El, Hl. unfold NUM_IN_ENTRIES, NUM_OUT_ENTRIES.
  rewrite payload_length by (rewrite Edl; lia). rewrite Edl.
  unfold written_by. rewrite Ew, Ed.
  rewrite !length_app, !take_bytes_length, LutStreamFacts.clut_bytes_length,
    length_map, length_seq, H8.
  destruct Hc as [[-> ->] | [[-> ->] | [-> ->]]]; vm_compute; split;
    [reflexivity | split; congruence | reflexivity | split; congruence
    | reflexivity | split; congruence].
Qed.


(** Every table that the builder makes has a payload of the declared
    length. *)
Lemma builder_tables_sized pdev pcs one_step pmat pprange :
  0 <= gx_cie_cache_size <= 2 ^ 20 ->
  (let k := gs_color_space_num_components pcs in k = 1 \/ k = 3 \/ k = 4) ->
  Forall
    (fun t =>
       Z.of_nat (List.length (payload gx_cie_cache_size t pciec)) = length t /\
       0 <= length t < 2147483648)
    (profile_tables gx_cie_cache_size pdev pcs pciec one_step pmat pprange
       white_d50).
Proof.
  intros Hc Hk. cbv zeta in Hk.
  assert (Plain : forall tag d len,
            0 <= len < 2147483648 ->
            Z.of_nat (List.length
                        (payload gx_cie_cache_size (add_table tag d len) pciec))
            = length (add_table tag d len) /\
            0 <= length (add_table tag d len) < 2147483648).
  { intros tag d len Hl. split; [| exact Hl].
    apply sized_plain; [reflexivity | reflexivity | exact Hl]. }
  assert (Trc : forall tag r,
            let t := set_ranges
                       (add_trc gx_cie_cache_size pdev tag pciec one_step) r in
            Z.of_nat (List.length (payload gx_cie_cache_size t pciec))
            = length t /\ 0 <= length t < 2147483648).
  { intros tag r t. apply (sized_trc t pciec Hc);
      [destruct one_step; auto | reflexivity | reflexivity | reflexivity]. }
  assert (Lut : forall r,
            let t := set_ranges
                       (snd (add_a2b0 (gs_color_space_num_components pcs) pcs))
                       r in
            Z.of_nat (List.length (payload gx_cie_cache_size t pciec))
            = length t /\ 0 <= length t < 2147483648).
  { intros r. now apply sized_a2b0. }
  unfold profile_tables.
  destruct (add_a2b0 (gs_color_space_num_components pcs) pcs) as [a pnt] eqn:Ea.
  assert (Ep : pnt = snd (add_a2b0 (gs_color_space_num_components pcs) pcs))
    by now rewrite Ea.
  subst pnt. clear Ea.
  apply Forall_app. split.
  { repeat apply Forall_cons; [| | | apply Forall_nil];
      apply Plain; vm_compute; split; congruence. }
  assert (LutCase :
    Forall
      (fun t =>
         Z.of_nat (List.length (payload gx_cie_cache_size t pciec)) = length t /\
         0 <= length t < 2147483648)
      [set_ranges (snd (add_a2b0 (gs_color_space_num_components pcs) pcs))
         pprange]).
  { apply Forall_cons; [apply Lut | apply Forall_nil]. }
  assert (TrcCase : forall (m : gs_matrix3),
    Forall
      (fun t =>
         Z.of_nat (List.length (payload gx_cie_cache_size t pciec)) = length t /\
         0 <= length t < 2147483648)
      (let tr := add_trc gx_cie_cache_size pdev "rTRC" pciec one_step in
       let tg := add_trc gx_cie_cache_size pdev "gTRC" pciec one_step in
       let tb := add_trc gx_cie_cache_size pdev "bTRC" pciec one_step in
       let '(tr, tg, tb) :=
         match pprange with
         | Some _ =>
             (set_ranges tr pprange, set_ranges tg (offset_ranges pprange 1),
              set_ranges tb (offset_ranges pprange 2))
         | None => (tr, tg, tb)
         end in
       let wp := WhitePoint (points pciec) in
       [tr; tg; tb;
        add_table_xyz3 "rXYZ" (adjust_wp (cu m) wp white_d50);
        add_table_xyz3 "gXYZ" (adjust_wp (cv m) wp white_d50);
        add_table_xyz3 "bXYZ" (adjust_wp (cw m) wp white_d50)])).
  { intros m. cbv zeta. destruct pprange as [r |].
    - repeat apply Forall_cons;
        [apply (Trc "rTRC"%string (Some r))
        | apply (Trc "gTRC"%string (offset_ranges (Some r) 1))
        | apply (Trc "bTRC"%string (offset_ranges (Some r) 2))
        | apply (Plain _ _ 20); lia
        | apply (Plain _ _ 20); lia
        | apply (Plain _ _ 20); lia
        | apply Forall_nil].
    - repeat apply Forall_cons;
        [apply (Trc "rTRC"%string None)
        | apply (Trc "gTRC"%string None)
        | apply (Trc "bTRC"%string None)
        | apply (Plain _ _ 20); lia
        | apply (Plain _ _ 20); lia
        | apply (Plain _ _ 20); lia
        | apply Forall_nil]. }
  destruct one_step, pmat as [m |];
    first [exact LutCase | exact (TrcCase m)].
Qed.

End Sizes.


(** *** The profile on the stream *)

Lemma make_iccbased_device_ncomps pdev pca ncomps prange pprange st p st' :
  pdf_make_iccbased pdev None pca ncomps prange
    (pdf_cspace_init_Device ncomps) pprange st = (Ok p, st') ->
  ncomps = 1 \/ ncomps = 3 \/ ncomps = 4.
Proof.
  intros H.
  destruct (Z.eqb_spec ncomps 1) as [| N1]; [auto |].
  destruct (Z.eqb_spec ncomps 3) as [| N3]; [auto |].
  destruct (Z.eqb_spec ncomps 4) as [| N4]; [auto |].
  exfalso. unfold pdf_cspace_init_Device in H.
  apply Z.eqb_neq in N1, N3, N4. rewrite N1, N3, N4 in H.
  unfold pdf_make_iccbased in H.
  destruct (cos_array_add pca _ st) as [[[] | e] st1]; [| discriminate].
  destruct (cos_stream_alloc st1) as [[q |] st2]; [| discriminate].
  destruct (cos_dict_put_c_key_int q "/N" ncomps st2) as [[[] | e] st3];
    [| discriminate].
  rewrite N1, N3, N4 in H. discriminate.
Qed.

Lemma flat_map_sized_length (g : profile_table_t -> list byte)
    (tables : list profile_table_t) :
  Forall (fun t => Z.of_nat (List.length (g t)) = Stated.pad4 (length t))
    tables ->
  Z.of_nat (List.length (flat_map g tables))
  = Stated.zsum (map Stated.pad4 (lengths tables)).
Proof.
  induction 1 as [| t tables Ht _ IH]; [reflexivity |].
  cbn [flat_map lengths map Stated.zsum fold_right].
  rewrite length_app, Nat2Z.inj_add, Ht.
  unfold Stated.zsum, lengths in IH. rewrite IH. reflexivity.
Qed.

Lemma zsum_pad4_mod4 (l : list Z) : Stated.zsum (map Stated.pad4 l) mod 4 = 0.
Proof.
  induction l as [| x l IH]; [reflexivity |].
  cbn [map Stated.zsum fold_right]. fold (Stated.zsum (map Stated.pad4 l)).
  unfold Stated.pad4 at 1. rewrite Z.add_comm, Z.mod_add by lia. exact IH.
Qed.

Lemma padding_zeros (t : profile_table_t) :
  padding t = zeros (List.length (padding t)).
Proof.
  unfold padding. rewrite take_bytes_length.
  assert (H : (Z.to_nat (Z.land (- to_int (length t)) 3) <= 3)%nat).
  { change 3 with (Z.ones 2). rewrite Z.land_ones by lia.
    change (2 ^ 2) with 4.
    pose proof (Z.mod_pos_bound (- to_int (length t)) 4 ltac:(lia)). lia. }
  destruct (Z.to_nat (Z.land (- to_int (length t)) 3)) as [| [| [| [| k]]]];
    try reflexivity. lia.
Qed.

Section EmittedProfile.
Variable gx_cie_cache_size : Z.

(** The parts of the stream that a successful synthesis leaves, and their
    lengths. *)
Lemma emitted_parts pdev pca pcs dcsname pciec prange one_step pmat pprange
    st st' :
  0 <= gx_cie_cache_size <= 2 ^ 20 ->
  pdf_convert_cie_to_iccbased gx_cie_cache_size pdev pca pcs dcsname pciec
    prange one_step pmat pprange st = (Ok tt, st') ->
  let tables :=
    profile_tables gx_cie_cache_size pdev pcs pciec one_step pmat pprange
      white_d50 in
  let lens := lengths tables in
  let n := Z.of_nat (List.length tables) in
  let g := fun t => payload gx_cie_cache_size t pciec ++ padding t in
  let hd :=
    profile_header dcsname (data (add_table_xyz3 "wtpt" white_d50))
      (Stated.profile_size lens) in
  let dir := fst (directory tables (132 + 12 * n)) in
  stream_data st' (List.length (objects st))
  = hd ++ (set_uint32 n ++ dir) ++ flat_map g tables /\
  profile_bytes gx_cie_cache_size tables dcsname pciec
  = hd ++ (set_uint32 n ++ dir) ++ flat_map g tables /\
  Forall (fun t =>
            Z.of_nat (List.length (payload gx_cie_cache_size t pciec))
            = length t /\ 0 <= length t < 2147483648) tables /\
  Forall (fun l => 0 <= l < 4294967296) lens /\
  Stated.profile_size lens < 4294967296 /\
  (forall (i : nat) (t : profile_table_t),
     nth_error tables i = Some t ->
     Stated.slice dir (12 * i) 12 = entry t (Stated.tag_offset lens i)).
Proof.
  intros Hc Hrun tables lens n g hd dir.
  assert (Hk : let k := gs_color_space_num_components pcs in
               k = 1 \/ k = 3 \/ k = 4).
  { unfold pdf_convert_cie_to_iccbased in Hrun.
    destruct (bind_ok_inv Hrun) as (p & st1 & Hmk & _).
    exact (make_iccbased_device_ncomps _ _ _ _ _ _ _ _ Hmk). }
  pose proof (builder_tables_sized gx_cie_cache_size pciec pdev pcs one_step
                pmat pprange Hc Hk) as Hsized.
  destruct (DirectoryFacts.builder_tables_fit gx_cie_cache_size pdev pcs pciec
              one_step pmat pprange Hc Hk) as [Hlens Hfit].
  fold tables in Hsized. fold tables in Hlens, Hfit.
  change (lengths tables) with lens in Hlens, Hfit.
  assert (Hpos : Forall (fun l => 0 <= l) lens).
  { eapply Forall_impl; [| exact Hlens]. simpl. intros; lia. }
  pose proof (DirectoryFacts.zsum_pad4_nonneg lens Hpos) as Hz.
  assert (Hn : 0 <= n) by (unfold n; lia).
  assert (Hlen : Z.of_nat (List.length lens) = n).
  { unfold lens, lengths, n. now rewrite length_map. }
  unfold Stated.profile_size in Hfit. rewrite Hlen in Hfit.
  assert (E1 : to_uint (4 + n * 12) = 4 + 12 * n)
    by (rewrite ReaderFacts.to_uint_small; lia).
  assert (E2 : to_uint (sizeof_header + (4 + 12 * n)) = 132 + 12 * n).
  { unfold sizeof_header. rewrite ReaderFacts.to_uint_small; lia. }
  assert (E3 : to_uint n = n) by (apply ReaderFacts.to_uint_small; lia).
  destruct (DirectoryFacts.directory_offsets tables (132 + 12 * n))
    as [Hsize Hentries]; [exact Hpos | lia | fold lens; lia |].
  fold lens in Hsize.
  assert (Esize : snd (directory tables (132 + 12 * n))
                  = Stated.profile_size lens).
  { rewrite Hsize. unfold Stated.profile_size. rewrite Hlen. lia. }
  assert (Ebytes : profile_bytes gx_cie_cache_size tables dcsname pciec
                   = hd ++ (set_uint32 n ++ dir) ++ flat_map g tables).
  { unfold profile_bytes. fold n. rewrite E1, E2, E3, Esize. fold hd. fold dir.
    rewrite (take_bytes_exact _ hd) by apply profile_header_length.
    rewrite (take_bytes_exact _ (set_uint32 n ++ dir)); [reflexivity |].
    rewrite length_app. unfold dir. rewrite directory_length.
    unfold n. simpl List.length. lia. }
  split; [| split; [exact Ebytes |]].
  { rewrite <- Ebytes. apply stream_at_data.
    now apply emitted_bytes with (pca := pca) (prange := prange). }
  split; [exact Hsized |]. split; [exact Hlens |].
  split; [unfold Stated.profile_size; rewrite Hlen; lia |].
  intros i t Ht. unfold dir. rewrite (Hentries i t Ht).
  f_equal. unfold Stated.tag_offset. fold lens. rewrite Hlen. lia.
Qed.


(** The stream as a whole: the bytes of the profile, whose length is the
    size in the header. *)
Lemma emitted_size pdev pca pcs dcsname pciec prange one_step
    pmat pprange st st' :
  0 <= gx_cie_cache_size <= 2 ^ 20 ->
  pdf_convert_cie_to_iccbased gx_cie_cache_size pdev pca pcs dcsname pciec
    prange one_step pmat pprange st = (Ok tt, st') ->
  let d := stream_data st' (List.length (objects st)) in
  let tables :=
    profile_tables gx_cie_cache_size pdev pcs pciec one_step pmat pprange
      white_d50 in
  d = profile_bytes gx_cie_cache_size tables dcsname pciec /\
  get_uint32 (Stated.slice d 0 4) = Z.of_nat (List.length d) /\
  Z.of_nat (List.length d) mod 4 = 0 /\
  Stated.tag_count d = Z.of_nat (List.length tables) /\
  Z.of_nat (List.length d)
  = 128 + (4 + 12 * Z.of_nat (List.length tables))
    + Stated.zsum (map Stated.pad4 (lengths tables)).
Proof.
  intros Hc Hrun d tables.
  destruct (emitted_parts pdev pca pcs dcsname pciec prange one_step pmat
              pprange st st' Hc Hrun)
    as (Hd & Hb & Hsized & Hlens & Hfit & _).
  fold tables in Hd, Hb, Hsized, Hlens, Hfit. fold d in Hd.
  set (lens := lengths tables) in *.
  set (n := Z.of_nat (List.length tables)) in *.
  set (g := fun t => payload gx_cie_cache_size t pciec ++ padding t) in *.
  set (hd := profile_header _ _ _) in *.
  set (dir := fst (directory tables (132 + 12 * n))) in *.
  assert (Hpos : Forall (fun l => 0 <= l) lens).
  { eapply Forall_impl; [| exact Hlens]. simpl. intros; lia. }
  pose proof (DirectoryFacts.zsum_pad4_nonneg lens Hpos) as Hz.
  assert (Hlen : Z.of_nat (List.length lens) = n).
  { unfold lens, lengths, n. now rewrite length_map. }
  assert (Lh : List.length hd = 128%nat) by apply profile_header_length.
  assert (Ld : Z.of_nat (List.length (set_uint32 n ++ dir)) = 4 + 12 * n).
  { rewrite length_app. unfold dir. rewrite directory_length.
    unfold n. simpl List.length. lia. }
  assert (Lt : Z.of_nat (List.length (flat_map g tables))
               = Stated.zsum (map Stated.pad4 lens)).
  { apply flat_map_sized_length. eapply Forall_impl; [| exact Hsized].
    intros t [Hp Hl]. unfold g. rewrite length_app, Nat2Z.inj_add, Hp.
    now apply padding_length. }
  assert (Ltot : Z.of_nat (List.length d) = Stated.profile_size lens).
  { rewrite Hd. rewrite length_app, Nat2Z.inj_add, Lh.
    rewrite length_app, Nat2Z.inj_add, Ld, Lt.
    unfold Stated.profile_size. rewrite Hlen. lia. }
  split; [now rewrite Hd, Hb |]. split; [| split; [| split]].
  - rewrite Ltot, Hd. rewrite ReaderFacts.slice_inside by (rewrite Lh; lia).
    unfold Stated.profile_size in Hfit. rewrite Hlen in Hfit.
    apply DirectoryFacts.size_field.
    unfold Stated.profile_size. rewrite Hlen. lia.
  - rewrite Ltot. unfold Stated.profile_size.
    pose proof (zsum_pad4_mod4 lens) as M.
    replace (128 + 4 + 12 * Z.of_nat (List.length lens)
             + Stated.zsum (map Stated.pad4 lens))
      with (Stated.zsum (map Stated.pad4 lens)
            + (33 + 3 * Z.of_nat (List.length lens)) * 4) by ring.
    rewrite Z.mod_add by lia. exact M.
  - unfold Stated.tag_count. rewrite Hd.
    change 128%nat with (128 + 0)%nat.
    rewrite (ReaderFacts.slice_skip _ _ 128 0 4 Lh).
    rewrite <- app_assoc.
    change (Stated.slice (set_uint32 n ++ dir ++ flat_map g tables) 0 4)
      with (set_uint32 n).
    apply ReaderFacts.get_set_uint32.
    unfold Stated.profile_size in Hfit. rewrite Hlen in Hfit. lia.
  - rewrite Ltot. unfold Stated.profile_size. rewrite Hlen. lia.
Qed.



(** One entry of the directory, and the bytes it designates. *)
Lemma emitted_entry pdev pca pcs dcsname pciec prange
    one_step pmat pprange st st' (i : nat) (t : profile_table_t) :
  0 <= gx_cie_cache_size <= 2 ^ 20 ->
  pdf_convert_cie_to_iccbased gx_cie_cache_size pdev pca pcs dcsname pciec
    prange one_step pmat pprange st = (Ok tt, st') ->
  nth_error
    (profile_tables gx_cie_cache_size pdev pcs pciec one_step pmat pprange
       white_d50) i = Some t ->
  let d := stream_data st' (List.length (objects st)) in
  let e := Stated.slice d (132 + 12 * i) 12 in
  let off := get_uint32 (Stated.slice e 4 4) in
  let len := get_uint32 (Stated.slice e 8 4) in
  Stated.slice e 0 4 = take_bytes 4 (bytes_of_string (tag t)) /\
  len = length t /\
  off mod 4 = 0 /\
  Stated.slice d (Z.to_nat off) (Z.to_nat len)
  = payload gx_cie_cache_size t pciec /\
  Stated.slice d (Z.to_nat (off + len)) (Z.to_nat (Stated.pad4 len - len))
  = zeros (Z.to_nat (Stated.pad4 len - len)) /\
  off
  = Stated.tag_offset
      (lengths
         (profile_tables gx_cie_cache_size pdev pcs pciec one_step pmat
            pprange white_d50)) i.
Proof.
  intros Hc Hrun Ht d e off len.
  destruct (emitted_parts pdev pca pcs dcsname pciec prange one_step pmat
              pprange st st' Hc Hrun)
    as (Hd & _ & Hsized & Hlens & Hfit & Hentries).
  fold d in Hd.
  set (tables := profile_tables gx_cie_cache_size pdev pcs pciec one_step pmat
                   pprange white_d50) in *.
  set (lens := lengths tables) in *.
  set (n := Z.of_nat (List.length tables)) in *.
  set (g := fun t => payload gx_cie_cache_size t pciec ++ padding t) in *.
  set (hd := profile_header _ _ _) in *.
  set (dir := fst (directory tables (132 + 12 * n))) in *.
  assert (Hpos : Forall (fun l => 0 <= l) lens).
  { eapply Forall_impl; [| exact Hlens]. simpl. intros; lia. }
  assert (Hlen : Z.of_nat (List.length lens) = n).
  { unfold lens, lengths, n. now rewrite length_map. }
  assert (Lh : List.length hd = 128%nat) by apply profile_header_length.
  assert (Ldir : List.length dir = (12 * List.length tables)%nat).
  { unfold dir. apply directory_length. }
  assert (Hi : (i < List.length tables)%nat).
  { apply nth_error_Some. rewrite Ht. discriminate. }
  pose proof (DirectoryFacts.zsum_firstn_le lens i Hpos) as Hzi.
  unfold Stated.profile_size in Hfit. rewrite Hlen in Hfit.
  (* the entry *)
  assert (Ee : e = entry t (Stated.tag_offset lens i)).
  { unfold e. rewrite Hd.
    replace (132 + 12 * i)%nat with (128 + (4 + 12 * i))%nat by lia.
    rewrite (ReaderFacts.slice_skip _ _ 128 _ 12 Lh).
    rewrite <- app_assoc.
    rewrite (ReaderFacts.slice_skip (set_uint32 n) _ 4 _ 12 eq_refl).
    rewrite ReaderFacts.slice_inside by (rewrite Ldir; lia).
    now apply Hentries. }
  assert (Ho : 0 <= Stated.tag_offset lens i < 4294967296).
  { unfold Stated.tag_offset. rewrite Hlen. lia. }
  assert (Hst : Z.of_nat (List.length (payload gx_cie_cache_size t pciec))
                = length t /\ 0 <= length t < 2147483648).
  { rewrite Forall_forall in Hsized. apply Hsized.
    eapply nth_error_In; exact Ht. }
  destruct Hst as [Hp Hl].
  destruct (DirectoryFacts.entry_fields t (Stated.tag_offset lens i) Ho
              ltac:(lia)) as (F0 & F4 & F8).
  rewrite <- Ee in F0, F4, F8. fold off in F4. fold len in F8.
  split; [exact F0 |]. split; [exact F8 |]. split.
  { rewrite F4. unfold Stated.tag_offset. rewrite Hlen.
    pose proof (zsum_pad4_mod4 (firstn i lens)) as M.
    replace (128 + (4 + 12 * n) + Stated.zsum (map Stated.pad4 (firstn i lens)))
      with (Stated.zsum (map Stated.pad4 (firstn i lens)) + (33 + 3 * n) * 4)
      by ring.
    rewrite Z.mod_add by lia. exact M. }
  (* the payload *)
  destruct (nth_error_split tables i Ht) as (l1 & l2 & Etab & Hl1).
  assert (Efirst : firstn i lens = lengths l1).
  { unfold lens, lengths. rewrite Etab, map_app, <- Hl1.
    rewrite <- (length_map length l1). rewrite firstn_app, Nat.sub_diag.
    rewrite firstn_all. simpl. apply app_nil_r. }
  assert (S1 : Forall (fun t => Z.of_nat (List.length (g t))
                               = Stated.pad4 (length t)) l1).
  { rewrite Etab in Hsized. apply Forall_app in Hsized.
    destruct Hsized as [Hs1 _].
    eapply Forall_impl; [| exact Hs1].
    intros x [Hxp Hxl]. unfold g. rewrite length_app, Nat2Z.inj_add, Hxp.
    now apply padding_length. }
  pose proof (flat_map_sized_length g l1 S1) as L1.
  set (prefix := hd ++ (set_uint32 n ++ dir) ++ flat_map g l1).
  assert (Lp : List.length prefix = Z.to_nat off).
  { rewrite F4. unfold prefix, Stated.tag_offset.
    rewrite !length_app, Lh, Ldir, Efirst, <- L1, Hlen. unfold n.
    simpl List.length. lia. }
  assert (Ed : d = prefix ++ payload gx_cie_cache_size t pciec
                   ++ padding t ++ flat_map g l2).
  { rewrite Hd. unfold prefix. rewrite Etab, flat_map_app.
    cbn [flat_map]. unfold g at 2. now rewrite <- !app_assoc. }
  assert (Lpay : List.length (payload gx_cie_cache_size t pciec)
                 = Z.to_nat len) by lia.
  pose proof (padding_length t Hl) as Lpad. rewrite <- F8 in Lpad.
  split; [| split; [| exact F4]].
  - rewrite Ed. rewrite <- (Nat.add_0_r (Z.to_nat off)).
    rewrite (ReaderFacts.slice_skip prefix _ (Z.to_nat off) 0 _ Lp).
    now apply ReaderFacts.slice_take.
  - rewrite Ed, app_assoc.
    assert (Lpp : List.length (prefix ++ payload gx_cie_cache_size t pciec)
                  = Z.to_nat (off + len)).
    { rewrite length_app, Lp, Lpay. rewrite F4, F8. lia. }
    rewrite <- (Nat.add_0_r (Z.to_nat (off + len))).
    rewrite (ReaderFacts.slice_skip _ _ (Z.to_nat (off + len)) 0 _ Lpp).
    assert (Lz : List.length (padding t) = Z.to_nat (Stated.pad4 len - len))
      by lia.
    rewrite (ReaderFacts.slice_take _ _ _ Lz).
    rewrite <- Lz. apply padding_zeros.
Qed.


End EmittedProfile.

Lemma sample_synthesis_succeeds :
  MoreExamples.sample_synthesis = (Ok tt, snd MoreExamples.sample_synthesis).
Proof.
  destruct (TotalFacts.total_pdf_convert_cie_to_iccbased 512 Examples.pdf13
              Examples.pca0 Examples.gray_space "GRAY" Examples.d65_white []
              ONE_STEP_NOT None None (or_introl eq_refl) Examples.st0 eq_refl)
    as ([] & st' & E & _).
  now rewrite E.
Qed.

Lemma sample_curves_succeeds :
  MoreExamples.sample_curves = (Ok tt, snd MoreExamples.sample_curves).
Proof.
  destruct (TotalFacts.total_pdf_convert_cie_to_iccbased 512 Examples.pdf13
              Examples.pca0 Examples.abc_space "RGB " Examples.d65_white []
              ONE_STEP_ABC (Some Examples.rgb_matrix) None
              (or_intror (or_introl eq_refl)) Examples.st0 eq_refl)
    as ([] & st' & E & _).
  now rewrite E.
Qed.

Lemma cache_512 : 0 <= 512 <= 2 ^ 20.
Proof. cbn. lia. Qed.

(** *** The sample inputs stay within the range of the casts *)

Lemma unit_fraction_castable (i n : Z) :
  0 <= i <= n -> 0 < n -> castable (IZR i / IZR n).
Proof.
  intros Hi Hn. unfold castable.
  assert (H0 : (0 <= IZR i)%R) by (apply IZR_le; lia).
  assert (H1 : (IZR i <= IZR n)%R) by (apply IZR_le; lia).
  assert (H2 : (0 < IZR n)%R) by (apply IZR_lt; lia).
  assert (H3 : (0 <= IZR i / IZR n <= 1)%R).
  { split.
    - apply Rmult_le_pos; [lra | left; now apply Rinv_0_lt_compat].
    - apply Rmult_le_reg_r with (IZR n); [lra |]. field_simplify; lra. }
  lra.
Qed.







End LayoutFacts.

(** ** The directory of an emitted profile *)

Module BuilderFacts.
Import Profile Synthesis Streams StreamFacts ProfileFacts ReaderFacts Layout.
Local Open Scope Z_scope.

(** *** The directory loop in the arithmetic of a [uint] *)

Lemma to_uint_add_r (a b : Z) : to_uint (a + to_uint b) = to_uint (a + b).
Proof. unfold to_uint. apply Zplus_mod_idemp_r. Qed.

Lemma to_uint_add_l (a b : Z) : to_uint (to_uint a + b) = to_uint (a + b).
Proof. unfold to_uint. apply Zplus_mod_idemp_l. Qed.

Lemma round_up_wraps (n : Z) : round_up n 4 = to_uint (Stated.pad4 n).
Proof. unfold round_up, Stated.pad4. do 3 f_equal. Qed.

(** With wrap-around, the running offset of the loop is the sum that the
    document describes, as a [uint]. *)
Lemma directory_wraps (tables : list profile_table_t) (offset : Z) :
  to_uint (snd (directory tables offset))
  = to_uint (offset + Stated.zsum (map Stated.pad4 (lengths tables))) /\
  forall (i : nat) (t : profile_table_t),
    nth_error tables i = Some t ->
    exists o : Z,
      Stated.slice (fst (directory tables offset)) (12 * i) 12 = entry t o /\
      to_uint o
      = to_uint (offset
                 + Stated.zsum (map Stated.pad4 (firstn i (lengths tables)))).
Proof.
  revert offset. induction tables as [| t0 tables IH]; intros offset.
  - simpl. split; [now rewrite Z.add_0_r |]. intros [| i] t H; discriminate.
  - rewrite directory_cons. cbn [fst snd].
    destruct (IH (to_uint (offset + round_up (length t0) 4))) as [IHs IHe].
    assert (E : forall z : Z,
              to_uint (to_uint (offset + round_up (length t0) 4) + z)
              = to_uint (offset + (Stated.pad4 (length t0) + z))).
    { intros z. rewrite to_uint_add_l, round_up_wraps.
      rewrite <- Z.add_assoc, (Z.add_comm (to_uint _) z).
      rewrite Z.add_assoc, to_uint_add_r. f_equal. lia. }
    split.
    + rewrite IHs, E. reflexivity.
    + intros [| i] t Ht.
      * inversion Ht; subst. exists offset. split.
        -- apply slice_take, entry_length.
        -- simpl. now rewrite Z.add_0_r.
      * simpl in Ht. destruct (IHe i t Ht) as (o & Ho & Eo).
        exists o. split.
        -- replace (12 * S i)%nat with (12 + 12 * i)%nat by lia.
           rewrite (slice_skip _ _ 12 _ 12 (entry_length _ _)). exact Ho.
        -- rewrite Eo, E. reflexivity.
Qed.

Lemma entry_fields_wrap (t : profile_table_t) (o : Z) :
  Stated.slice (entry t o) 0 4 = take_bytes 4 (bytes_of_string (tag t)) /\
  get_uint32 (Stated.slice (entry t o) 4 4) = to_uint o /\
  get_uint32 (Stated.slice (entry t o) 8 4) = to_uint (length t).
Proof.
  unfold entry. repeat split.
  - apply slice_take, take_bytes_length.
  - change 4%nat with (4 + 0)%nat at 1.
    rewrite (slice_skip _ _ 4 0 4 (take_bytes_length _ _)).
    change (Stated.slice (set_uint32 o ++ set_uint32 (length t)) 0 4)
      with (set_uint32 o).
    apply EncodingFacts.get_set_uint32_wraps.
  - change 8%nat with (4 + (4 + 0))%nat.
    rewrite (slice_skip _ _ 4 (4 + 0) 4 (take_bytes_length _ _)).
    change (Stated.slice (set_uint32 o ++ set_uint32 (length t)) (4 + 0) 4)
      with (set_uint32 (length t)).
    apply EncodingFacts.get_set_uint32_wraps.
Qed.

Lemma last_offset (lens : list Z) (x : Z) (k : nat) :
  nth_error lens k = Some x -> S k = List.length lens ->
  Stated.profile_size lens = Stated.tag_offset lens k + Stated.pad4 x.
Proof.
  intros Hx Hk. unfold Stated.profile_size, Stated.tag_offset.
  assert (E : lens = firstn k lens ++ [x]).
  { rewrite <- (firstn_skipn k lens) at 1. f_equal.
    assert (Hs : List.length (skipn k lens) = 1%nat)
      by (rewrite length_skipn; lia).
    rewrite <- (Nat.add_0_r k) in Hx. rewrite <- nth_error_skipn in Hx.
    destruct (skipn k lens) as [| y [| z r]]; try discriminate.
    simpl in Hx. congruence. }
  rewrite E at 2. rewrite map_app, DirectoryFacts.zsum_app.
  cbn [map Stated.zsum fold_right]. lia.
Qed.

Section Builder.
Variable gx_cie_cache_size : Z.

(** C4: for every sequence of N profile tags with arbitrary declared
    lengths, the directory loop of the builder writes N entries of twelve
    bytes; entry i holds the signature of tag i and, as [uint]s (the fields
    are of 32 bits, so the values are taken modulo 2^32), the start offset
    plus the sum over j < i of round_up(length_j, 4) and the declared length
    of tag i, and the offset the loop ends with is the start plus the sum
    over all j.  In the stream that a successful
    [pdf_convert_cie_to_iccbased] leaves (with a CIE cache of at most 2^20
    entries), where the loop starts at 128 + (4 + 12 N) and nothing wraps
    around, the count N is at offset 128, the count and the directory
    occupy the 4 + 12 N bytes from 128 on, entry i holds the offset
    128 + (4 + 12 N) + the sum over j < i of round_up(length_j, 4) and the
    declared length of tag i, and the size written in the first four bytes
    of the header is 128 + 4 + 12 N + the sum over all j of
    round_up(length_j, 4), which is the length of the stream and the offset
    of the last tag plus its padded length. *)
Theorem directory_offsets_and_size (pdev : gx_device_pdf) (pca : nat)
    (pcs : gs_color_space) (dcsname : string) (pciec : gs_cie_common)
    (prange : list gs_range) (one_step : cie_cache_one_step_t)
    (pmat : option gs_matrix3) (pprange : option (list gs_range))
    (st st' : pdf_state) (tables : list profile_table_t) (offset : Z) :
  0 <= gx_cie_cache_size <= 2 ^ 20 ->
  pdf_convert_cie_to_iccbased gx_cie_cache_size pdev pca pcs dcsname pciec
    prange one_step pmat pprange st = (Ok tt, st') ->
  let d := stream_data st' (List.length (objects st)) in
  let written :=
    profile_tables gx_cie_cache_size pdev pcs pciec one_step pmat pprange
      white_d50 in
  let lens := map length written in
  let n := Z.of_nat (List.length written) in
  (* the profile on the stream *)
  Stated.tag_count d = n /\
  Stated.slice d 128 (Z.to_nat (4 + 12 * n))
  = set_uint32 n ++ fst (directory written (128 + (4 + 12 * n))) /\
  (forall (i : nat) (t : profile_table_t),
     nth_error written i = Some t ->
     let e := Stated.slice d (132 + 12 * i) 12 in
     Stated.slice e 0 4 = take_bytes 4 (bytes_of_string (tag t)) /\
     get_uint32 (Stated.slice e 4 4) = Stated.tag_offset lens i /\
     get_uint32 (Stated.slice e 8 4) = length t) /\
  get_uint32 (Stated.slice d 0 4) = Stated.profile_size lens /\
  Z.of_nat (List.length d) = Stated.profile_size lens /\
  (forall t : profile_table_t,
     nth_error written (List.length written - 1) = Some t ->
     Stated.profile_size lens
     = Stated.tag_offset lens (List.length written - 1)
       + Stated.pad4 (length t)) /\
  (* the directory loop, on every sequence of tables *)
  List.length (fst (directory tables offset)) = (12 * List.length tables)%nat /\
  to_uint (snd (directory tables offset))
  = to_uint (offset + Stated.zsum (map Stated.pad4 (map length tables))) /\
  (forall (i : nat) (t : profile_table_t),
     nth_error tables i = Some t ->
     let e := Stated.slice (fst (directory tables offset)) (12 * i) 12 in
     Stated.slice e 0 4 = take_bytes 4 (bytes_of_string (tag t)) /\
     get_uint32 (Stated.slice e 4 4)
     = to_uint (offset
                + Stated.zsum
                    (map Stated.pad4 (firstn i (map length tables)))) /\
     get_uint32 (Stated.slice e 8 4) = to_uint (length t)).
Proof.
  intros Hc Hrun d written lens n.
  destruct (LayoutFacts.emitted_parts gx_cie_cache_size pdev pca pcs dcsname
              pciec prange one_step pmat pprange st st' Hc Hrun)
    as (Hd & _ & _ & _ & _ & _).
  destruct (LayoutFacts.emitted_size gx_cie_cache_size pdev pca pcs dcsname
              pciec prange one_step pmat pprange st st' Hc Hrun)
    as (_ & Hsize & _ & Hcount & Hlen).
  fold d in Hd, Hsize, Hcount, Hlen. fold written in Hd, Hcount, Hlen.
  change (lengths written) with lens in Hd, Hlen. fold n in Hd, Hcount, Hlen.
  assert (Ll : List.length lens = List.length written)
    by (unfold lens; apply length_map).
  assert (Hps : Z.of_nat (List.length d) = Stated.profile_size lens).
  { rewrite Hlen. unfold Stated.profile_size. rewrite Ll. fold n. lia. }
  split; [exact Hcount |]. split.
  { rewrite Hd.
    set (hd := profile_header _ _ _).
    assert (Lh : List.length hd = 128%nat) by apply profile_header_length.
    change 128%nat with (128 + 0)%nat.
    rewrite (slice_skip hd _ 128 0 _ Lh).
    replace (132 + 12 * n) with (128 + (4 + 12 * n)) by lia.
    apply slice_take. rewrite length_app, directory_length.
    unfold n. simpl List.length. lia. }
  split.
  { intros i t Ht e.
    destruct (LayoutFacts.emitted_entry gx_cie_cache_size pdev pca pcs dcsname
                pciec prange one_step pmat pprange st st' i t Hc Hrun Ht)
      as (H0 & H8 & _ & _ & _ & H4).
    fold d in H0, H8, H4. fold e in H0, H8, H4.
    split; [exact H0 |]. split; [exact H4 | exact H8]. }
  split; [now rewrite Hsize |]. split; [exact Hps |]. split.
  { intros t Ht.
    assert (Hk : (List.length written - 1 < List.length written)%nat)
      by (apply nth_error_Some; congruence).
    apply last_offset; [| lia].
    unfold lens. rewrite nth_error_map, Ht. reflexivity. }
  split; [apply directory_length |].
  destruct (directory_wraps tables offset) as [Hs He].
  split; [exact Hs |].
  intros i t Ht e. destruct (He i t Ht) as (o & Eo & Ho).
  unfold e. rewrite Eo.
  destruct (entry_fields_wrap t o) as (F0 & F4 & F8).
  split; [exact F0 |]. split; [| exact F8].
  rewrite F4. exact Ho.
Qed.

End Builder.

Lemma directory_offsets_and_size_witness :
  get_uint32
    (Stated.slice (stream_data (snd MoreExamples.sample_curves) 1) 0 4)
  = 3540 /\
  Z.of_nat (List.length (stream_data (snd MoreExamples.sample_curves) 1))
  = 3540.
Proof.
  assert (L : map length Examples.trc_tables
              = [96; 20; 13; 1036; 1036; 1036; 20; 20; 20])
    by (lazy; reflexivity).
  destruct (directory_offsets_and_size 512 Examples.pdf13 Examples.pca0
              Examples.abc_space "RGB " Examples.d65_white [] ONE_STEP_ABC
              (Some Examples.rgb_matrix) None Examples.st0
              (snd MoreExamples.sample_curves) [] 0 LayoutFacts.cache_512
              LayoutFacts.sample_curves_succeeds)
    as (_ & _ & _ & Hsize & Hlen & _).
  change (profile_tables 512 Examples.pdf13 Examples.abc_space
            Examples.d65_white ONE_STEP_ABC (Some Examples.rgb_matrix) None
            white_d50) with Examples.trc_tables in Hsize, Hlen.
  rewrite L in Hsize, Hlen.
  split; [exact Hsize | exact Hlen].
Defined.

End BuilderFacts.

Module CurveFacts.
Import Profile Synthesis Streams StreamFacts ProfileFacts Layout Readers.
Local Open Scope Z_scope.

Lemma samples_length (f : nat -> R) (l : list nat) :
  List.length (flat_map (fun i => set_sample16 (f i)) l)
  = (2 * List.length l)%nat.
Proof.
  induction l as [| i l IH]; [reflexivity |].
  cbn [flat_map]. rewrite length_app, IH. simpl. lia.
Qed.

Lemma get_range_skipn (l : list gs_range) (j : nat) :
  get_range (skipn j l) 0 = get_range l j.
Proof. unfold get_range. rewrite nth_skipn. f_equal. lia. Qed.

Section Curves.
Variable gx_cie_cache_size : Z.

(** The payload of a curve table: the type signature, the count and the
    samples of [proc]. *)
Lemma curve_payload (t : profile_table_t) (c pciec : gs_cie_common)
    (proc : R -> R) :
  0 <= gx_cie_cache_size ->
  data t = bytes_of_string "curv" ++ [0; 0; 0; 0]
           ++ set_uint32 (to_uint gx_cie_cache_size) ->
  data_length t = 12 ->
  (write t = Some write_trc_abc_proc /\ proc = DecodeABC c (rgb_to_index t) \/
   write t = Some write_trc_lmn_proc /\ proc = DecodeLMN c (rgb_to_index t)) ->
  write_data t = write_data_cie c ->
  payload gx_cie_cache_size t pciec
  = bytes_of_string "curv" ++ [0; 0; 0; 0] ++ set_uint32 gx_cie_cache_size
    ++ flat_map
         (fun i =>
            set_sample16
              (proc (cache_arg (Z.of_nat i) (gx_cie_cache_size - 1)
                       (deref (ranges t)))))
         (seq 0 (Z.to_nat gx_cie_cache_size)).
Proof.
  intros Hc Hd Hdl Hw Hwd. unfold payload. rewrite Hdl, Hd.
  rewrite EncodingFacts.set_uint32_wraps.
  rewrite take_bytes_exact by reflexivity.
  rewrite <- !app_assoc. do 3 f_equal.
  unfold written_by.
  destruct Hw as [[-> ->] | [-> ->]]; rewrite Hwd; unfold trc_samples;
    apply take_bytes_exact; rewrite samples_length, length_seq; lia.
Qed.

(** The curve tables among the tables of the profile. *)
Lemma curve_table_payload (pdev : gx_device_pdf) (pcs : gs_color_space)
    (pciec : gs_cie_common) (one_step : cie_cache_one_step_t)
    (m : gs_matrix3) (pprange : option (list gs_range)) (c : nat) :
  0 <= gx_cie_cache_size <= 2 ^ 20 ->
  one_step <> ONE_STEP_NOT ->
  (c < 3)%nat ->
  let tables :=
    profile_tables gx_cie_cache_size pdev pcs pciec one_step (Some m) pprange
      white_d50 in
  let proc :=
    match one_step with
    | ONE_STEP_ABC => DecodeABC pciec (Z.of_nat c)
    | _ => DecodeLMN pciec (Z.of_nat c)
    end in
  let range := option_map (fun l => get_range l c) pprange in
  exists t : profile_table_t,
    nth_error tables (3 + c) = Some t /\
    tag t = nth c ["rTRC"; "gTRC"; "bTRC"]%string ""%string /\
    length t = 12 + 2 * gx_cie_cache_size /\
    payload gx_cie_cache_size t pciec
    = bytes_of_string "curv" ++ [0; 0; 0; 0] ++ set_uint32 gx_cie_cache_size
      ++ flat_map
           (fun i =>
              set_sample16
                (proc (cache_arg (Z.of_nat i) (gx_cie_cache_size - 1) range)))
           (seq 0 (Z.to_nat gx_cie_cache_size)).
Proof.
  intros Hc Hs Hlt tables proc range.
  assert (Hl : to_uint (12 + gx_cie_cache_size * 2)
               = 12 + 2 * gx_cie_cache_size).
  { change (2 ^ 20) with 1048576 in Hc.
    rewrite ReaderFacts.to_uint_small; lia. }
  unfold tables, profile_tables.
  destruct (add_a2b0 (gs_color_space_num_components pcs) pcs) as [a pnt].
  destruct c as [| [| [| c]]]; [| | | lia];
    (destruct one_step; [contradiction | |]);
    destruct pprange as [l |];
    eexists; (split; [reflexivity |]); (split; [reflexivity |]);
    (split; [exact Hl |]);
    (etransitivity;
     [ apply (curve_payload _ pciec pciec proc);
       [ lia | reflexivity | reflexivity
       | first [left; split; reflexivity | right; split; reflexivity]
       | reflexivity ]
     | unfold range;
       cbn [ranges set_ranges deref offset_ranges option_map];
       rewrite ?get_range_skipn; reflexivity ]).
Qed.

Lemma signature_bytes (c : nat) (l : list string) :
  (c < 3)%nat ->
  l = ["rTRC"; "gTRC"; "bTRC"]%string ->
  take_bytes 4 (bytes_of_string (nth c l ""%string))
  = bytes_of_string (nth c l ""%string).
Proof.
  intros Hc ->. destruct c as [| [| [| c]]]; [| | | lia]; reflexivity.
Qed.

(** X13: in the stream that a successful [pdf_convert_cie_to_iccbased]
    leaves on the tone-curve path (one_step not ONE_STEP_NOT, a matrix
    given, a CIE cache of at most 2^20 entries), the entries 3, 4 and 5 of
    the directory are rTRC, gTRC and bTRC, of declared length 12 + 2 count.
    When the decode procedure of channel c stays in (-32768, 32768) at the
    sampled arguments, the bytes that entry 3 + c designates are the
    signature curv, four zero bytes, the count gx_cie_cache_size and that
    many 16-bit samples, sample i being [set_sample16] of
    DecodeABC.procs[c] (of DecodeLMN.procs[c] unless one_step is
    ONE_STEP_ABC) at [cache_arg] i of count - 1 over the range c of
    pprange. *)
Theorem curve_tables (pdev : gx_device_pdf) (pca : nat)
    (pcs : gs_color_space) (dcsname : string) (pciec : gs_cie_common)
    (prange : list gs_range) (one_step : cie_cache_one_step_t)
    (m : gs_matrix3) (pprange : option (list gs_range))
    (st st' : pdf_state) (c : nat) :
  0 <= gx_cie_cache_size <= 2 ^ 20 ->
  one_step <> ONE_STEP_NOT ->
  (c < 3)%nat ->
  pdf_convert_cie_to_iccbased gx_cie_cache_size pdev pca pcs dcsname pciec
    prange one_step (Some m) pprange st = (Ok tt, st') ->
  let proc :=
    match one_step with
    | ONE_STEP_ABC => DecodeABC pciec (Z.of_nat c)
    | _ => DecodeLMN pciec (Z.of_nat c)
    end in
  let range := option_map (fun l => get_range l c) pprange in
  (forall i : Z,
     0 <= i < gx_cie_cache_size ->
     (-32768 < proc (cache_arg i (gx_cie_cache_size - 1) range) < 32768)%R) ->
  let d := stream_data st' (List.length (objects st)) in
  let e := Stated.slice d (132 + 12 * (3 + c)) 12 in
  let off := get_uint32 (Stated.slice e 4 4) in
  Stated.slice e 0 4
  = bytes_of_string (nth c ["rTRC"; "gTRC"; "bTRC"]%string ""%string) /\
  get_uint32 (Stated.slice e 8 4) = 12 + 2 * gx_cie_cache_size /\
  Stated.slice d (Z.to_nat off) (Z.to_nat (12 + 2 * gx_cie_cache_size))
  = bytes_of_string "curv" ++ [0; 0; 0; 0] ++ set_uint32 gx_cie_cache_size
    ++ flat_map
         (fun i =>
            set_sample16
              (proc (cache_arg (Z.of_nat i) (gx_cie_cache_size - 1) range)))
         (seq 0 (Z.to_nat gx_cie_cache_size)).
Proof.
  intros Hc Hs Hlt Hrun proc range _ d e off.
  destruct (curve_table_payload pdev pcs pciec one_step m pprange c Hc Hs Hlt)
    as (t & Ht & Htag & Hlen & Hpay).
  destruct (LayoutFacts.emitted_entry gx_cie_cache_size pdev pca pcs dcsname
              pciec prange one_step (Some m) pprange st st' (3 + c) t Hc Hrun
              Ht)
    as (H0 & H8 & _ & Hd & _ & _).
  fold d in H0, H8, Hd. fold e in H0, H8, Hd. fold off in Hd.
  rewrite H8, Hlen in Hd.
  split; [| split].
  - rewrite H0, Htag. now apply signature_bytes.
  - now rewrite H8.
  - rewrite Hd. exact Hpay.
Qed.

End Curves.

Lemma sample_curve_castable (i : Z) :
  0 <= i < 512 ->
  (-32768
   < DecodeABC Examples.d65_white (Z.of_nat 0) (cache_arg i (512 - 1) None)
   < 32768)%R.
Proof.
  intros Hi.
  exact (LayoutFacts.unit_fraction_castable i 511 ltac:(lia) ltac:(lia)).
Qed.

Lemma curve_tables_witness :
  get_uint32
    (Stated.slice
       (Stated.slice (stream_data (snd MoreExamples.sample_curves) 1)
          (132 + 12 * (3 + 0)) 12) 8 4)
  = 12 + 2 * 512.
Proof.
  exact (proj1 (proj2
    (curve_tables 512 Examples.pdf13 Examples.pca0 Examples.abc_space "RGB "
       Examples.d65_white [] ONE_STEP_ABC Examples.rgb_matrix None
       Examples.st0 (snd MoreExamples.sample_curves) 0 LayoutFacts.cache_512
       ltac:(discriminate) ltac:(lia) LayoutFacts.sample_curves_succeeds
       sample_curve_castable))).
Defined.

(** *** The shape of a curve *)

Local Open Scope R_scope.

(** X14: the samples of a curve of n > 1 points whose decode
    procedure is non-decreasing on the range, with values in
    (-32768, 32768), are non-decreasing and within [0, 65535]; the first is
    the sample of proc(rmin) and the last that of proc(rmax): 0 when
    proc(rmin) <= 0, and 65535 when proc(rmax) >= 1. *)
Theorem monotone_decode_gives_monotone_curve (proc : R -> R)
    (range : option gs_range) (n i j : Z) :
  (1 < n)%Z -> (0 <= i <= j)%Z -> (j < n)%Z ->
  let lo := match range with Some r => rmin r | None => 0 end in
  let hi := match range with Some r => rmax r | None => 1 end in
  let sample (k : Z) :=
    get_uint16 (set_sample16 (proc (cache_arg k (n - 1) range))) in
  lo <= hi ->
  (forall x y : R, lo <= x <= y -> y <= hi -> proc x <= proc y) ->
  (forall x : R, lo <= x <= hi -> -32768 < proc x < 32768) ->
  (0 <= sample i <= sample j)%Z /\
  (sample j <= 65535)%Z /\
  sample 0%Z = get_uint16 (set_sample16 (proc lo)) /\
  sample (n - 1)%Z = get_uint16 (set_sample16 (proc hi)) /\
  (proc lo <= 0 -> sample 0%Z = 0%Z) /\
  (1 <= proc hi -> sample (n - 1)%Z = 65535%Z).
Proof.
  intros Hn Hi Hj lo hi sample Hr Hmono Hint.
  destruct (EncodingFacts.cache_arg_order i j (n - 1) range
              ltac:(lia) Hi ltac:(lia) Hr) as (A & B & C).
  destruct (EncodingFacts.cache_arg_ends (n - 1) range ltac:(lia))
    as [E0 E1].
  fold lo in A, E0. fold hi in C, E1.
  assert (M : proc (cache_arg i (n - 1) range)
              <= proc (cache_arg j (n - 1) range)).
  { apply Hmono; lra. }
  unfold sample. rewrite !EncodingFacts.get_uint16_set_sample16, E0, E1.
  pose proof (EncodingFacts.int_of_double_mono _ _
                (Rmult_le_compat_r 65535 _ _ ltac:(lra) M)) as Mi.
  split; [lia |]. split; [lia |].
  split; [reflexivity |]. split; [reflexivity |]. split.
  - intros H0.
    destruct (EncodingFacts.int_of_double_trunc (proc lo * 65535)) as [P N].
    destruct (Rle_dec 0 (proc lo * 65535)) as [Hx | Hx].
    + destruct (P Hx) as [[P1 P2] P3].
      assert (D : IZR (C.int_of_double (proc lo * 65535)) < 1) by lra.
      apply lt_IZR in D. lia.
    + assert (Hx' : proc lo * 65535 < 0) by lra.
      destruct (N Hx') as [_ P3]. lia.
  - intros H1.
    destruct (EncodingFacts.int_of_double_trunc (proc hi * 65535)) as [P _].
    assert (Hx : 0 <= proc hi * 65535) by lra.
    destruct (P Hx) as [[P1 P2] P3].
    assert (D : 65534 < IZR (C.int_of_double (proc hi * 65535))) by lra.
    apply lt_IZR in D. lia.
Qed.

Lemma monotone_decode_gives_monotone_curve_witness :
  get_uint16 (set_sample16 ((fun x : R => x) (cache_arg 511 (512 - 1) None)))
  = 65535%Z.
Proof.
  refine (proj2 (proj2 (proj2 (proj2 (proj2
    (monotone_decode_gives_monotone_curve (fun x => x) None 512 0 0
       _ _ _ _ _ _)))))  _); try lia; try lra;
    intros; lra.
Defined.

End CurveFacts.

Module WhiteMapFacts.
Import Profile Synthesis Layout.
Local Open Scope R_scope.

Lemma vector_eq (a b : gs_vector3) :
  u a = u b -> v a = v b -> w a = w b -> a = b.
Proof. destruct a, b. simpl. now intros -> -> ->. Qed.

(** X15: for white points without a zero component, [adjust_wp] maps the
    source white point to the destination white point, is the identity when
    the two agree, composes (from a to b and then from b to d is from a to
    d), and is linear in the colour. *)
Theorem adjust_wp_composes (c c' a b d : gs_vector3) :
  u a <> 0 -> v a <> 0 -> w a <> 0 ->
  u b <> 0 -> v b <> 0 -> w b <> 0 ->
  adjust_wp a a b = b /\
  adjust_wp c a a = c /\
  adjust_wp (adjust_wp c a b) b d = adjust_wp c a d /\
  adjust_wp (vadd c c') a b = vadd (adjust_wp c a b) (adjust_wp c' a b) /\
  (forall k : R, adjust_wp (vscale k c) a b = vscale k (adjust_wp c a b)).
Proof.
  intros Hu Hv Hw Hu' Hv' Hw'.
  repeat split; try intros k; apply vector_eq;
    unfold adjust_wp, vadd, vscale; cbn [u v w]; field; repeat split; assumption.
Qed.

Lemma adjust_wp_composes_witness :
  adjust_wp (WhitePoint (points Examples.d65_white))
    (WhitePoint (points Examples.d65_white)) white_d50
  = white_d50.
Proof.
  refine (proj1 (adjust_wp_composes Examples.black Examples.black
                   (WhitePoint (points Examples.d65_white)) white_d50
                   white_d50 _ _ _ _ _ _));
    unfold Examples.d65_white, white_d50; cbn [u v w WhitePoint points]; lra.
Defined.


Section Colorants.
Variable gx_cie_cache_size : Z.


End Colorants.


End WhiteMapFacts.

Module ObjectFacts.
Import Streams StreamFacts.
Local Open Scope cos_scope.

(** A fallible change of one object either happens or leaves the objects as
    they were. *)
Lemma fallible_modify_inv {p f st r st'} :
  fallible (modify p f) st = (r, st') ->
  (r = Ok tt /\ objects st' = update (objects st) p f) \/
  (exists e, r = Error e /\ objects st' = objects st).
Proof.
  intros H. destruct (fallible_inv H) as (flt & st1 & Hn & Hr).
  pose proof (next_fault_objects Hn) as O1.
  destruct flt as [e |]; destruct Hr as [-> ->].
  - right. eauto.
  - left. split; [reflexivity |]. unfold modify. simpl. now rewrite O1.
Qed.

Lemma update_update {A} (l : list A) (i : nat) (f g : A -> A) :
  update (update l i f) i g = update l i (fun x => g (f x)).
Proof.
  revert i. induction l as [| x l IH]; intros [| i]; simpl; auto.
  now rewrite IH.
Qed.

Lemma update_ext {A} (l : list A) (i : nat) (f g : A -> A) :
  (forall x, f x = g x) -> update l i f = update l i g.
Proof.
  intros H. revert i. induction l as [| x l IH]; intros [| i]; simpl; auto.
  - now rewrite H.
  - now rewrite IH.
Qed.

Lemma update_last {A} (l : list A) (x : A) (f : A -> A) :
  update (l ++ [x]) (List.length l) f = l ++ [f x].
Proof. induction l as [| y l IH]; simpl; [reflexivity | now rewrite IH]. Qed.

Lemma update_app_l {A} (l l' : list A) (i : nat) (f : A -> A) :
  (i < List.length l)%nat -> update (l ++ l') i f = update l i f ++ l'.
Proof.
  revert i. induction l as [| y l IH]; intros [| i] H; simpl in *;
    try lia; [reflexivity |].
  rewrite IH by lia. reflexivity.
Qed.

Lemma update_out {A} (l : list A) (i : nat) (f : A -> A) :
  (List.length l <= i)%nat -> update l i f = l.
Proof.
  revert i. induction l as [| y l IH]; intros [| i] H; simpl in *;
    try lia; try reflexivity.
  rewrite IH by lia. reflexivity.
Qed.

Lemma alloc_inv {o st r st'} :
  alloc o st = (r, st') ->
  (r = Some (List.length (objects st)) /\ objects st' = objects st ++ [o]) \/
  (r = None /\ objects st' = objects st).
Proof.
  unfold alloc. destruct (next_fault st) as [[e |] st1] eqn:E; intros H;
    inversion H; subst; pose proof (next_fault_objects E) as O1.
  - right. auto.
  - left. simpl. rewrite O1. auto.
Qed.

End ObjectFacts.

Module RangeFacts.
Import Streams StreamFacts ObjectFacts Ranges.
Local Open Scope cos_scope.

(** The two numbers that [pdf_cie_add_ranges] adds for a range. *)
Lemma clamped_pair (clamp : bool) (r : gs_range) :
  ((if clamp then (if Rlt_dec (rmin r) 0 then 0%R else rmin r) else rmin r)
   = (if clamp then Rmax 0 (rmin r) else rmin r)) /\
  ((if clamp then (if Rgt_dec (rmax r) 1 then 1%R else rmax r) else rmax r)
   = (if clamp then Rmin 1 (rmax r) else rmax r)).
Proof.
  destruct clamp; [| auto]. split.
  - destruct (Rlt_dec (rmin r) 0).
    + rewrite Rmax_left; [reflexivity | lra].
    + rewrite Rmax_right; [reflexivity | lra].
  - destruct (Rgt_dec (rmax r) 1).
    + rewrite Rmin_left; [reflexivity | lra].
    + rewrite Rmin_right; [reflexivity | lra].
Qed.


Lemma update_id {A} (l : list A) (i : nat) : update l i (fun x => x) = l.
Proof.
  revert i. induction l as [| x l IH]; intros [| i]; simpl; auto.
  now rewrite IH.
Qed.

Lemma push_all_array (xs ys : list cos_value_t) :
  fold_left (fun o x => array_push x o) xs (cos_array ys) = cos_array (ys ++ xs).
Proof.
  revert ys. induction xs as [| x xs IH]; intros ys; simpl.
  - now rewrite app_nil_r.
  - rewrite IH, <- app_assoc. reflexivity.
Qed.

(** The loop only adds to the array, and when it succeeds it has added the
    two bounds of every range. *)
Lemma add_ranges_loop_inv pca l clamp st r st' :
  add_ranges_loop pca l clamp st = (r, st') ->
  exists xs,
    objects st'
    = update (objects st) pca
        (fun o => fold_left (fun o x => array_push x o) xs o) /\
    (r = Ok tt -> xs = range_values clamp l).
Proof.
  revert st. induction l as [| x l IH]; intros st H.
  - inversion H; subst. exists []. simpl. now rewrite update_id.
  - cbn [add_ranges_loop] in H. cbv zeta in H.
    destruct (clamped_pair clamp x) as [E1 E2]. rewrite E1, E2 in H.
    destruct (bind_inv H) as [([] & st1 & H1 & H2) | (e & H1 & ->)].
    + destruct (fallible_modify_inv H1) as [[_ O1] | (e & Habs & _)];
        [| discriminate].
      destruct (bind_inv H2) as [([] & st2 & H3 & H4) | (e & H3 & ->)].
      * destruct (fallible_modify_inv H3) as [[_ O2] | (e & Habs & _)];
          [| discriminate].
        destruct (IH _ H4) as (xs & O3 & Hxs).
        eexists (_ :: _ :: xs). split.
        -- rewrite O3, O2, O1, !update_update. reflexivity.
        -- intros Hr. rewrite (Hxs Hr). reflexivity.
      * destruct (fallible_modify_inv H3) as [[Habs _] | (e' & _ & O2)];
          [discriminate |].
        eexists [_]. split; [| discriminate].
        rewrite O2, O1. reflexivity.
    + destruct (fallible_modify_inv H1) as [[Habs _] | (e' & _ & O1)];
        [discriminate |].
      exists []. split; [| discriminate]. simpl. now rewrite update_id.
Qed.

(** The outcomes of [pdf_cie_add_ranges], in terms of the objects. *)
Lemma pdf_cie_add_ranges_inv pdev pcd prange n clamp st r st' :
  pdf_cie_add_ranges pdev pcd prange n clamp st = (r, st') ->
  match r with
  | Ok _ =>
      objects st'
      = update
          (objects st
           ++ [cos_array (range_values clamp (firstn (Z.to_nat n) prange))])
          pcd
          (dict_put "/Range" (cos_object_value (List.length (objects st))))
  | Error e =>
      (e = gs_error_VMerror /\ objects st' = objects st) \/
      objects st' = objects st ++ [cos_freed]
  end.
Proof.
  unfold pdf_cie_add_ranges, cos_array_alloc. intros H.
  destruct (alloc (cos_array []) st) as [[pca |] st1] eqn:Ea.
  - destruct (alloc_inv Ea) as [[Ep O1] | [Habs _]]; [| discriminate].
    inversion Ep; subst pca. clear Ep.
    destruct (add_ranges_loop _ _ clamp st1) as [code st2] eqn:El.
    destruct (add_ranges_loop_inv _ _ _ _ _ _ El) as (xs & O2 & Hxs).
    rewrite O1, update_last, push_all_array in O2. simpl app in O2.
    destruct code as [[] | e].
    + rewrite (Hxs eq_refl) in O2.
      unfold cos_dict_put_c_key_object, cos_dict_put_c_key in H.
      destruct (fallible _ st2) as [code3 st3] eqn:Ep.
      destruct (fallible_modify_inv Ep) as [[-> O3] | (e & -> & O3)];
        inversion H; subst.
      * rewrite O3, O2. reflexivity.
      * right. unfold COS_FREE, modify. simpl.
        rewrite O3, O2. apply update_last.
    + inversion H; subst. right. unfold COS_FREE, modify. simpl.
      rewrite O2. apply update_last.
  - destruct (alloc_inv Ea) as [[Habs _] | [_ O1]]; [discriminate |].
    inversion H; subst. left. auto.
Qed.

Lemma pdf_cie_add_ranges_puts_range_aux (pdev : gx_device_pdf) (pcd : nat)
    (prange : list gs_range) (n : Z) (clamp : bool) (st st' : pdf_state)
    (entries : list (string * cos_value_t)) :
  nth_error (objects st) pcd = Some (cos_dict entries) ->
  pdf_cie_add_ranges pdev pcd prange n clamp st = (Ok tt, st') ->
  let pca := List.length (objects st) in
  let vals := range_values clamp (firstn (Z.to_nat n) prange) in
  nth_error (objects st') pca = Some (cos_array vals) /\
  nth_error (objects st') pcd
  = Some (cos_dict (entries ++ [("/Range"%string, cos_object_value pca)])) /\
  List.length (objects st') = S (List.length (objects st)) /\
  List.length vals
  = (2 * Nat.min (Z.to_nat n) (List.length prange))%nat /\
  (forall i : nat,
     i <> pcd -> (i < pca)%nat ->
     nth_error (objects st') i = nth_error (objects st) i).
Proof.
  intros Hd H pca vals.
  pose proof (pdf_cie_add_ranges_inv _ _ _ _ _ _ _ _ H) as O.
  cbv beta iota in O. fold pca vals in O.
  assert (Hlt : (pcd < pca)%nat).
  { unfold pca. apply nth_error_Some. rewrite Hd. discriminate. }
  rewrite O. split; [| split; [| split; [| split]]].
  - rewrite nth_error_update.
    destruct (Nat.eqb_spec pcd pca) as [E | _]; [lia |].
    unfold pca. rewrite nth_error_app2, Nat.sub_diag by lia. reflexivity.
  - rewrite nth_error_update, Nat.eqb_refl, nth_error_app1 by exact Hlt.
    rewrite Hd. reflexivity.
  - rewrite length_update, length_app. simpl. lia.
  - unfold vals, range_values.
    assert (L : forall l : list gs_range,
              List.length
                (flat_map
                   (fun r =>
                      [cos_real_value (if clamp then Rmax 0 (rmin r) else rmin r);
                       cos_real_value (if clamp then Rmin 1 (rmax r) else rmax r)])
                   l)
              = (2 * List.length l)%nat).
    { induction l as [| x l IH]; simpl; [reflexivity | rewrite IH; lia]. }
    rewrite L, length_firstn. reflexivity.
  - intros i Hi Hip. rewrite nth_error_update.
    destruct (Nat.eqb_spec pcd i) as [E | _]; [congruence |].
    now rewrite nth_error_app1.
Qed.

(** X17: a successful [pdf_cie_add_ranges] on a dictionary leaves one
    new array, allocated last, that holds the two bounds of each of the
    first n ranges in order (with clamp, the lower bound raised to 0 and the
    upper bound lowered to 1); the dictionary gains the entry /Range, a
    reference to that array, after the entries it had; no other object
    changes. *)
Theorem pdf_cie_add_ranges_puts_range (pdev : gx_device_pdf) (pcd : nat)
    (prange : list gs_range) (n : Z) (clamp : bool) (st st' : pdf_state)
    (entries : list (string * cos_value_t)) :
  nth_error (objects st) pcd = Some (cos_dict entries) ->
  pdf_cie_add_ranges pdev pcd prange n clamp st = (Ok tt, st') ->
  let pca := List.length (objects st) in
  let vals := range_values clamp (firstn (Z.to_nat n) prange) in
  nth_error (objects st') pca = Some (cos_array vals) /\
  nth_error (objects st') pcd
  = Some (cos_dict (entries ++ [("/Range"%string, cos_object_value pca)])) /\
  List.length (objects st') = S (List.length (objects st)) /\
  List.length vals
  = (2 * Nat.min (Z.to_nat n) (List.length prange))%nat /\
  (forall i : nat,
     i <> pcd -> (i < pca)%nat ->
     nth_error (objects st') i = nth_error (objects st) i).
Proof.
  exact (pdf_cie_add_ranges_puts_range_aux pdev pcd prange n clamp st st'
           entries).
Qed.


Lemma pdf_cie_add_ranges_failure_aux (pdev : gx_device_pdf) (pcd : nat)
    (prange : list gs_range) (n : Z) (clamp : bool) (st st' : pdf_state)
    (e : gs_error) :
  pdf_cie_add_ranges pdev pcd prange n clamp st = (Error e, st') ->
  (forall i : nat,
     (i < List.length (objects st))%nat ->
     nth_error (objects st') i = nth_error (objects st) i) /\
  (nth_error (objects st') (List.length (objects st)) = None /\
   e = gs_error_VMerror \/
   nth_error (objects st') (List.length (objects st)) = Some cos_freed) /\
  (List.length (objects st') <= S (List.length (objects st)))%nat.
Proof.
  intros H.
  pose proof (pdf_cie_add_ranges_inv _ _ _ _ _ _ _ _ H) as O.
  cbv beta iota in O. destruct O as [[-> O] | O]; rewrite O.
  - split; [auto |]. split; [| lia].
    left. split; [| reflexivity]. apply nth_error_None. lia.
  - split; [| split].
    + intros i Hi. now rewrite nth_error_app1.
    + right. rewrite nth_error_app2, Nat.sub_diag by lia. reflexivity.
    + rewrite length_app. simpl. lia.
Qed.

(** X18: a failed [pdf_cie_add_ranges] leaves every object that existed
    as it was; the array it had allocated is freed, or none was allocated,
    which is the case of a VMerror from the allocation; at most one object
    is added. *)
Theorem pdf_cie_add_ranges_failure (pdev : gx_device_pdf) (pcd : nat)
    (prange : list gs_range) (n : Z) (clamp : bool) (st st' : pdf_state)
    (e : gs_error) :
  pdf_cie_add_ranges pdev pcd prange n clamp st = (Error e, st') ->
  (forall i : nat,
     (i < List.length (objects st))%nat ->
     nth_error (objects st') i = nth_error (objects st) i) /\
  (nth_error (objects st') (List.length (objects st)) = None /\
   e = gs_error_VMerror \/
   nth_error (objects st') (List.length (objects st)) = Some cos_freed) /\
  (List.length (objects st') <= S (List.length (objects st)))%nat.
Proof.
  exact (pdf_cie_add_ranges_failure_aux pdev pcd prange n clamp st st' e).
Qed.


Lemma sample_add_ranges_succeeds :
  pdf_cie_add_ranges Examples.pdf13 0 [RangeExamples.wide_range] 1 true
    RangeExamples.st_dict
  = (Ok tt,
     snd (pdf_cie_add_ranges Examples.pdf13 0 [RangeExamples.wide_range] 1 true
            RangeExamples.st_dict)).
Proof. reflexivity. Qed.

Lemma pdf_cie_add_ranges_puts_range_witness :
  nth_error
    (objects
       (snd (pdf_cie_add_ranges Examples.pdf13 0 [RangeExamples.wide_range] 1
               true RangeExamples.st_dict))) 2
  = Some (cos_array (range_values true [RangeExamples.wide_range])).
Proof.
  exact (proj1
    (pdf_cie_add_ranges_puts_range Examples.pdf13 0
       [RangeExamples.wide_range] 1 true RangeExamples.st_dict _ []
       eq_refl sample_add_ranges_succeeds)).
Defined.

Lemma sample_add_ranges_fails :
  pdf_cie_add_ranges Examples.pdf13 0 [RangeExamples.wide_range] 1 true
    RangeExamples.st_dict_fault
  = (Error gs_error_VMerror,
     snd (pdf_cie_add_ranges Examples.pdf13 0 [RangeExamples.wide_range] 1 true
            RangeExamples.st_dict_fault)).
Proof. reflexivity. Qed.

Lemma pdf_cie_add_ranges_failure_witness :
  (List.length
     (objects
        (snd (pdf_cie_add_ranges Examples.pdf13 0 [RangeExamples.wide_range] 1
                true RangeExamples.st_dict_fault)))
   <= 3)%nat.
Proof.
  exact (proj2 (proj2
    (pdf_cie_add_ranges_failure Examples.pdf13 0
       [RangeExamples.wide_range] 1 true RangeExamples.st_dict_fault _ _
       sample_add_ranges_fails))).
Defined.

(** X19: [pdf_put_lab_color_space] on an array and a dictionary, with
    ranges[0 .. 2]: when it succeeds, the array ends with /Lab and the
    dictionary gains a /Range whose array holds ranges[1].rmin,
    ranges[1].rmax, ranges[2].rmin, ranges[2].rmax, not clamped (ranges[0]
    is not used); when it fails, the dictionary is as it was, no new array
    is left alive, and the array is as it was or ends with /Lab already. *)
Theorem pdf_put_lab_color_space_result (pdev : gx_device_pdf) (pca pcd : nat)
    (r0 r1 r2 : gs_range) (st : pdf_state)
    (elements : list cos_value_t) (entries : list (string * cos_value_t)) :
  nth_error (objects st) pca = Some (cos_array elements) ->
  nth_error (objects st) pcd = Some (cos_dict entries) ->
  let run := pdf_put_lab_color_space pdev pca pcd [r0; r1; r2] st in
  let q := List.length (objects st) in
  (fst run = Ok tt ->
   nth_error (objects (snd run)) pca
   = Some (cos_array (elements ++ [cos_c_string_value "/Lab"])) /\
   nth_error (objects (snd run)) pcd
   = Some (cos_dict (entries ++ [("/Range"%string, cos_object_value q)])) /\
   nth_error (objects (snd run)) q
   = Some (cos_array
             [ cos_real_value (rmin r1); cos_real_value (rmax r1);
               cos_real_value (rmin r2); cos_real_value (rmax r2) ])) /\
  (fst run <> Ok tt ->
   nth_error (objects (snd run)) pcd = Some (cos_dict entries) /\
   (nth_error (objects (snd run)) pca = Some (cos_array elements) \/
    nth_error (objects (snd run)) pca
    = Some (cos_array (elements ++ [cos_c_string_value "/Lab"]))) /\
   (nth_error (objects (snd run)) q = None \/
    nth_error (objects (snd run)) q = Some cos_freed)).
Proof.
  intros Ha Hd run q.
  assert (Hpa : (pca < q)%nat).
  { unfold q. apply nth_error_Some. rewrite Ha. discriminate. }
  assert (Hpd : (pcd < q)%nat).
  { unfold q. apply nth_error_Some. rewrite Hd. discriminate. }
  assert (Hne : pca <> pcd) by (intros E; rewrite E in Ha; congruence).
  destruct run as [r st'] eqn:Erun. unfold run in Erun. clear run.
  cbn [fst snd]. unfold pdf_put_lab_color_space in Erun.
  destruct (bind_inv Erun) as [([] & st1 & H1 & H2) | (e & H1 & ->)].
  - destruct (fallible_modify_inv H1) as [[_ O1] | (e & Habs & _)];
      [| discriminate].
    assert (L1 : List.length (objects st1) = q).
    { rewrite O1. apply length_update. }
    assert (A1 : nth_error (objects st1) pca
                 = Some (cos_array (elements ++ [cos_c_string_value "/Lab"]))).
    { rewrite O1, nth_error_update, Nat.eqb_refl, Ha. reflexivity. }
    assert (D1 : nth_error (objects st1) pcd = Some (cos_dict entries)).
    { rewrite O1, nth_error_update.
      destruct (Nat.eqb_spec pca pcd); [contradiction | exact Hd]. }
    destruct r as [[] | e].
    + destruct (pdf_cie_add_ranges_puts_range_aux pdev pcd _ _ _ _ _ entries
                  D1 H2) as (Q & D & _ & _ & Others).
      rewrite L1 in Q, D, Others.
      split; [| intros C; now contradiction C].
      intros _. split; [| split; [exact D | exact Q]].
      rewrite (Others pca Hne Hpa). exact A1.
    + split; [discriminate |]. intros _.
      destruct (pdf_cie_add_ranges_failure_aux pdev pcd _ _ _ _ _ _ H2)
        as (Same & Last & _).
      rewrite L1 in Same, Last.
      split; [rewrite (Same pcd Hpd); exact D1 |].
      split; [right; rewrite (Same pca Hpa); exact A1 |].
      destruct Last as [[N _] | F]; auto.
  - destruct (fallible_modify_inv H1) as [[Habs _] | (e' & _ & O1)];
      [discriminate |].
    split; [discriminate |]. intros _. rewrite O1.
    split; [exact Hd |]. split; [left; exact Ha |].
    left. apply nth_error_None. unfold q. lia.
Qed.

Lemma sample_put_lab_succeeds :
  fst (pdf_put_lab_color_space Examples.pdf13 1 0 RangeExamples.lab_ranges
         RangeExamples.st_dict) = Ok tt.
Proof. reflexivity. Qed.

Lemma pdf_put_lab_color_space_result_witness :
  nth_error
    (objects
       (snd (pdf_put_lab_color_space Examples.pdf13 1 0
               RangeExamples.lab_ranges RangeExamples.st_dict))) 1
  = Some (cos_array ([] ++ [cos_c_string_value "/Lab"])).
Proof.
  exact (proj1 (proj1
    (pdf_put_lab_color_space_result Examples.pdf13 1 0
       {| rmin := 0; rmax := 100 |} {| rmin := -128; rmax := 127 |}
       {| rmin := -100; rmax := 100 |} RangeExamples.st_dict [] []
       eq_refl eq_refl) sample_put_lab_succeeds)).
Defined.

End RangeFacts.

Module LabRangeFacts.
Import Streams StreamFacts ObjectFacts Staging.
Local Open Scope cos_scope.
Local Open Scope R_scope.

Lemma c_min_le (a b : R) : C.min a b <= a /\ C.min a b <= b.
Proof. unfold C.min. destruct (Rlt_dec a b); lra. Qed.

Lemma c_max_ge (a b : R) : a <= C.max a b /\ b <= C.max a b.
Proof. unfold C.max. destruct (Rlt_dec b a); lra. Qed.

Section Extrema.
Variable pcs : gs_color_space.
Variable pgs : gs_gstate.
Variable pciec : gs_cie_common.
Variable ranges : list gs_range.

Lemma lab_range_step_shape (a b c : gs_range) (i : Z) :
  lab_range_step pcs pgs pciec ranges [a; b; c] i
  = [ a;
      {| rmin := C.min (rmin b) (idx (lab_at pcs pgs pciec ranges i) 1);
         rmax := C.max (rmax b) (idx (lab_at pcs pgs pciec ranges i) 1) |};
      {| rmin := C.min (rmin c) (idx (lab_at pcs pgs pciec ranges i) 2);
         rmax := C.max (rmax c) (idx (lab_at pcs pgs pciec ranges i) 2) |} ].
Proof. reflexivity. Qed.

Lemma lab_range_fold (l : list Z) (a b c : gs_range) :
  exists b' c' : gs_range,
    fold_left (lab_range_step pcs pgs pciec ranges) l [a; b; c]
    = [a; b'; c'] /\
    rmin b' <= rmin b /\ rmax b <= rmax b' /\
    rmin c' <= rmin c /\ rmax c <= rmax c' /\
    forall i : Z, In i l ->
      rmin b' <= idx (lab_at pcs pgs pciec ranges i) 1 <= rmax b' /\
      rmin c' <= idx (lab_at pcs pgs pciec ranges i) 2 <= rmax c'.
Proof.
  revert b c. induction l as [| i l IH]; intros b c.
  - exists b, c. simpl. repeat split; try lra; contradiction.
  - cbn [fold_left]. rewrite lab_range_step_shape.
    set (lab := lab_at pcs pgs pciec ranges i).
    destruct (IH
      {| rmin := C.min (rmin b) (idx lab 1);
         rmax := C.max (rmax b) (idx lab 1) |}
      {| rmin := C.min (rmin c) (idx lab 2);
         rmax := C.max (rmax c) (idx lab 2) |})
      as (b' & c' & E & B1 & B2 & C1 & C2 & Hin).
    cbn [rmin rmax] in B1, B2, C1, C2.
    pose proof (c_min_le (rmin b) (idx lab 1)) as [M1 M2].
    pose proof (c_max_ge (rmax b) (idx lab 1)) as [M3 M4].
    pose proof (c_min_le (rmin c) (idx lab 2)) as [M5 M6].
    pose proof (c_max_ge (rmax c) (idx lab 2)) as [M7 M8].
    subst lab. exists b', c'. split; [exact E |].
    repeat split; try lra;
      destruct H as [<- | H]; try lra; now apply Hin.
Qed.

End Extrema.

(** X20: [lab_range], when it returns, leaves range_out[0] as it was,
    changes no object, and gives in range_out[1] and range_out[2] bounds
    that enclose lab[1] and lab[2] of [xyz_to_lab] at every one of the
    2^ncomp extrema of the domain, converted by [cie_to_xyz] in the
    graphics state that [gx_cie_to_xyz_alloc] returned. *)
Theorem lab_range_encloses_extrema (a b c : gs_range) (pcs : gs_color_space)
    (pciec : gs_cie_common) (ranges : list gs_range)
    (st st' : pdf_state) (range_out : list gs_range) :
  lab_range [a; b; c] pcs pciec ranges st = (Ok range_out, st') ->
  let ncomp := gs_color_space_num_components pcs in
  exists b' c' : gs_range,
    range_out = [a; b'; c'] /\
    objects st' = objects st /\
    forall i : Z,
      (0 <= i < 2 ^ ncomp)%Z ->
      let lab :=
        xyz_to_lab
          (snd (cie_to_xyz (corner ranges ncomp i) pcs staging_gstate
                  pciec))
          pciec in
      rmin b' <= idx lab 1 <= rmax b' /\
      rmin c' <= idx lab 2 <= rmax c'.
Proof.
  intros H ncomp. unfold lab_range in H.
  destruct (bind_ok_inv H) as (pgs0 & st1 & H1 & H2). clear H.
  inversion H2; subst. clear H2.
  unfold gx_cie_to_xyz_alloc in H1.
  destruct (bind_ok_inv H1) as ([] & st2 & H3 & H4).
  assert (Epgs : pgs0 = staging_gstate) by (inversion H4; reflexivity).
  assert (O1 : objects st1 = objects st).
  { inversion H4; subst.
    destruct (fallible_inv H3) as (flt & st0 & Hn & Hr).
    destruct flt; destruct Hr as [Hr ->]; [discriminate |].
    exact (next_fault_objects Hn). }
  destruct (lab_range_fold pcs pgs0 pciec ranges
              (map Z.of_nat
                 (seq 0
                    (Z.to_nat
                       (Z.shiftl 1 (gs_color_space_num_components pcs)))))
              a {| rmin := 1000; rmax := -1000 |}
              {| rmin := 1000; rmax := -1000 |})
    as (b' & c' & E & _ & _ & _ & _ & Hin).
  exists b', c'. split; [exact E |]. split; [exact O1 |].
  subst pgs0. intros i Hi lab.
  apply (Hin i). apply in_map_iff. exists (Z.to_nat i).
  split; [lia |]. apply in_seq. rewrite Z.shiftl_1_l. fold ncomp. lia.
Qed.

Lemma sample_lab_range_returns :
  exists (ro : list gs_range) (st' : pdf_state),
    lab_range RangeExamples.lab_ranges Examples.gray_space Examples.d65_white
      [{| rmin := 0; rmax := 1 |}] Examples.st0 = (Ok ro, st').
Proof. eexists _, _. reflexivity. Qed.

Lemma lab_range_encloses_extrema_witness :
  exists (ro : list gs_range) (b' c' : gs_range),
    fst (lab_range RangeExamples.lab_ranges Examples.gray_space
           Examples.d65_white [{| rmin := 0; rmax := 1 |}] Examples.st0)
    = Ok ro /\
    ro = [{| rmin := 0; rmax := 100 |}; b'; c'].
Proof.
  destruct sample_lab_range_returns as (ro & st' & E).
  destruct (lab_range_encloses_extrema _ _ _ _ _ _ _ _ _ E)
    as (b' & c' & Hro & _).
  exists ro, b', c'. split; [now rewrite E | exact Hro].
Defined.

End LabRangeFacts.

Module MakeFacts.
Import Streams StreamFacts ObjectFacts Ranges.
Local Open Scope cos_scope.
Local Open Scope Z_scope.

(** The step of [pdf_make_iccbased] that deals with the alternate space. *)
Lemma alternate_step (pcs_alt : option gs_color_space) (ncomps : Z) (q : nat)
    (st : pdf_state) (code : result unit) (st' : pdf_state) :
  match pcs_alt with
  | Some pcs_alt =>
      match gs_color_space_get_index pcs_alt with
      | gs_color_space_index_DeviceGray
      | gs_color_space_index_DeviceRGB
      | gs_color_space_index_DeviceCMYK => (Ok tt, st)
      | _ =>
          (v <- pdf_color_space_named pcs_alt ;;
           cos_dict_put_c_key q "/Alternate" v) st
      end
  | None =>
      if negb (ncomps =? 1) && negb (ncomps =? 3) && negb (ncomps =? 4)
      then (Error gs_error_rangecheck, st)
      else (Ok tt, st)
  end = (code, st') ->
  (code = Ok tt /\
   objects st'
   = update (objects st) q
       (fun o => fold_left (fun o kv => dict_put (fst kv) (snd kv) o)
                   (alternate_entries pcs_alt) o) /\
   (pcs_alt = None -> ncomps = 1 \/ ncomps = 3 \/ ncomps = 4)) \/
  (exists e, code = Error e /\ objects st' = objects st /\
     (pcs_alt = None -> e = gs_error_rangecheck /\ st' = st /\
        ncomps <> 1 /\ ncomps <> 3 /\ ncomps <> 4)).
Proof.
  assert (Named : forall alt i,
            gs_color_space_get_index alt = i ->
            (v <- pdf_color_space_named alt ;;
             cos_dict_put_c_key q "/Alternate" v) st = (code, st') ->
            (code = Ok tt /\
             objects st'
             = update (objects st) q
                 (dict_put "/Alternate" (cos_resource_value i))) \/
            (exists e, code = Error e /\ objects st' = objects st)).
  { intros alt i Hi H.
    destruct (bind_inv H) as [(v & st1 & H1 & H2) | (e & H1 & ->)].
    - unfold pdf_color_space_named in H1.
      destruct (bind_ok_inv H1) as ([] & st2 & H3 & H4).
      inversion H4; subst. clear H4.
      destruct (fallible_inv H3) as (flt & st0 & Hn & Hr).
      destruct flt; destruct Hr as [Hr ->]; [discriminate |].
      pose proof (next_fault_objects Hn) as O1.
      destruct (fallible_modify_inv H2) as [[-> O2] | (e & -> & O2)].
      + left. split; [reflexivity |]. now rewrite O2, O1.
      + right. exists e. split; [reflexivity |]. now rewrite O2, O1.
    - right. exists e. split; [reflexivity |].
      unfold pdf_color_space_named in H1.
      destruct (bind_inv H1) as [([] & st2 & H3 & H4) | (e' & H3 & _)].
      + inversion H4.
      + destruct (fallible_inv H3) as (flt & st0 & Hn & Hr).
        destruct flt; destruct Hr as [Hr ->]; [| discriminate].
        exact (next_fault_objects Hn). }
  destruct pcs_alt as [alt |].
  - unfold alternate_entries.
    destruct (gs_color_space_get_index alt) eqn:Ei; intros H;
      try (inversion H; subst; left; split; [reflexivity |];
           split; [symmetry; refine (RangeFacts.update_id _ _) | discriminate]);
      (destruct (Named alt _ Ei H) as [[-> O] | (e & -> & O)];
       [ left; split; [reflexivity |]; split; [exact O | discriminate]
       | right; exists e; split; [reflexivity |]; split;
         [exact O | discriminate] ]).
  - destruct (Z.eqb_spec ncomps 1), (Z.eqb_spec ncomps 3),
      (Z.eqb_spec ncomps 4); cbn [negb andb]; intros H; inversion H; subst;
      try (left; split; [reflexivity |];
           split; [symmetry; refine (RangeFacts.update_id _ _) | auto]).
    right. exists gs_error_rangecheck. split; [reflexivity |].
    split; [reflexivity |]. intros _. repeat split; assumption.
Qed.


Lemma fold_dict_put_stream (es d : list (string * cos_value_t))
    (bs : list byte) (id : Z) :
  fold_left (fun o kv => dict_put (fst kv) (snd kv) o) es (cos_stream d bs id)
  = cos_stream (d ++ es) bs id.
Proof.
  revert d. induction es as [| [k x] es IH]; intros d; simpl.
  - now rewrite app_nil_r.
  - rewrite IH, <- app_assoc. reflexivity.
Qed.

(** The outcomes of [pdf_make_iccbased], in terms of the objects. *)
Lemma pdf_make_iccbased_inv pdev pgs pca ncomps prange pcs_alt pprange
    st r st' :
  pdf_make_iccbased pdev pgs pca ncomps prange pcs_alt pprange st = (r, st') ->
  let os := objects st in
  let q := List.length os in
  let os1 := update os pca (array_push (cos_c_string_value "/ICCBased")) in
  match r with
  | Ok p =>
      p = q /\
      objects st'
      = update
          (os1 ++ [cos_stream
                     (("/N"%string, cos_int_value ncomps)
                      :: alternate_entries pcs_alt) [] 0])
          pca (array_push (cos_object_value q)) /\
      (pcs_alt = None -> ncomps = 1 \/ ncomps = 3 \/ ncomps = 4)
  | Error e =>
      objects st' = os \/
      (e = gs_error_VMerror /\ objects st' = os1) \/
      objects st' = os1 ++ [cos_freed]
  end.
Proof.
  intros H os q os1. unfold pdf_make_iccbased in H.
  destruct (cos_array_add pca (cos_c_string_value "/ICCBased") st)
    as [[[] | e] st1] eqn:E1.
  2:{ destruct (fallible_modify_inv E1) as [[Habs _] | (e' & _ & O1)];
        [discriminate |].
      inversion H; subst. left. exact O1. }
  destruct (fallible_modify_inv E1) as [[_ O1] | (e' & Habs & _)];
    [| discriminate].
  fold os os1 in O1.
  assert (L1 : List.length os1 = q) by apply length_update.
  unfold cos_stream_alloc in H.
  destruct (alloc (cos_stream [] [] 0) st1) as [[p |] st2] eqn:E2.
  2:{ destruct (alloc_inv E2) as [[Habs _] | [_ O2]]; [discriminate |].
      inversion H; subst. right. left. split; [reflexivity | congruence]. }
  destruct (alloc_inv E2) as [[Ep O2] | [Habs _]]; [| discriminate].
  rewrite O1, L1 in Ep. inversion Ep; subst p. clear Ep.
  rewrite O1 in O2.
  assert (Free : forall (e : gs_error) (stx : pdf_state) (o : cos_object_t),
            objects stx = os1 ++ [o] ->
            objects (COS_FREE q stx) = os1 ++ [cos_freed]).
  { intros e stx o Ox. unfold COS_FREE, modify. simpl.
    rewrite Ox, <- L1. apply update_last. }
  cbv zeta in H.
  destruct (cos_dict_put_c_key_int q "/N" ncomps st2) as [[[] | e] st3] eqn:E3.
  2:{ destruct (fallible_modify_inv E3) as [[Habs _] | (e' & _ & O3)];
        [discriminate |].
      inversion H; subst. right. right.
      apply (Free e st3 (cos_stream [] [] 0)). congruence. }
  destruct (fallible_modify_inv E3) as [[_ O3] | (e' & Habs & _)];
    [| discriminate].
  rewrite O2, <- L1, update_last in O3. cbn [dict_put app] in O3.
  match type of H with
  | (let '(code, st) := ?alt in _) = _ =>
      destruct alt as [code st4] eqn:E4
  end.
  destruct (alternate_step pcs_alt ncomps q st3 code st4 E4)
    as [(-> & O4 & Hn) | (e & -> & O4 & _)].
  2:{ inversion H; subst. right. right.
      apply (Free e st4 (cos_stream [("/N"%string, cos_int_value ncomps)] [] 0)).
      congruence. }
  rewrite O3, <- L1, update_last, fold_dict_put_stream in O4.
  cbn [app] in O4.
  destruct (cos_array_add_object pca q st4) as [[[] | e] st5] eqn:E5.
  2:{ destruct (fallible_modify_inv E5) as [[Habs _] | (e' & _ & O5)];
        [discriminate |].
      inversion H; subst. right. right.
      apply (Free e st5 (cos_stream (("/N"%string, cos_int_value ncomps)
                                     :: alternate_entries pcs_alt) [] 0)).
      congruence. }
  destruct (fallible_modify_inv E5) as [[_ O5] | (e' & Habs & _)];
    [| discriminate].
  inversion H; subst. split; [reflexivity |]. split; [| exact Hn].
  rewrite O5, O4. reflexivity.
Qed.

(** X21: a successful [pdf_make_iccbased] on an array returns a new
    stream, allocated last, empty and with id 0, whose dictionary holds /N
    with the component count and, for an alternate space other than
    DeviceGray, DeviceRGB and DeviceCMYK, /Alternate; the array is extended
    by /ICCBased and the reference to the stream; no other object changes;
    without an alternate space the component count is 1, 3 or 4. *)
Theorem pdf_make_iccbased_result (pdev : gx_device_pdf)
    (pgs : option gs_gstate) (pca : nat) (ncomps : Z) (prange : list gs_range)
    (pcs_alt : option gs_color_space) (pprange : option (list gs_range))
    (st st' : pdf_state) (p : nat) (elements : list cos_value_t) :
  nth_error (objects st) pca = Some (cos_array elements) ->
  pdf_make_iccbased pdev pgs pca ncomps prange pcs_alt pprange st
  = (Ok p, st') ->
  p = List.length (objects st) /\
  nth_error (objects st') pca
  = Some (cos_array
            (elements ++ [cos_c_string_value "/ICCBased"; cos_object_value p])) /\
  nth_error (objects st') p
  = Some (cos_stream
            (("/N"%string, cos_int_value ncomps) :: alternate_entries pcs_alt)
            [] 0) /\
  List.length (objects st') = S (List.length (objects st)) /\
  (pcs_alt = None -> ncomps = 1 \/ ncomps = 3 \/ ncomps = 4) /\
  (forall i : nat,
     i <> pca -> (i < p)%nat ->
     nth_error (objects st') i = nth_error (objects st) i).
Proof.
  intros Ha H.
  pose proof (pdf_make_iccbased_inv _ _ _ _ _ _ _ _ _ _ H) as I.
  cbv zeta beta iota in I. destruct I as (-> & O & Hn).
  set (q := List.length (objects st)) in *.
  assert (Hlt : (pca < q)%nat).
  { unfold q. apply nth_error_Some. rewrite Ha. discriminate. }
  assert (L1 : List.length
                 (update (objects st) pca
                    (array_push (cos_c_string_value "/ICCBased"))) = q)
    by apply length_update.
  split; [reflexivity |]. rewrite O.
  split; [| split; [| split; [| split; [exact Hn |]]]].
  - rewrite nth_error_update, Nat.eqb_refl, nth_error_app1 by lia.
    rewrite nth_error_update, Nat.eqb_refl, Ha. cbn [option_map array_push].
    rewrite <- app_assoc. reflexivity.
  - rewrite nth_error_update.
    destruct (Nat.eqb_spec pca q) as [E | _]; [lia |].
    rewrite nth_error_app2, L1, Nat.sub_diag by lia. reflexivity.
  - rewrite length_update, length_app, L1. simpl. lia.
  - intros i Hi Hiq. rewrite nth_error_update.
    destruct (Nat.eqb_spec pca i) as [E | _]; [congruence |].
    rewrite nth_error_app1 by lia. rewrite nth_error_update.
    destruct (Nat.eqb_spec pca i) as [E | _]; [congruence | reflexivity].
Qed.

(** X22: a failed [pdf_make_iccbased] leaves no live stream behind (the
    stream is freed, or was never allocated), leaves every object other
    than the array as it was, and leaves the array as it was or with
    /ICCBased added. *)
Theorem pdf_make_iccbased_failure (pdev : gx_device_pdf)
    (pgs : option gs_gstate) (pca : nat) (ncomps : Z) (prange : list gs_range)
    (pcs_alt : option gs_color_space) (pprange : option (list gs_range))
    (st st' : pdf_state) (e : gs_error) (elements : list cos_value_t) :
  nth_error (objects st) pca = Some (cos_array elements) ->
  pdf_make_iccbased pdev pgs pca ncomps prange pcs_alt pprange st
  = (Error e, st') ->
  let q := List.length (objects st) in
  (nth_error (objects st') q = None \/
   nth_error (objects st') q = Some cos_freed) /\
  (nth_error (objects st') pca = Some (cos_array elements) \/
   nth_error (objects st') pca
   = Some (cos_array (elements ++ [cos_c_string_value "/ICCBased"]))) /\
  (forall i : nat,
     i <> pca -> (i < q)%nat ->
     nth_error (objects st') i = nth_error (objects st) i).
Proof.
  intros Ha H q.
  pose proof (pdf_make_iccbased_inv _ _ _ _ _ _ _ _ _ _ H) as I.
  cbv zeta beta iota in I. fold q in I.
  assert (Hlt : (pca < q)%nat).
  { unfold q. apply nth_error_Some. rewrite Ha. discriminate. }
  set (os1 := update (objects st) pca
                (array_push (cos_c_string_value "/ICCBased"))) in *.
  assert (L1 : List.length os1 = q) by apply length_update.
  assert (A1 : nth_error os1 pca
               = Some (cos_array (elements ++ [cos_c_string_value "/ICCBased"]))).
  { unfold os1. rewrite nth_error_update, Nat.eqb_refl, Ha. reflexivity. }
  assert (S1 : forall i, i <> pca ->
               nth_error os1 i = nth_error (objects st) i).
  { intros i Hi. unfold os1. rewrite nth_error_update.
    destruct (Nat.eqb_spec pca i); [congruence | reflexivity]. }
  destruct I as [O | [[_ O] | O]]; rewrite O.
  - split; [left; apply nth_error_None; unfold q; lia |].
    split; [left; exact Ha | reflexivity].
  - split; [left; apply nth_error_None; lia |].
    split; [right; exact A1 | intros i Hi _; now apply S1].
  - split; [right; rewrite nth_error_app2, L1, Nat.sub_diag by lia;
            reflexivity |].
    split; [right; rewrite nth_error_app1 by lia; exact A1 |].
    intros i Hi Hiq. rewrite nth_error_app1 by lia. now apply S1.
Qed.

(** X23: without an alternate space and with a component count
    other than 1, 3 and 4, [pdf_make_iccbased] from a state without pending
    faults returns a range-check error; the stream is freed, and the
    /ICCBased that was added first stays in the array. *)
Theorem pdf_make_iccbased_rejects_component_count (pdev : gx_device_pdf)
    (pgs : option gs_gstate) (pca : nat) (ncomps : Z) (prange : list gs_range)
    (pprange : option (list gs_range)) (st : pdf_state)
    (elements : list cos_value_t) :
  nth_error (objects st) pca = Some (cos_array elements) ->
  faults st = [] ->
  ncomps <> 1 -> ncomps <> 3 -> ncomps <> 4 ->
  let run := pdf_make_iccbased pdev pgs pca ncomps prange None pprange st in
  fst run = Error gs_error_rangecheck /\
  nth_error (objects (snd run)) (List.length (objects st)) = Some cos_freed /\
  nth_error (objects (snd run)) pca
  = Some (cos_array (elements ++ [cos_c_string_value "/ICCBased"])).
Proof.
  intros Ha F N1 N3 N4 run.
  assert (Hlt : (pca < List.length (objects st))%nat).
  { apply nth_error_Some. rewrite Ha. discriminate. }
  assert (E : exists st', run = (Error gs_error_rangecheck, st') /\
              objects st'
              = update (objects st) pca
                  (array_push (cos_c_string_value "/ICCBased")) ++ [cos_freed]).
  { unfold run, pdf_make_iccbased.
    destruct (TotalFacts.total_cos_array_add pca
                (cos_c_string_value "/ICCBased") st F)
      as ([] & st1 & E1 & F1).
    rewrite E1.
    destruct (fallible_modify_inv E1) as [[_ O1] | (e' & Habs & _)];
      [| discriminate].
    unfold cos_stream_alloc, alloc.
    rewrite (TotalFacts.next_fault_none st1 F1).
    set (q := List.length (objects st1)).
    set (st2 := with_objects st1 _).
    assert (F2 : faults st2 = []) by exact F1.
    destruct (TotalFacts.total_cos_dict_put_c_key q "/N" (cos_int_value ncomps)
                st2 F2) as ([] & st3 & E3 & F3).
    unfold cos_dict_put_c_key_int. rewrite E3.
    destruct (fallible_modify_inv E3) as [[_ O3] | (e' & Habs & _)];
      [| discriminate].
    apply Z.eqb_neq in N1, N3, N4. rewrite N1, N3, N4. cbn [negb andb].
    eexists. split; [reflexivity |].
    unfold COS_FREE, modify. simpl. rewrite O3. unfold st2. simpl.
    rewrite update_update. unfold q. rewrite update_last, O1. reflexivity. }
  destruct E as (st' & -> & O). cbn [fst snd]. rewrite O.
  split; [reflexivity |]. split.
  - rewrite nth_error_app2 by (rewrite length_update; lia).
    rewrite length_update, Nat.sub_diag. reflexivity.
  - rewrite nth_error_app1 by (rewrite length_update; lia).
    rewrite nth_error_update, Nat.eqb_refl, Ha. reflexivity.
Qed.

Lemma sample_make_succeeds :
  pdf_make_iccbased Examples.pdf13 None Examples.pca0 3 [] None None
    Examples.st0
  = (Ok 1%nat,
     snd (pdf_make_iccbased Examples.pdf13 None Examples.pca0 3 [] None None
            Examples.st0)).
Proof. reflexivity. Qed.

Lemma pdf_make_iccbased_result_witness :
  nth_error
    (objects
       (snd (pdf_make_iccbased Examples.pdf13 None Examples.pca0 3 [] None None
               Examples.st0))) 1
  = Some (cos_stream
            (("/N"%string, cos_int_value 3) :: alternate_entries None) [] 0).
Proof.
  exact (proj1 (proj2 (proj2
    (pdf_make_iccbased_result Examples.pdf13 None Examples.pca0 3 [] None None
       Examples.st0 _ 1%nat [] eq_refl sample_make_succeeds)))).
Defined.

Lemma sample_make_fails :
  pdf_make_iccbased Examples.pdf13 None Examples.pca0 2 [] None None
    Examples.st0
  = (Error gs_error_rangecheck,
     snd (pdf_make_iccbased Examples.pdf13 None Examples.pca0 2 [] None None
            Examples.st0)).
Proof. reflexivity. Qed.

Lemma pdf_make_iccbased_failure_witness :
  nth_error
    (objects
       (snd (pdf_make_iccbased Examples.pdf13 None Examples.pca0 2 [] None None
               Examples.st0))) 1 = None \/
  nth_error
    (objects
       (snd (pdf_make_iccbased Examples.pdf13 None Examples.pca0 2 [] None None
               Examples.st0))) 1 = Some cos_freed.
Proof.
  exact (proj1
    (pdf_make_iccbased_failure Examples.pdf13 None Examples.pca0 2 [] None None
       Examples.st0 _ _ [] eq_refl sample_make_fails)).
Defined.

Lemma pdf_make_iccbased_rejects_component_count_witness :
  fst (pdf_make_iccbased Examples.pdf13 None Examples.pca0 2 [] None None
         Examples.st0)
  = Error gs_error_rangecheck.
Proof.
  refine (proj1
    (pdf_make_iccbased_rejects_component_count Examples.pdf13 None
       Examples.pca0 2 [] None Examples.st0 [] eq_refl eq_refl _ _ _));
    discriminate.
Defined.

End MakeFacts.

Module RegistrationFacts.
Import Profile Synthesis Entry Streams StreamFacts ProfileFacts TotalFacts
  ObjectFacts.
Local Open Scope cos_scope.
Local Open Scope Z_scope.

(** The end of [pdf_iccbased_color_space] when the original bytes are
    streamed and no call fails. *)
Lemma transfer_original_end pdev pgs pcs p st d :
  stream_at st p d ->
  faults st = [] ->
  let run := transfer_profile pdev pgs pcs p false st in
  fst run = Ok tt /\
  resources (snd run)
  = resources st
    ++ [{| rtype := resourceOther; rid := stream_id st p; object := p |}] /\
  nth_error (objects (snd run)) (List.length (objects st)) = Some cos_freed /\
  List.length (objects (snd run)) = S (List.length (objects st)) /\
  written (snd run) = written st ++ [(p, resourceICC)] /\
  stream_id (snd run) p = next_id st + 1 /\
  faults (snd run) = [].
Proof.
  intros Hs F run.
  pose proof (EmbedFacts.stream_at_lt _ _ _ Hs) as Hlt.
  destruct Hs as (dict & id & Hp).
  unfold run, transfer_profile, cos_stream_add_bytes, fallible.
  rewrite (next_fault_none st F).
  set (bs := take_bytes _ _).
  set (st1 := modify p (stream_append bs) st).
  assert (F1 : faults st1 = []) by exact F.
  assert (I1 : stream_id st1 p = stream_id st p).
  { unfold stream_id, st1, modify. cbn [objects with_objects].
    rewrite nth_error_update, Nat.eqb_refl, Hp. reflexivity. }
  assert (L1 : List.length (objects st1) = List.length (objects st)).
  { unfold st1, modify. cbn [objects with_objects]. apply length_update. }
  assert (P1 : nth_error (objects st1) p = Some (cos_stream dict (d ++ bs) id)).
  { unfold st1, modify. cbn [objects with_objects].
    rewrite nth_error_update, Nat.eqb_refl, Hp. reflexivity. }
  assert (R1 : resources st1 = resources st) by reflexivity.
  assert (W1 : written st1 = written st) by reflexivity.
  assert (N1 : next_id st1 = next_id st) by reflexivity.
  clearbody st1. cbv iota beta.
  unfold pdf_alloc_resource. rewrite (next_fault_none st1 F1). cbv iota beta.
  set (st2 := {| objects := objects st1 ++ [cos_dict []];
                 next_id := next_id st1; written := written st1;
                 resources := resources st1 ++ _;
                 cms_requests := cms_requests st1; faults := faults st1 |}).
  assert (R : resource_object st2 (List.length (resources st1))
              = List.length (objects st1)).
  { unfold resource_object, st2. cbn [resources].
    rewrite nth_error_app2, Nat.sub_diag by lia. reflexivity. }
  rewrite R.
  set (st3 := set_resource_object _ p (COS_FREE _ st2)).
  assert (F3 : faults st3 = []) by exact F1.
  assert (O3 : objects st3 = objects st1 ++ [cos_freed]).
  { unfold st3, set_resource_object, COS_FREE, modify, st2.
    cbn [objects with_objects]. apply update_last. }
  assert (R3 : resources st3
               = resources st
                 ++ [{| rtype := resourceOther; rid := stream_id st p;
                        object := p |}]).
  { unfold st3, set_resource_object, COS_FREE, modify, st2.
    cbn [resources with_objects]. rewrite update_last, I1, R1. reflexivity. }
  assert (W3 : written st3 = written st) by exact W1.
  assert (N3 : next_id st3 = next_id st) by exact N1.
  clearbody st3. clear R. clear st2.
  unfold pdf_finish_iccbased, bind, pdf_obj_ref, cos_write_object, fallible.
  cbv iota beta.
  match goal with
  | |- context [next_fault ?s] =>
      assert (Fn : next_fault s = (None, s))
        by (apply next_fault_none; exact F3);
      rewrite Fn
  end.
  cbn [fst snd objects resources written faults modify with_objects].
  split; [reflexivity |]. split; [exact R3 |]. split.
  { rewrite nth_error_update.
    destruct (Nat.eqb_spec p (List.length (objects st))) as [E | _]; [lia |].
    rewrite O3, nth_error_app2, L1, Nat.sub_diag by lia. reflexivity. }
  split; [rewrite length_update, O3, length_app, L1; simpl; lia |].
  split; [now rewrite W3 |]. split; [| exact F3].
  unfold stream_id. cbn [objects].
  rewrite nth_error_update, Nat.eqb_refl, O3, nth_error_app1, P1 by lia.
  cbn [option_map stream_set_id]. now rewrite N3.
Qed.

(** [pdf_iccbased_color_space] after the stream has been created, for a
    profile of an allowed native space. *)
Lemma iccbased_after_make pdev pgs pcs pca st p st1 :
  let profile := cmm_icc_profile_data pcs in
  let major := to_byte (vers_major profile) in
  let minor := Z.shiftr (to_byte (vers_minor profile)) 4 in
  let level := CompatibilityLevel pdev in
  In (data_cs profile) Stated.allow_list ->
  pdf_make_iccbased pdev pgs pca (num_comps profile) (Range profile)
    (base_space pcs) None st = (Ok p, st1) ->
  pdf_iccbased_color_space pdev pgs pcs pca st
  = (if Qlt_bool level 1.3 then return_error gs_error_rangecheck st1
     else
       transfer_profile pdev pgs pcs p
         (if Qlt_bool level 1.5 then (if (major >? 2)%Z then true else false)
          else if Qeq_bool level 1.5 then
            (if (major >? 4)%Z || (minor >? 0)%Z then true else false)
          else if Qeq_bool level 1.6 then
            (if (major >? 4)%Z || (minor >? 1)%Z then true else false)
          else
            (if (major >? 4)%Z || (minor >? 2)%Z then true else false))
         st1).
Proof.
  intros profile major minor level Hcs Hmk.
  unfold pdf_iccbased_color_space. cbv zeta. fold profile.
  unfold Stated.allow_list in Hcs.
  destruct (data_cs profile) eqn:Ecs;
    try (exfalso; simpl in Hcs; decompose [or] Hcs; congruence);
    unfold bind; cbv beta; rewrite Hmk; unfold gsicc_getprofilevers;
    cbv iota beta; fold profile; fold major; fold minor; fold level;
    destruct (Qlt_bool level 1.3); reflexivity.
Qed.

(** X24: for a profile of an allowed native space whose version is
    within the ceiling of the level, once its stream is created and with no
    fault pending, [pdf_iccbased_color_space] succeeds; the resource chain
    gains one resourceOther entry, made with the id that the stream has at
    that time (0) and with the stream as its object, and the object the
    entry was created with is freed; the stream is scheduled for writing
    once, as resourceICC, under a fresh id. *)
Theorem embedded_stream_is_registered (pdev : gx_device_pdf)
    (pgs : option gs_gstate) (pcs : gs_color_space) (pca : nat)
    (st : pdf_state) (p : nat) (st1 : pdf_state) :
  let profile := cmm_icc_profile_data pcs in
  let major := to_byte (vers_major profile) in
  let minor := Z.shiftr (to_byte (vers_minor profile)) 4 in
  let level := CompatibilityLevel pdev in
  let run := pdf_iccbased_color_space pdev pgs pcs pca st in
  In (data_cs profile) Stated.allow_list ->
  pdf_make_iccbased pdev pgs pca (num_comps profile) (Range profile)
    (base_space pcs) None st = (Ok p, st1) ->
  faults st1 = [] ->
  Stated.within_ceiling level major minor = Some true ->
  fst run = Ok tt /\
  resources (snd run)
  = resources st1
    ++ [{| rtype := resourceOther; rid := stream_id st1 p; object := p |}] /\
  stream_id st1 p = 0 /\
  nth_error (objects (snd run)) (List.length (objects st1)) = Some cos_freed /\
  List.length (objects (snd run)) = S (List.length (objects st1)) /\
  written (snd run) = written st1 ++ [(p, resourceICC)] /\
  stream_id (snd run) p = next_id st1 + 1.
Proof.
  intros profile major minor level run Hcs Hmk F Hc.
  destruct (pdf_make_iccbased_ok Hmk) as [Hp Hs].
  destruct (EmbedFacts.version_gate _ _ _ _ Hc) as [E13 Eg].
  unfold run.
  rewrite (iccbased_after_make pdev pgs pcs pca st p st1 Hcs Hmk).
  fold profile major minor level. rewrite E13, Eg. cbn [negb].
  destruct (transfer_original_end pdev pgs pcs p st1 [] Hs F)
    as (A & B & C & D & E & G & _).
  split; [exact A |]. split; [exact B |]. split; [| auto].
  pose proof (MakeFacts.pdf_make_iccbased_inv _ _ _ _ _ _ _ _ _ _ Hmk) as I.
  cbv zeta beta iota in I. destruct I as (_ & O & _).
  unfold stream_id. rewrite O, nth_error_update.
  set (os1 := update (objects st) pca _) in *.
  assert (L1 : List.length os1 = List.length (objects st))
    by apply length_update.
  rewrite Hp, nth_error_app2, L1, Nat.sub_diag by lia.
  cbn [nth_error].
  destruct (Nat.eqb pca (List.length (objects st))); reflexivity.
Qed.

Lemma sample_embed_made :
  pdf_make_iccbased Examples.pdf17 (Some Examples.some_gstate) Examples.pca0 3
    [] None None Examples.st0
  = (Ok 1%nat,
     snd (pdf_make_iccbased Examples.pdf17 (Some Examples.some_gstate)
            Examples.pca0 3 [] None None Examples.st0)).
Proof. reflexivity. Qed.

Lemma embedded_stream_is_registered_witness :
  written
    (snd (pdf_iccbased_color_space Examples.pdf17 (Some Examples.some_gstate)
            Examples.icc_space42 Examples.pca0 Examples.st0))
  = written
      (snd (pdf_make_iccbased Examples.pdf17 (Some Examples.some_gstate)
              Examples.pca0 3 [] None None Examples.st0))
    ++ [(1%nat, resourceICC)].
Proof.
  refine (proj1 (proj2 (proj2 (proj2 (proj2 (proj2
    (embedded_stream_is_registered Examples.pdf17 (Some Examples.some_gstate)
       Examples.icc_space42 Examples.pca0 Examples.st0 1%nat _ _
       sample_embed_made eq_refl eq_refl)))))));
    simpl; auto.
Defined.

End RegistrationFacts.

Module HeaderFacts.
Import Profile Synthesis Streams StreamFacts ProfileFacts Layout.
Local Open Scope Z_scope.

(** The header, byte by byte. *)
Lemma profile_header_bytes (dcsname : string) (wtpt : list byte) (size : Z) :
  profile_header dcsname wtpt size
  = set_uint32 size
    ++ [0; 0; 0; 0; 2; 32; 0; 0]
    ++ bytes_of_string "scnr"
    ++ take_bytes 4 (bytes_of_string dcsname)
    ++ bytes_of_string "XYZ "
    ++ [7; 210; 0; 1; 0; 1; 0; 0; 0; 0; 0; 0]
    ++ bytes_of_string "acsp"
    ++ [0; 0; 0; 0; 0; 0; 0; 3; 0; 0; 0; 0; 0; 0; 0; 0; 0; 0; 0; 0;
        0; 0; 0; 0; 0; 0; 0; 2]
    ++ take_bytes 12 (skipn 8 wtpt)
    ++ zeros 48.
Proof.
  unfold profile_header, memcpy.
  pose proof (take_bytes_length 4 (bytes_of_string dcsname)) as LD.
  pose proof (take_bytes_length 12 (skipn 8 wtpt)) as LW.
  set (D := take_bytes 4 (bytes_of_string dcsname)) in *.
  set (W := take_bytes 12 (skipn 8 wtpt)) in *.
  clearbody D W.
  destruct D as [| d0 [| d1 [| d2 [| d3 [| ? ?]]]]]; try discriminate LD.
  destruct W as [| w0 [| w1 [| w2 [| w3 [| w4 [| w5 [| w6 [| w7 [| w8
    [| w9 [| w10 [| w11 [| ? ?]]]]]]]]]]]]]; try discriminate LW.
  reflexivity.
Qed.

Section Header.
Variable gx_cie_cache_size : Z.

(** X25: the stream of a synthesized profile starts with the header of
    the code: version 2.2.0 at offset 8, class scnr at 12, the first four
    bytes of dcsname as data colour space at 16, XYZ as connection space at
    20, the date 1/1/2002 at 24, acsp at 36, flags 3, the encoded D50 as
    illuminant at 68, and zeros from 80 to 127. *)
Theorem synthesized_header_fields (pdev : gx_device_pdf) (pca : nat)
    (pcs : gs_color_space) (dcsname : string) (pciec : gs_cie_common)
    (prange : list gs_range) (one_step : cie_cache_one_step_t)
    (pmat : option gs_matrix3) (pprange : option (list gs_range))
    (st st' : pdf_state) :
  pdf_convert_cie_to_iccbased gx_cie_cache_size pdev pca pcs dcsname pciec
    prange one_step pmat pprange st = (Ok tt, st') ->
  let d := stream_data st' (List.length (objects st)) in
  Stated.slice d 4 8 = [0; 0; 0; 0; 2; 32; 0; 0] /\
  Stated.slice d 12 4 = bytes_of_string "scnr" /\
  Stated.slice d 16 4 = take_bytes 4 (bytes_of_string dcsname) /\
  Stated.slice d 20 4 = bytes_of_string "XYZ " /\
  Stated.slice d 24 12 = [7; 210; 0; 1; 0; 1; 0; 0; 0; 0; 0; 0] /\
  Stated.slice d 36 4 = bytes_of_string "acsp" /\
  Stated.slice d 40 28
  = [0; 0; 0; 0; 0; 0; 0; 3; 0; 0; 0; 0; 0; 0; 0; 0; 0; 0; 0; 0;
     0; 0; 0; 0; 0; 0; 0; 2] /\
  Stated.slice d 68 12 = [0; 0; 246; 213; 0; 1; 0; 0; 0; 0; 211; 44] /\
  Stated.slice d 80 48 = zeros 48.
Proof.
  intros Hrun d.
  pose proof (LayoutFacts.emitted_bytes gx_cie_cache_size pdev pca pcs dcsname
                pciec prange one_step pmat pprange st st' Hrun) as Hs.
  apply stream_at_data in Hs. fold d in Hs.
  unfold profile_bytes in Hs.
  set (size := snd _) in Hs.
  rewrite (take_bytes_exact (Z.to_nat sizeof_header)) in Hs
    by apply profile_header_length.
  rewrite profile_header_bytes, ReaderFacts.wtpt_data in Hs.
  pose proof (take_bytes_length 4 (bytes_of_string dcsname)) as LD.
  set (D := take_bytes 4 (bytes_of_string dcsname)) in *.
  clearbody D.
  destruct D as [| d0 [| d1 [| d2 [| d3 [| ? ?]]]]]; try discriminate LD.
  rewrite Hs. repeat split.
Qed.

End Header.

Lemma synthesized_header_fields_witness :
  Stated.slice (stream_data (snd MoreExamples.sample_synthesis) 1) 36 4
  = bytes_of_string "acsp".
Proof.
  exact (proj1 (proj2 (proj2 (proj2 (proj2 (proj2
    (synthesized_header_fields 512 Examples.pdf13 Examples.pca0
       Examples.gray_space "GRAY" Examples.d65_white [] ONE_STEP_NOT None None
       Examples.st0 (snd MoreExamples.sample_synthesis)
       LayoutFacts.sample_synthesis_succeeds))))))).
Defined.

(** *** The tags of a profile *)

Lemma profile_tags cache pdev pcs pciec one_step pmat pprange wd50 :
  map tag (profile_tables cache pdev pcs pciec one_step pmat pprange wd50)
  = match one_step, pmat with
    | (ONE_STEP_ABC | ONE_STEP_LMN), Some _ =>
        ["desc"; "wtpt"; "cprt"; "rTRC"; "gTRC"; "bTRC"; "rXYZ"; "gXYZ";
         "bXYZ"]%string
    | _, _ => ["desc"; "wtpt"; "cprt"; "A2B0"]%string
    end.
Proof.
  unfold profile_tables.
  destruct (add_a2b0 (gs_color_space_num_components pcs) pcs) as [a pnt] eqn:E.
  assert (T : tag pnt = "A2B0"%string).
  { replace pnt with (snd (add_a2b0 (gs_color_space_num_components pcs) pcs))
      by now rewrite E.
    reflexivity. }
  destruct one_step, pmat as [m |]; try destruct pprange as [r |];
    cbn [map app tag set_ranges add_table add_table_xyz3 add_trc set_write
         set_length];
    rewrite ?T; reflexivity.
Qed.

Section Tags.
Variable gx_cie_cache_size : Z.

(** X26: a synthesized profile has the nine tags desc, wtpt, cprt, rTRC,
    gTRC, bTRC, rXYZ, gXYZ, bXYZ when one_step is ONE_STEP_ABC or
    ONE_STEP_LMN and a matrix is given, and the four tags desc, wtpt, cprt,
    A2B0 otherwise, whatever the number of components: the count at offset
    128 of the stream and the signatures of its directory are these. *)
Theorem profile_tag_directory (pdev : gx_device_pdf) (pca : nat)
    (pcs : gs_color_space) (dcsname : string) (pciec : gs_cie_common)
    (prange : list gs_range) (one_step : cie_cache_one_step_t)
    (pmat : option gs_matrix3) (pprange : option (list gs_range))
    (st st' : pdf_state) :
  0 <= gx_cie_cache_size <= 2 ^ 20 ->
  pdf_convert_cie_to_iccbased gx_cie_cache_size pdev pca pcs dcsname pciec
    prange one_step pmat pprange st = (Ok tt, st') ->
  let d := stream_data st' (List.length (objects st)) in
  let names :=
    match one_step, pmat with
    | (ONE_STEP_ABC | ONE_STEP_LMN), Some _ =>
        ["desc"; "wtpt"; "cprt"; "rTRC"; "gTRC"; "bTRC"; "rXYZ"; "gXYZ";
         "bXYZ"]%string
    | _, _ => ["desc"; "wtpt"; "cprt"; "A2B0"]%string
    end in
  Stated.tag_count d = Z.of_nat (List.length names) /\
  forall (i : nat) (name : string),
    nth_error names i = Some name ->
    Stated.slice d (132 + 12 * i) 4 = bytes_of_string name.
Proof.
  intros Hc Hrun d names.
  destruct (LayoutFacts.emitted_parts gx_cie_cache_size pdev pca pcs dcsname
              pciec prange one_step pmat pprange st st' Hc Hrun)
    as (Hd & _ & _ & Hlens & Hfit & Hentries).
  fold d in Hd.
  set (tables := profile_tables gx_cie_cache_size pdev pcs pciec one_step pmat
                   pprange white_d50) in *.
  set (lens := lengths tables) in *.
  set (n := Z.of_nat (List.length tables)) in *.
  set (g := fun t => payload gx_cie_cache_size t pciec ++ padding t) in *.
  set (hd := profile_header _ _ _) in *.
  set (dir := fst (directory tables (132 + 12 * n))) in *.
  pose proof (profile_tags gx_cie_cache_size pdev pcs pciec one_step pmat
                pprange white_d50) as Htags.
  fold tables in Htags. fold names in Htags.
  assert (Hn : List.length names = List.length tables).
  { rewrite <- Htags. apply length_map. }
  assert (Lh : List.length hd = 128%nat) by apply profile_header_length.
  assert (Ldir : List.length dir = (12 * List.length tables)%nat).
  { unfold dir. apply directory_length. }
  assert (N9 : 0 <= n <= 9).
  { unfold n. rewrite <- Hn. unfold names.
    destruct one_step, pmat; simpl; lia. }
  split.
  - unfold Stated.tag_count. rewrite Hd.
    change 128%nat with (128 + 0)%nat.
    rewrite (ReaderFacts.slice_skip _ _ 128 0 4 Lh), <- app_assoc.
    change (Stated.slice (set_uint32 n ++ dir ++ flat_map g tables) 0 4)
      with (set_uint32 n).
    rewrite ReaderFacts.get_set_uint32 by lia. unfold n. now rewrite Hn.
  - intros i name Hi.
    assert (Hlt : (i < List.length tables)%nat).
    { rewrite <- Hn. apply nth_error_Some. rewrite Hi. discriminate. }
    rewrite <- Htags, nth_error_map in Hi.
    destruct (nth_error tables i) as [t |] eqn:Et; [| discriminate].
    inversion Hi as [Ht]. clear Hi.
    rewrite Hd.
    replace (132 + 12 * i)%nat with (128 + (4 + 12 * i))%nat by lia.
    rewrite (ReaderFacts.slice_skip _ _ 128 _ 4 Lh), <- app_assoc.
    rewrite (ReaderFacts.slice_skip (set_uint32 n) _ 4 _ 4 eq_refl).
    rewrite ReaderFacts.slice_inside by (rewrite Ldir; lia).
    assert (S : Stated.slice dir (12 * i) 4
                = Stated.slice (Stated.slice dir (12 * i) 12) 0 4).
    { unfold Stated.slice. cbn [skipn]. now rewrite firstn_firstn. }
    rewrite S, (Hentries i t Et). unfold entry.
    rewrite ReaderFacts.slice_take by apply take_bytes_length.
    rewrite Ht.
    assert (L4 : List.length (bytes_of_string name) = 4%nat).
    { assert (Hin : In name names).
      { rewrite <- Htags. rewrite <- Ht. apply in_map.
        eapply nth_error_In; exact Et. }
      unfold names in Hin.
      destruct one_step, pmat; simpl in Hin;
        repeat (destruct Hin as [<- | Hin]; [reflexivity |]); contradiction. }
    now apply take_bytes_exact.
Qed.

End Tags.

Lemma profile_tag_directory_witness :
  Stated.tag_count (stream_data (snd MoreExamples.sample_curves) 1) = 9.
Proof.
  exact (proj1
    (profile_tag_directory 512 Examples.pdf13 Examples.pca0
       Examples.abc_space "RGB " Examples.d65_white [] ONE_STEP_ABC
       (Some Examples.rgb_matrix) None Examples.st0
       (snd MoreExamples.sample_curves) LayoutFacts.cache_512
       LayoutFacts.sample_curves_succeeds)).
Defined.

End HeaderFacts.

Module LutTableFacts.
Import Profile Synthesis Streams StreamFacts ProfileFacts Layout.
Local Open Scope Z_scope.




Section Lut.
Variable gx_cie_cache_size : Z.



End Lut.



End LutTableFacts.
